(** * GoDash: a shallow embedding of the dashboard's panels and stores

    The development follows the Go sources package by package:
    - [time], [os], [json], [utf8]: the parts of the Go standard library
      the program relies on (wall clock, files, JSON documents, text
      encoding);
    - [key], [tea] and the Bubble Tea components the panels are built from;
    - [config]  (internal/config/config.go): settings persistence;
    - [weather] (widgets/weather): weather codes, icons and drawings;
    - [todo]    (widgets/todo/todo.go): the task panel and its task file;
    - [calendar] (widgets/calendar): the calendar panel, its month cache,
      the cool-down of fetches and the arithmetic of its view;
    - [notes]   (widgets/notes): the note list, its files and its
      first-run seeding;
    - [main]    (main.go): the bindings, the dashboard dispatcher and the
      pane geometry;
    - [app]     (main.go): the program's [Update], the note editor and the
      confirmation dialog.

    Go's [int] is a 64-bit integer; the quantities below (widths, heights,
    years, nanoseconds) are modelled in [Z] and integer division truncates
    towards zero as Go's does ([Z.quot]). A function that dereferences a
    pointer that may be nil returns an [Outcome]: its value, or the panic
    of the Go runtime, which ends the program. *)

From Stdlib Require Import ZArith List String Ascii Bool Lia.
From stdpp Require Import base gmap strings list sorting.

Import ListNotations.
Set Warnings "-register-all".
Local Open Scope string_scope.
Local Open Scope list_scope.
Local Open Scope Z_scope.

(** ** Strings *)

Module strings.

Definition HasSuffix (s suffix : string) : bool :=
  (String.length suffix <=? String.length s)%nat &&
  String.eqb
    (String.substring (String.length s - String.length suffix)
                      (String.length suffix) s)
    suffix.

Definition HasPrefix (s pre : string) : bool := String.prefix pre s.

Definition TrimSuffix (s suffix : string) : string :=
  if HasSuffix s suffix
  then String.substring 0 (String.length s - String.length suffix) s
  else s.

Definition TrimPrefix (s pre : string) : string :=
  if HasPrefix s pre
  then String.substring (String.length pre)
                        (String.length s - String.length pre) s
  else s.

(** [ReplaceAll] for a one-byte pattern, the only use the program makes. *)
Fixpoint ReplaceAll1 (s : string) (old : ascii) (new : string) : string :=
  match s with
  | EmptyString => EmptyString
  | String c rest =>
      if Ascii.eqb c old then new +:+ ReplaceAll1 rest old new
      else String c (ReplaceAll1 rest old new)
  end.

Fixpoint filter (p : ascii -> bool) (s : string) : string :=
  match s with
  | EmptyString => EmptyString
  | String c rest => if p c then String c (filter p rest) else filter p rest
  end.

Fixpoint forallb (p : ascii -> bool) (s : string) : bool :=
  match s with
  | EmptyString => true
  | String c rest => p c && forallb p rest
  end.

Definition is_digit (c : ascii) : bool :=
  let n := nat_of_ascii c in ((48 <=? n) && (n <=? 57))%nat.

Definition is_upper (c : ascii) : bool :=
  let n := nat_of_ascii c in ((65 <=? n) && (n <=? 90))%nat.

Definition is_lower (c : ascii) : bool :=
  let n := nat_of_ascii c in ((97 <=? n) && (n <=? 122))%nat.

Definition to_lower (c : ascii) : ascii :=
  if is_upper c then ascii_of_nat (nat_of_ascii c + 32) else c.

Fixpoint ToLower (s : string) : string :=
  match s with
  | EmptyString => EmptyString
  | String c rest => String (to_lower c) (ToLower rest)
  end.

(** ASCII case folding, as [strings.EqualFold] on ASCII text. *)
Definition EqualFold (s t : string) : bool :=
  String.eqb (ToLower s) (ToLower t).

(** Decimal digits of a non-negative number, most significant first.
    Twenty digits cover every 64-bit value. *)
Fixpoint digits_go (fuel : nat) (n : Z) (acc : string) : string :=
  match fuel with
  | O => acc
  | S fuel' =>
      let acc' := String (ascii_of_nat (48 + Z.to_nat (n mod 10))) acc in
      if n <? 10 then acc' else digits_go fuel' (n / 10) acc'
  end.

Definition digits (n : Z) : string := digits_go 20 n EmptyString.

Fixpoint zeros (k : nat) : string :=
  match k with
  | O => EmptyString
  | S k' => String "0" (zeros k')
  end.

(** [appendInt] of package time: the decimal text of [x], zero-padded to
    [width] digits, with a leading minus sign for negative values. *)
Definition appendInt (x : Z) (width : nat) : string :=
  let d := digits (Z.abs x) in
  let padded := zeros (width - String.length d) +:+ d in
  if x <? 0 then String "-" padded else padded.

End strings.

(** ** Package unicode/utf8 *)

Module utf8.

(** The first byte of a sequence: how many bytes follow it and the range
    the second byte must lie in (the tables [first] and [acceptRanges]). *)
Definition accept (c : Z) : option (nat * Z * Z) :=
  if c <? 128 then Some (0%nat, 0, 0)
  else if (194 <=? c) && (c <=? 223) then Some (1%nat, 128, 191)
  else if c =? 224 then Some (2%nat, 160, 191)
  else if (225 <=? c) && (c <=? 236) then Some (2%nat, 128, 191)
  else if c =? 237 then Some (2%nat, 128, 159)
  else if (238 <=? c) && (c <=? 239) then Some (2%nat, 128, 191)
  else if c =? 240 then Some (3%nat, 144, 191)
  else if (241 <=? c) && (c <=? 243) then Some (3%nat, 128, 191)
  else if c =? 244 then Some (3%nat, 128, 143)
  else None.

(** The ranges of the bytes that follow the first one. *)
Definition continuation (n : nat) (lo hi : Z) : list (Z * Z) :=
  match n with
  | O => []
  | S k => (lo, hi) :: repeat (128, 191) k
  end.

Fixpoint valid (s : string) (pending : list (Z * Z)) : bool :=
  match s with
  | EmptyString => match pending with [] => true | _ => false end
  | String c rest =>
      let n := Z.of_nat (nat_of_ascii c) in
      match pending with
      | (lo, hi) :: more => (lo <=? n) && (n <=? hi) && valid rest more
      | [] =>
          match accept n with
          | Some (k, lo, hi) => valid rest (continuation k lo hi)
          | None => false
          end
      end
  end.

(** [utf8.ValidString(s)] *)
Definition ValidString (s : string) : bool := valid s [].

End utf8.

(** ** Package time *)

Module time.

(** A [time.Time] is an instant, kept as nanoseconds since the Unix epoch,
    together with the civil date its Location shows for that instant. The
    program reads only these: [Year()], [Month()], [Day()], the
    ["2006-01"] rendering, and differences of instants. *)
Record Time := mkTime {
  unixNano : Z;
  Year : Z;
  Month : Z;
  Day : Z
}.

Definition Duration := Z.

Definition Nanosecond : Duration := 1.
Definition Second : Duration := 1000000000.
Definition minDuration : Duration := - 2 ^ 63.
Definition maxDuration : Duration := 2 ^ 63 - 1.

(** The zero [Time]: January 1, year 1, 00:00 UTC. *)
Definition zero : Time := mkTime (-62135596800 * Second) 1 1 1.

(** [t.Sub(u)]: the difference, saturated to the range of a Duration. *)
Definition Sub (t u : Time) : Duration :=
  let d := unixNano t - unixNano u in
  if d <? minDuration then minDuration
  else if maxDuration <? d then maxDuration
  else d.

(** [time.Since(t)] is [time.Now().Sub(t)]. *)
Definition Since (now t : Time) : Duration := Sub now t.

(** [t.Format("2006-01")]. *)
Definition Format_2006_01 (t : Time) : string :=
  strings.appendInt (Year t) 4 +:+ "-" +:+ strings.appendInt (Month t) 2.

Inductive Layout := RFC3339 | DateOnly.

End time.

(** ** Errors *)

(** Go's [error] values the program can meet. *)
Inductive error :=
| ErrNotExist                       (* fs.ErrNotExist *)
| ErrPermission                     (* any other failure of a file read or write *)
| SyntaxError                       (* encoding/json: malformed document *)
| UnmarshalTypeError (field : string) (* encoding/json: value of the wrong type *)
| ErrAuthRequired                   (* calendar.ErrAuthRequired *)
| errorString (msg : string).       (* errors.New / fmt.Errorf *)

#[global] Instance error_eq_dec : EqDecision error.
Proof. solve_decision. Defined.

(** ** Package os: files *)

Module os.

(** A path either names a regular file or a file that cannot be read or
    overwritten. Directories are not nodes: [main] creates the
    configuration, data, cache and notes directories ([EnsureDirs]) before
    any other file operation, so they exist whenever the code below runs,
    and sub-directories inside them are left out of the model. *)
Inductive Node :=
| Regular (content : string)
| Unreadable.

Definition ReadFile (fs : gmap string Node) (path : string)
  : string + error :=
  match fs !! path with
  | None => inr ErrNotExist
  | Some Unreadable => inr ErrPermission
  | Some (Regular content) => inl content
  end.

Definition IsNotExist (err : error) : bool :=
  match err with ErrNotExist => true | _ => false end.

(** [os.WriteFile]: creates the file or replaces its content. *)
Definition WriteFile (fs : gmap string Node) (path data : string)
  : gmap string Node * option error :=
  match fs !! path with
  | Some Unreadable => (fs, Some ErrPermission)
  | _ => (<[path := Regular data]> fs, None)
  end.

Definition Remove (fs : gmap string Node) (path : string)
  : gmap string Node := delete path fs.

Record DirEntry := mkDirEntry { Name : string; IsDir : bool }.

Definition Join (dir name : string) : string := dir +:+ "/" +:+ name.

Definition has_separator (s : string) : bool :=
  negb (strings.forallb (fun c => negb (Ascii.eqb c "/")) s).

(** The name of [path] inside [dir], when [path] lies directly in it. *)
Definition entry_name (dir path : string) : option string :=
  let pre := dir +:+ "/" in
  if strings.HasPrefix path pre then
    let name := strings.TrimPrefix path pre in
    if String.eqb name "" || has_separator name then None else Some name
  else None.

Definition name_le (a b : DirEntry) : Prop :=
  Is_true (String.leb (Name a) (Name b)).

#[global] Instance name_le_dec a b : Decision (name_le a b).
Proof. unfold name_le. apply _. Defined.

(** [os.ReadDir]: the entries of the directory, sorted by file name. *)
Definition ReadDir (fs : gmap string Node) (dir : string) : list DirEntry :=
  merge_sort name_le
    (omap (fun '(path, _) =>
             match entry_name dir path with
             | Some name => Some (mkDirEntry name false)
             | None => None
             end)
          (map_to_list fs)).

End os.

(** ** Package encoding/json *)

Module json.

(** A JSON document. Numbers keep their literal text. *)
Inductive value :=
| Null
| Bool (b : bool)
| Number (lit : string)
| Str (s : string)
| Array (elems : list value)
| Object (members : list (string * value)).

Inductive token :=
| TLBrace | TRBrace | TLBracket | TRBracket | TColon | TComma
| TString (s : string)
| TNumber (lit : string)
| TTrue | TFalse | TNull.

(** *** Scanner

    One step per input byte, as the state machine of the package's
    scanner; there is no recursion other than on the input. *)

Inductive numstate :=
| NMinus | NZero | NInt | NDot | NFrac | NE | NESign | NExp.

(** A string under construction: raw bytes and [\u] escapes, newest first. *)
Definition unit_ : Type := ascii + Z.

Inductive lexstate :=
| LStart
| LString (acc : list unit_)
| LEscape (acc : list unit_)
| LUnicode (acc : list unit_) (hex : list Z)
| LNumber (st : numstate) (acc : list ascii)
| LLiteral (rest : string) (tok : token).

Definition byte (n : nat) : ascii := ascii_of_nat n.
Definition dquote : ascii := byte 34.
Definition code (c : ascii) : Z := Z.of_nat (nat_of_ascii c).

Definition is_space (c : ascii) : bool :=
  let n := code c in (n =? 32) || (n =? 9) || (n =? 13) || (n =? 10).

Definition hex_value (c : ascii) : option Z :=
  let n := code c in
  if (48 <=? n) && (n <=? 57) then Some (n - 48)
  else if (97 <=? n) && (n <=? 102) then Some (n - 87)
  else if (65 <=? n) && (n <=? 70) then Some (n - 55)
  else None.

(** UTF-8 encoding of a code point. *)
Definition utf8 (cp : Z) : list ascii :=
  let b (n : Z) := ascii_of_nat (Z.to_nat n) in
  if cp <? 128 then [b cp]
  else if cp <? 2048 then [b (192 + cp / 64); b (128 + cp mod 64)]
  else if cp <? 65536 then
    [b (224 + cp / 4096); b (128 + (cp / 64) mod 64); b (128 + cp mod 64)]
  else
    [b (240 + cp / 262144); b (128 + (cp / 4096) mod 64);
     b (128 + (cp / 64) mod 64); b (128 + cp mod 64)].

Definition is_high_surrogate (cp : Z) : bool := (55296 <=? cp) && (cp <? 56320).
Definition is_low_surrogate (cp : Z) : bool := (56320 <=? cp) && (cp <? 57344).
Definition replacement_char : Z := 65533.

(** The bytes of a scanned string, oldest unit first: a surrogate pair of
    [\u] escapes is one code point, a lone surrogate is U+FFFD. *)
Fixpoint units_bytes (us : list unit_) : list ascii :=
  match us with
  | [] => []
  | inl c :: rest => c :: units_bytes rest
  | inr hi :: rest =>
      if is_high_surrogate hi then
        match rest with
        | inr lo :: rest' =>
            if is_low_surrogate lo
            then utf8 (65536 + (hi - 55296) * 1024 + (lo - 56320))
                   ++ units_bytes rest'
            else utf8 replacement_char ++ units_bytes rest
        | _ => utf8 replacement_char ++ units_bytes rest
        end
      else if is_low_surrogate hi then utf8 replacement_char ++ units_bytes rest
      else utf8 hi ++ units_bytes rest
  end.

Definition finish_string (acc : list unit_) : string :=
  string_of_list_ascii (units_bytes (rev acc)).

Definition finish_number (acc : list ascii) : string :=
  string_of_list_ascii (rev acc).

(** A byte met where a new token may begin. *)
Definition start_step (c : ascii) : option (lexstate * list token) :=
  if is_space c then Some (LStart, [])
  else if Ascii.eqb c "{" then Some (LStart, [TLBrace])
  else if Ascii.eqb c "}" then Some (LStart, [TRBrace])
  else if Ascii.eqb c "[" then Some (LStart, [TLBracket])
  else if Ascii.eqb c "]" then Some (LStart, [TRBracket])
  else if Ascii.eqb c ":" then Some (LStart, [TColon])
  else if Ascii.eqb c "," then Some (LStart, [TComma])
  else if Ascii.eqb c dquote then Some (LString [], [])
  else if Ascii.eqb c "-" then Some (LNumber NMinus [c], [])
  else if Ascii.eqb c "0" then Some (LNumber NZero [c], [])
  else if strings.is_digit c then Some (LNumber NInt [c], [])
  else if Ascii.eqb c "t" then Some (LLiteral "rue" TTrue, [])
  else if Ascii.eqb c "f" then Some (LLiteral "alse" TFalse, [])
  else if Ascii.eqb c "n" then Some (LLiteral "ull" TNull, [])
  else None.

Definition is_e (c : ascii) : bool := Ascii.eqb c "e" || Ascii.eqb c "E".
Definition is_sign (c : ascii) : bool := Ascii.eqb c "+" || Ascii.eqb c "-".

(** The next state of a number on byte [c]; [None] when [c] is not part
    of the number. *)
Definition num_step (st : numstate) (c : ascii) : option numstate :=
  match st with
  | NMinus => if Ascii.eqb c "0" then Some NZero
              else if strings.is_digit c then Some NInt else None
  | NZero => if Ascii.eqb c "." then Some NDot
             else if is_e c then Some NE else None
  | NInt => if strings.is_digit c then Some NInt
            else if Ascii.eqb c "." then Some NDot
            else if is_e c then Some NE else None
  | NDot => if strings.is_digit c then Some NFrac else None
  | NFrac => if strings.is_digit c then Some NFrac
             else if is_e c then Some NE else None
  | NE => if is_sign c then Some NESign
          else if strings.is_digit c then Some NExp else None
  | NESign => if strings.is_digit c then Some NExp else None
  | NExp => if strings.is_digit c then Some NExp else None
  end.

Definition num_final (st : numstate) : bool :=
  match st with
  | NZero | NInt | NFrac | NExp => true
  | _ => false
  end.

Definition escape_byte (c : ascii) : option ascii :=
  if Ascii.eqb c dquote || Ascii.eqb c "\" || Ascii.eqb c "/" then Some c
  else if Ascii.eqb c "b" then Some (byte 8)
  else if Ascii.eqb c "f" then Some (byte 12)
  else if Ascii.eqb c "n" then Some (byte 10)
  else if Ascii.eqb c "r" then Some (byte 13)
  else if Ascii.eqb c "t" then Some (byte 9)
  else None.

Definition hex4 (hex : list Z) : Z :=
  fold_left (fun n d => n * 16 + d) hex 0.

(** One byte: the next state and the tokens so far, newest first. *)
Definition lex_step (st : lexstate) (c : ascii) (out : list token)
  : option (lexstate * list token) :=
  match st with
  | LStart =>
      match start_step c with
      | Some (st', toks) => Some (st', toks ++ out)
      | None => None
      end
  | LString acc =>
      if Ascii.eqb c dquote then Some (LStart, TString (finish_string acc) :: out)
      else if Ascii.eqb c "\" then Some (LEscape acc, out)
      else if code c <? 32 then None
      else Some (LString (inl c :: acc), out)
  | LEscape acc =>
      if Ascii.eqb c "u" then Some (LUnicode acc [], out)
      else match escape_byte c with
           | Some b => Some (LString (inl b :: acc), out)
           | None => None
           end
  | LUnicode acc hex =>
      match hex_value c with
      | Some d =>
          let hex' := hex ++ [d] in
          if (length hex' =? 4)%nat
          then Some (LString (inr (hex4 hex') :: acc), out)
          else Some (LUnicode acc hex', out)
      | None => None
      end
  | LNumber n acc =>
      match num_step n c with
      | Some n' => Some (LNumber n' (c :: acc), out)
      | None =>
          if num_final n then
            match start_step c with
            | Some (st', toks) =>
                Some (st', toks ++ TNumber (finish_number acc) :: out)
            | None => None
            end
          else None
      end
  | LLiteral expected tok =>
      match expected with
      | String e EmptyString =>
          if Ascii.eqb c e then Some (LStart, tok :: out) else None
      | String e more =>
          if Ascii.eqb c e then Some (LLiteral more tok, out) else None
      | EmptyString => None
      end
  end.

(** The end of the input: only between tokens or at the end of a number. *)
Definition lex_end (st : lexstate) (out : list token) : option (list token) :=
  match st with
  | LStart => Some (rev out)
  | LNumber n acc =>
      if num_final n then Some (rev (TNumber (finish_number acc) :: out))
      else None
  | _ => None
  end.

Fixpoint lex (st : lexstate) (s : string) (out : list token)
  : option (list token) :=
  match s with
  | EmptyString => lex_end st out
  | String c rest =>
      match lex_step st c out with
      | Some (st', out') => lex st' rest out'
      | None => None
      end
  end.

(** The scanner over a piece of text that more text follows. *)
Fixpoint lex_run (st : lexstate) (s : string) (out : list token)
  : option (lexstate * list token) :=
  match s with
  | EmptyString => Some (st, out)
  | String c rest =>
      match lex_step st c out with
      | Some (st', out') => lex_run st' rest out'
      | None => None
      end
  end.

(** *** Parser

    A stack of the containers that are open, one step per token. *)

Inductive frame :=
| FArray (acc : list value)
| FObject (acc : list (string * value)) (key : string).

Inductive expect :=
| EValue          (* a value *)
| EValueOrEnd     (* after '[': a value or ']' *)
| EKeyOrEnd       (* after '{': a key or '}' *)
| EKey            (* after ',' in an object: a key *)
| EColon          (* after a key: ':' *)
| ECommaOrEnd     (* after a value in a container *)
| EDone (v : value).

Definition push_value (v : value) (stack : list frame)
  : expect * list frame :=
  match stack with
  | [] => (EDone v, [])
  | FArray acc :: st => (ECommaOrEnd, FArray (v :: acc) :: st)
  | FObject acc k :: st => (ECommaOrEnd, FObject ((k, v) :: acc) k :: st)
  end.

Definition scalar (t : token) : option value :=
  match t with
  | TString s => Some (Str s)
  | TNumber lit => Some (Number lit)
  | TTrue => Some (Bool true)
  | TFalse => Some (Bool false)
  | TNull => Some Null
  | _ => None
  end.

Definition begin_value (t : token) (stack : list frame)
  : option (expect * list frame) :=
  match t with
  | TLBracket => Some (EValueOrEnd, FArray [] :: stack)
  | TLBrace => Some (EKeyOrEnd, FObject [] "" :: stack)
  | _ => match scalar t with
         | Some v => Some (push_value v stack)
         | None => None
         end
  end.

Definition close_array (stack : list frame) : option (expect * list frame) :=
  match stack with
  | FArray acc :: st => Some (push_value (Array (rev acc)) st)
  | _ => None
  end.

Definition close_object (stack : list frame) : option (expect * list frame) :=
  match stack with
  | FObject acc _ :: st => Some (push_value (Object (rev acc)) st)
  | _ => None
  end.

Definition set_key (k : string) (stack : list frame)
  : option (expect * list frame) :=
  match stack with
  | FObject acc _ :: st => Some (EColon, FObject acc k :: st)
  | _ => None
  end.

Definition parse_step (e : expect) (stack : list frame) (t : token)
  : option (expect * list frame) :=
  match e with
  | EValue => begin_value t stack
  | EValueOrEnd =>
      match t with
      | TRBracket => close_array stack
      | _ => begin_value t stack
      end
  | EKeyOrEnd =>
      match t with
      | TRBrace => close_object stack
      | TString k => set_key k stack
      | _ => None
      end
  | EKey =>
      match t with
      | TString k => set_key k stack
      | _ => None
      end
  | EColon =>
      match t with
      | TColon => Some (EValue, stack)
      | _ => None
      end
  | ECommaOrEnd =>
      match t, stack with
      | TComma, FArray _ :: _ => Some (EValue, stack)
      | TComma, FObject _ _ :: _ => Some (EKey, stack)
      | TRBracket, _ => close_array stack
      | TRBrace, _ => close_object stack
      | _, _ => None
      end
  | EDone _ => None
  end.

Fixpoint parse_tokens (e : expect) (stack : list frame) (ts : list token)
  : option value :=
  match ts with
  | [] => match e with EDone v => Some v | _ => None end
  | t :: rest =>
      match parse_step e stack t with
      | Some (e', stack') => parse_tokens e' stack' rest
      | None => None
      end
  end.

(** The document in [data], or [None] when it is not valid JSON. *)
Definition parse (data : string) : option value :=
  match lex LStart data [] with
  | Some ts => parse_tokens EValue [] ts
  | None => None
  end.

(** *** Decoding

    [Unmarshal] checks the whole input first: malformed input is a
    [SyntaxError] and the destination is left as it was. A value of the
    wrong type is recorded (the first such error is the one returned) and
    decoding goes on with the rest of the document. *)

Definition first_error (a b : option error) : option error :=
  match a with Some _ => a | None => b end.

Definition Unmarshal {A : Type} (decode : value -> A -> A * option error)
  (data : string) (v : A) : A * option error :=
  match parse data with
  | None => (v, Some SyntaxError)
  | Some doc => decode doc v
  end.

Definition decode_string (field : string) (j : value) (old : string)
  : string * option error :=
  match j with
  | Str s => (s, None)
  | Null => (old, None)
  | _ => (old, Some (UnmarshalTypeError field))
  end.

Definition decode_bool (field : string) (j : value) (old : bool)
  : bool * option error :=
  match j with
  | Bool b => (b, None)
  | Null => (old, None)
  | _ => (old, Some (UnmarshalTypeError field))
  end.

(** The struct field a key names: the field with that exact name, else
    the first one equal to it up to (ASCII) case. *)
Definition match_field (names : list string) (k : string) : option string :=
  match List.find (String.eqb k) names with
  | Some f => Some f
  | None => List.find (strings.EqualFold k) names
  end.

(** A JSON object into a struct: the members in document order, each
    assigned to the field its key names; other keys are skipped. *)
Definition decode_struct {A : Type} (names : list string)
  (assign : string -> value -> A -> A * option error)
  (type_name : string) (j : value) (v : A) : A * option error :=
  match j with
  | Object members =>
      fold_left
        (fun (st : A * option error) (kv : string * value) =>
           match match_field names (fst kv) with
           | Some f =>
               let '(v', err) := assign f (snd kv) (fst st) in
               (v', first_error (snd st) err)
           | None => st
           end)
        members (v, None)
  | Null => (v, None)
  | _ => (v, Some (UnmarshalTypeError type_name))
  end.

(** A JSON array into a slice: the slice is reset and every element is
    decoded into a zero value; [null] gives the nil slice. *)
Definition decode_slice {A : Type} (zero : A)
  (decode : value -> A -> A * option error)
  (type_name : string) (j : value) (v : list A) : list A * option error :=
  match j with
  | Array elems =>
      fold_left
        (fun (st : list A * option error) (e : value) =>
           let '(x, err) := decode e zero in
           (fst st ++ [x], first_error (snd st) err))
        elems ([], None)
  | Null => ([], None)
  | _ => (v, Some (UnmarshalTypeError type_name))
  end.

(** *** Encoding *)

Definition hex_digit (n : Z) : ascii :=
  if n <? 10 then ascii_of_nat (Z.to_nat (48 + n))
  else ascii_of_nat (Z.to_nat (87 + n)).

Definition html_unsafe (c : ascii) : bool :=
  Ascii.eqb c "<" || Ascii.eqb c ">" || Ascii.eqb c "&".

(** The escaped form of one byte below 0x80 ([Marshal] escapes HTML). *)
Definition escape_ascii (c : ascii) : string :=
  let n := code c in
  if Ascii.eqb c dquote || Ascii.eqb c "\" then String "\" (String c "")
  else if n =? 8 then "\b"
  else if n =? 12 then "\f"
  else if n =? 10 then "\n"
  else if n =? 13 then "\r"
  else if n =? 9 then "\t"
  else if (n <? 32) || html_unsafe c
  then "\u00" +:+ String (hex_digit (n / 16)) (String (hex_digit (n mod 16)) "")
  else String c "".

(** The body of a string literal. The text is taken to be valid UTF-8:
    bytes from 0x80 are copied, except U+2028 and U+2029, which are
    written as escapes. *)
Fixpoint escape (s : string) : string :=
  match s with
  | EmptyString => EmptyString
  | String c rest =>
      if code c <? 128 then escape_ascii c +:+ escape rest
      else
        match rest with
        | String c1 (String c2 rest') =>
            if (code c =? 226) && (code c1 =? 128) && (code c2 =? 168)
            then "\u2028" +:+ escape rest'
            else if (code c =? 226) && (code c1 =? 128) && (code c2 =? 169)
            then "\u2029" +:+ escape rest'
            else String c (escape rest)
        | _ => String c (escape rest)
        end
  end.

Definition quote (s : string) : string :=
  String dquote (escape s) +:+ String dquote "".

Fixpoint join (sep : string) (parts : list string) : string :=
  match parts with
  | [] => ""
  | [x] => x
  | x :: rest => x +:+ sep +:+ join sep rest
  end.

(** [json.Marshal]: the compact text of a document. *)
Fixpoint encode (j : value) : string :=
  match j with
  | Null => "null"
  | Bool true => "true"
  | Bool false => "false"
  | Number lit => lit
  | Str s => quote s
  | Array elems => "[" +:+ join "," (List.map encode elems) +:+ "]"
  | Object members =>
      "{" +:+ join ","
                (List.map (fun kv => quote (fst kv) +:+ ":" +:+ encode (snd kv))
                          members)
          +:+ "}"
  end.

Definition newline : string := String (byte 10) "".

Fixpoint indentation (indent : string) (depth : nat) : string :=
  match depth with
  | O => ""
  | S d => indent +:+ indentation indent d
  end.

(** [json.MarshalIndent(v, "", indent)]. *)
Fixpoint encode_indent (indent : string) (depth : nat) (j : value) : string :=
  let nl (d : nat) := newline +:+ indentation indent d in
  match j with
  | Array [] => "[]"
  | Object [] => "{}"
  | Array elems =>
      "[" +:+ nl (S depth)
          +:+ join ("," +:+ nl (S depth))
                   (List.map (encode_indent indent (S depth)) elems)
          +:+ nl depth +:+ "]"
  | Object members =>
      "{" +:+ nl (S depth)
          +:+ join ("," +:+ nl (S depth))
                   (List.map (fun kv => quote (fst kv) +:+ ": "
                                        +:+ encode_indent indent (S depth) (snd kv))
                             members)
          +:+ nl depth +:+ "}"
  | _ => encode j
  end.

End json.

(** ** Package config (internal/config/config.go) *)

(** ** Run-time panics

    Code that dereferences a nil pointer does not return: the Go runtime
    panics. A function that can panic returns an [Outcome]. *)
Inductive Panic :=
| nilPointerDereference.
    (* runtime error: invalid memory address or nil pointer dereference *)

Inductive Outcome (A : Type) :=
| Returned (a : A)
| Panics (p : Panic).
Arguments Returned {A}.
Arguments Panics {A}.

(** google.golang.org/api/calendar/v3: the fields of an event the program
    reads. [Start] is a pointer ([*EventDateTime]): it is nil in an event
    that carries no start, as an entry of the cache file may. The program
    holds events by pointer ([*Event]), here [option Event], [None] being
    the nil pointer. *)
Module gcal.
Record EventDateTime := mkEventDateTime { Date : string; DateTime : string }.
Record Event := mkEvent { Summary : string; Start : option EventDateTime }.
End gcal.

(** The world outside the process: the files, the wall clock as read during
    the handling of the current message, the directories the platform
    resolves for the application, what the program has launched, and the
    panic that has ended the program, if one has. *)
Inductive Launched :=
| OpenURL (url : string)                 (* a browser started on the URL *)
| SaveCalendarCacheJob (cache : gmap string (list (option gcal.Event))).
                                         (* go SaveCalendarCache(cache) *)

Record World := mkWorld {
  files : gmap string os.Node;
  now : time.Time;
  configDir : string;      (* config.GetConfigDir() *)
  dataDir : string;        (* config.GetDataDir() *)
  launched : list Launched;
  panicked : option Panic
}.

Definition set_files (w : World) (fs : gmap string os.Node) : World :=
  mkWorld fs (now w) (configDir w) (dataDir w) (launched w) (panicked w).

Definition launch (w : World) (l : Launched) : World :=
  mkWorld (files w) (now w) (configDir w) (dataDir w) (launched w ++ [l]) (panicked w).

(** The program ends in the panic: the step in which it is raised does
    not return, Bubble Tea prints the panic and the process exits. A step
    of a panel that panics is modelled as leaving the panel as it was and
    returning no command, with the panic recorded in the world; once
    [panicked] is set the program has ended, and the models and commands
    of later steps describe no run of it. *)
Definition panic (w : World) (p : Panic) : World :=
  mkWorld (files w) (now w) (configDir w) (dataDir w) (launched w) (Some p).

Module config.

Definition GetNotesDir (w : World) : string := os.Join (dataDir w) "notes".
Definition GetTodoPath (w : World) : string := os.Join (dataDir w) "todo-list.json".

Record Settings := mkSettings {
  Location : string;
  DefaultNotesCreated : bool
}.

(** The zero value of the struct ([var settings Settings]). *)
Definition zeroSettings : Settings := mkSettings "" false.

Definition field_names : list string := ["location"; "default_notes_created"].

Definition to_json (s : Settings) : json.value :=
  json.Object [("location", json.Str (Location s));
               ("default_notes_created", json.Bool (DefaultNotesCreated s))].

Definition assign (f : string) (j : json.value) (s : Settings)
  : Settings * option error :=
  if String.eqb f "location" then
    let '(x, err) := json.decode_string "Settings.location" j (Location s) in
    (mkSettings x (DefaultNotesCreated s), err)
  else
    let '(x, err) :=
      json.decode_bool "Settings.default_notes_created" j (DefaultNotesCreated s) in
    (mkSettings (Location s) x, err).

Definition decode : json.value -> Settings -> Settings * option error :=
  json.decode_struct field_names assign "Settings".

Definition settingsPath (w : World) : string :=
  os.Join (configDir w) "config.json".

(** [SaveSettings] writes the settings to the config file. *)
Definition SaveSettings (w : World) (settings : Settings)
  : World * option error :=
  let data := json.encode_indent "  " 0 (to_json settings) in
  let '(fs, err) := os.WriteFile (files w) (settingsPath w) data in
  (set_files w fs, err).

(** [LoadSettings] reads settings from the config file, or creates a
    default one. *)
Definition LoadSettings (w : World) : World * (Settings * option error) :=
  let settings := zeroSettings in
  match os.ReadFile (files w) (settingsPath w) with
  | inr err =>
      if os.IsNotExist err then
        let defaultSettings := mkSettings "Athens" false in
        let data := json.encode_indent "  " 0 (to_json defaultSettings) in
        let '(fs, writeErr) := os.WriteFile (files w) (settingsPath w) data in
        match writeErr with
        | Some e => (set_files w fs, (settings, Some e))
        | None => (set_files w fs, (defaultSettings, None))
        end
      else (w, (settings, Some err))
  | inl content =>
      let '(settings, err) := json.Unmarshal decode content settings in
      match err with
      | Some e => (w, (settings, Some e))
      | None =>
          let settings :=
            if String.eqb (Location settings) ""
            then mkSettings "Athens" (DefaultNotesCreated settings)
            else settings in
          (w, (settings, None))
      end
  end.

End config.

(** ** Bubble Tea: messages, commands, key bindings *)

Module weather.
Record WeatherResponse := mkWeatherResponse {
  Name : string; Description : string; Icon : string
}.

(** [case a, b, c:] of a switch on a string. *)
Definition oneOf (s : string) (cases : list string) : bool :=
  existsb (String.eqb s) cases.

(** [mapWeatherCodeToIcon] converts the weather codes of wttr.in to the
    icon names [GetWeatherArt] knows. *)
Definition mapWeatherCodeToIcon (code : string) : string :=
  if oneOf code ["113"] then "01d"
  else if oneOf code ["116"; "119"; "122"] then "02d"
  else if oneOf code ["143"; "248"; "260"] then "50d"
  else if oneOf code ["176"; "263"; "266"; "281"; "284"; "293"; "296"; "299";
                      "302"; "305"; "308"; "311"; "314"; "317"; "320"; "386";
                      "389"; "392"; "395"] then "10d"
  else if oneOf code ["200"; "201"; "202"; "210"; "211"; "212"; "221"; "230";
                      "231"; "232"] then "11d"
  else if oneOf code ["227"; "323"; "326"; "329"; "332"; "335"; "338"; "350";
                      "353"; "356"; "359"; "362"; "365"; "368"; "371"; "374";
                      "377"] then "13d"
  else "01d".

Inductive Art := Sun | Cloud | Rain | Snow.

(** The drawing and its colour. *)
Definition drawing (a : Art) : string * string :=
  match a with
  | Sun => ("
    \   /
    . - .
-- (     ) --
    ' - '
    /   \
", "#FFD700")
  | Cloud => ("
   .--.
.-(    ).
(_______)
", "#FFF8B3")
  | Rain => ("
   .--.
.-(    ).
(_______)
 / / / /
/ / / /
", "#61afef")
  | Snow => ("
   .--.
.-(    ).
(_______)
 * * * *
* * * *
", "#FFFFFF")
  end.

(** [GetWeatherArt]: the drawing for an icon name, which the function
    returns rendered in its colour; [None] is the empty string it returns
    for a name it does not know. *)
Definition GetWeatherArt (icon : string) : option (string * string) :=
  if oneOf icon ["01d"; "01n"] then Some (drawing Sun)
  else if oneOf icon ["02d"; "02n"; "03d"; "03n"; "04d"; "04n"; "50d"; "50n"]
  then Some (drawing Cloud)
  else if oneOf icon ["09d"; "09n"; "10d"; "10n"; "11d"; "11n"]
  then Some (drawing Rain)
  else if oneOf icon ["13d"; "13n"] then Some (drawing Snow)
  else None.

End weather.

Module key.

Record Binding := mkBinding { keys : list string; enabled : bool }.

Definition NewBinding (ks : list string) : Binding := mkBinding ks true.

Definition SetEnabled (b : Binding) (v : bool) : Binding := mkBinding (keys b) v.

(** [key.Matches(msg, b)]: the binding is enabled and lists the key. *)
Definition Matches (k : string) (b : Binding) : bool :=
  enabled b && existsb (String.eqb k) (keys b).

End key.

Module tea.

Inductive MouseAction := MouseActionPress | MouseActionRelease | MouseActionMotion.

Inductive MouseButton :=
| MouseButtonNone | MouseButtonLeft | MouseButtonMiddle | MouseButtonRight
| MouseButtonWheel.

(** The messages the event loop delivers. [KeyMsg] carries [msg.String()]. *)
Inductive Msg :=
| KeyMsg (k : string)
| MouseMsg (X Y : Z) (Action : MouseAction) (Button : MouseButton)
| WindowSizeMsg (Width Height : Z)
| ClockTickMsg                                        (* clock.TickMsg *)
| SpinnerTickMsg                                      (* spinner.TickMsg *)
| EventsMsg (MonthKey : string) (Events : list (option gcal.Event))
| EventsErrMsg (MonthKey : string) (Err : error)
| weatherMsg (w : weather.WeatherResponse)
| weatherErrMsg (err : error)
| EditNoteMsg (Path : string) (Content : string)      (* notes.EditNoteMsg *)
| tickMsg                                             (* main.tickMsg *)
| LibraryMsg (n : nat).                               (* cursor blink and the like *)

(** What a command will do once the runtime runs it. *)
Inductive Command :=
| ClockTick                                           (* clock.Tick() *)
| Blink                                               (* textinput.Blink *)
| FetchEventsForMonth (monthKey : string) (month : time.Time)
| fetchWeather (city : string)
| Emit (msg : Msg)                                    (* func() tea.Msg { return msg } *)
| tickCmd                                             (* main.tickCmd() *)
| Quit
| LibraryCmd (n : nat).

(** A [tea.Cmd] is the batch of what it starts; [nil] is the empty batch. *)
Definition Cmd : Type := list Command.

Definition Batch (cmds : list Cmd) : Cmd := concat cmds.

End tea.

(** ** The components the panels embed *)

Module spinner.
Record Model := mkModel { frame : nat }.
End spinner.

Module datepicker.

Inductive Focus := FocusNone | FocusHeaderMonth | FocusHeaderYear | FocusCalendar.

Record Model := mkModel {
  Time : time.Time;
  focus : Focus;
  Selected : bool
}.

Definition SetFocus (m : Model) (f : Focus) : Model := mkModel (Time m) f (Selected m).
Definition SelectDate (m : Model) : Model := mkModel (Time m) (focus m) true.

End datepicker.

Module textinput.

Record Model := mkModel { value : string; focused : bool; Width : Z }.

Definition Value (m : Model) : string := value m.
Definition SetValue (m : Model) (s : string) : Model := mkModel s (focused m) (Width m).
Definition Reset (m : Model) : Model := SetValue m "".
Definition Focus (m : Model) : Model := mkModel (value m) true (Width m).
Definition SetWidth (m : Model) (w : Z) : Model := mkModel (value m) (focused m) w.

End textinput.

(** bubbles/list, as the program meets it while no filter is applied: the
    visible items are all the items, and [Index] is a position among
    them. Once the user has applied a filter ([FilterApplied]) the library
    counts [Index] and looks [SelectedItem] up among the items the filter
    shows, which the model does not hold; the properties of the selected
    item below are stated for [Unfiltered] lists. *)
Module bubbles_list.

Inductive FilterState := Unfiltered | Filtering | FilterApplied.

#[global] Instance FilterState_eq_dec : EqDecision FilterState.
Proof. solve_decision. Defined.

Record Model (A : Type) := mkModel {
  items : list A;
  cursor : nat;
  filterState : FilterState;
  width : Z;
  height : Z
}.
Arguments mkModel {A}.
Arguments items {A}.
Arguments cursor {A}.
Arguments filterState {A}.
Arguments width {A}.
Arguments height {A}.

Section Ops.
Context {A : Type}.

Definition New (its : list A) : Model A := mkModel its 0%nat Unfiltered 0 0.

Definition Items (m : Model A) : list A := items m.
Definition Index (m : Model A) : nat := cursor m.

Definition set_items (m : Model A) (its : list A) : Model A :=
  mkModel its (cursor m) (filterState m) (width m) (height m).

(** [nil] when the cursor is not on an item. *)
Definition SelectedItem (m : Model A) : option A := items m !! Index m.

(** The item goes in before position [index], at the end when [index]
    is not below the length. *)
Definition InsertItem (m : Model A) (index : nat) (item : A) : Model A :=
  set_items m (take index (items m) ++ item :: drop index (items m)).

(** [m.items[index] = item]. The program calls it at the index of an
    item [SelectedItem] has just returned, which is in range. *)
Definition SetItem (m : Model A) (index : nat) (item : A) : Model A :=
  set_items m (<[index := item]> (items m)).

(** Nothing is removed when [index] is out of range. *)
Definition RemoveItem (m : Model A) (index : nat) : Model A :=
  set_items m (take index (items m) ++ drop (S index) (items m)).

Definition SetItems (m : Model A) (its : list A) : Model A := set_items m its.

Definition SetSize (m : Model A) (w h : Z) : Model A :=
  mkModel (items m) (cursor m) (filterState m) w h.

End Ops.

End bubbles_list.

(** The behaviour of the libraries on a message: how a spinner, a date
    picker, a text input and a list react, what the time package makes of a
    text, how markdown is rendered, and what text a text area holds once
    [SetValue] has been given a text (the text area cleans what it is
    given: it does not keep a tab or a control character as it is). The
    panels only pass messages and texts on to them, so the properties
    below hold whatever these do. *)
Class Components := {
  spinner_Update : spinner.Model -> tea.Msg -> spinner.Model * tea.Cmd;
  datepicker_Update : datepicker.Model -> tea.Msg -> datepicker.Model * tea.Cmd;
  textinput_Update : textinput.Model -> tea.Msg -> textinput.Model * tea.Cmd;
  list_Update : forall {A : Type},
      bubbles_list.Model A -> tea.Msg -> bubbles_list.Model A * tea.Cmd;
  time_Parse : time.Layout -> string -> option time.Time;
  glamour_Render : string -> string + error;
  textarea_SetValue : string -> string
}.

(** ** Package clock (widgets/clock/clock.go) *)

Module clock.

Record Model := mkModel { Time : time.Time }.

Definition New (w : World) : Model := mkModel (now w).

Definition Init (m : Model) : tea.Cmd := [tea.ClockTick].

Definition Update (w : World) (m : Model) (msg : tea.Msg) : Model * tea.Cmd :=
  match msg with
  | tea.ClockTickMsg => (mkModel (now w), [tea.ClockTick])
  | _ => (m, [])
  end.

End clock.

(** ** Package todo (widgets/todo/todo.go) *)

Module todo.

Inductive ListState := ListStateDefault | ListStateAdding | ListStateEditing.

#[global] Instance ListState_eq_dec : EqDecision ListState.
Proof. solve_decision. Defined.

Record task := mkTask {
  Title : string;
  Description : string;
  Done : bool
}.

Definition zeroTask : task := mkTask "" "" false.

Record KeyMap := mkKeyMap {
  AddTask : key.Binding;
  Delete : key.Binding;
  Toggle : key.Binding;
  EditTask : key.Binding;
  SaveTask : key.Binding;
  Confirm : key.Binding;
  Cancel : key.Binding
}.

Record Model := mkModel {
  List : bubbles_list.Model task;
  TextInput : textinput.Model;
  State : ListState;
  keys : KeyMap;
  path : string
}.

Definition set_List (m : Model) (l : bubbles_list.Model task) : Model :=
  mkModel l (TextInput m) (State m) (keys m) (path m).
Definition set_TextInput (m : Model) (ti : textinput.Model) : Model :=
  mkModel (List m) ti (State m) (keys m) (path m).
Definition set_State (m : Model) (st : ListState) : Model :=
  mkModel (List m) (TextInput m) st (keys m) (path m).

(** *** The task file *)

Definition field_names : list string := ["title"; "description"; "done"].

Definition to_json (t : task) : json.value :=
  json.Object [("title", json.Str (Title t));
               ("description", json.Str (Description t));
               ("done", json.Bool (Done t))].

Definition assign (f : string) (j : json.value) (t : task) : task * option error :=
  if String.eqb f "title" then
    let '(x, err) := json.decode_string "task.title" j (Title t) in
    (mkTask x (Description t) (Done t), err)
  else if String.eqb f "description" then
    let '(x, err) := json.decode_string "task.description" j (Description t) in
    (mkTask (Title t) x (Done t), err)
  else
    let '(x, err) := json.decode_bool "task.done" j (Done t) in
    (mkTask (Title t) (Description t) x, err).

Definition decode_task : json.value -> task -> task * option error :=
  json.decode_struct field_names assign "task".

Definition decode_tasks : json.value -> list task -> list task * option error :=
  json.decode_slice zeroTask decode_task "[]task".

(** [saveTasks(path, items)]: the whole list is written; a failed write
    is not reported. *)
Definition saveTasks (w : World) (path : string) (items : list task) : World :=
  let tasks := items in
  let data := json.encode (json.Array (List.map to_json tasks)) in
  set_files w (fst (os.WriteFile (files w) path data)).

Definition defaultTasks : list task :=
  [ mkTask "Welcome to GoDash!" "" false;
    mkTask "Press 'o' to add a new task" "" false;
    mkTask "Press 'i' to edit a task" "" false;
    mkTask "Use the arrow keys to navigate" "" false;
    mkTask "Press 'space' to complete a task" "" false;
    mkTask "Press 'enter' to confirm edit" "" false;
    mkTask "Press 'esc' to cancel edit" "" false;
    mkTask "Press 'ctrl+d' to delete a task" "" false ].

Definition loadTasks (w : World) (path : string) : World * list task :=
  match os.ReadFile (files w) path with
  | inr err =>
      (* If the file doesn't exist, create it with default tasks *)
      if os.IsNotExist err then
        let items := defaultTasks in
        (saveTasks w path items, defaultTasks)
      else
        (* For any other error, return an empty list *)
        (w, [])
  | inl data =>
      let tasks : list task := [] in
      (w, fst (json.Unmarshal decode_tasks data tasks))
  end.

Definition New (w : World) (ks : KeyMap) (p : string) : World * Model :=
  let '(w', tasks) := loadTasks w p in
  (w', mkModel (bubbles_list.New tasks)
               (textinput.mkModel "" false 0)
               ListStateDefault ks p).

Definition GetState (m : Model) : ListState := State m.

(** The key is one that confirms a text entry (save or confirm). *)
Definition confirms (m : Model) (k : string) : Prop :=
  key.Matches k (SaveTask (keys m)) || key.Matches k (Confirm (keys m)) = true.

Definition saveTasks_of (w : World) (m : Model) : World :=
  saveTasks w (path m) (bubbles_list.Items (List m)).

(** The task file holds what [saveTasks] writes for the list of the
    panel. *)
Definition inSync (w : World) (m : Model) : Prop :=
  files w !! path m
  = Some (os.Regular
            (json.encode
               (json.Array (List.map to_json (bubbles_list.Items (List m)))))).

(** *** Update *)

Section Update.
Context `{Components}.

(** The confirm branch of the text-entry states. *)
Definition confirm (w : World) (m : Model) : World * Model :=
  let m1 :=
    if decide (State m = ListStateAdding) then
      if negb (String.eqb (textinput.Value (TextInput m)) "") then
        let newTask := mkTask (textinput.Value (TextInput m)) "" false in
        set_List m (bubbles_list.InsertItem (List m)
                      (length (bubbles_list.Items (List m))) newTask)
      else m
    else (* ListStateEditing *)
      match bubbles_list.SelectedItem (List m) with
      | Some i =>
          let i := mkTask (textinput.Value (TextInput m)) (Description i) (Done i) in
          set_List m (bubbles_list.SetItem (List m) (bubbles_list.Index (List m)) i)
      | None => m
      end in
  let m2 := set_TextInput m1 (textinput.Reset (TextInput m1)) in
  let m3 := set_State m2 ListStateDefault in
  (saveTasks_of w m3, m3).

Definition updateEntry (w : World) (m : Model) (msg : tea.Msg)
  : World * Model * tea.Cmd :=
  let '(w1, m1) :=
    match msg with
    | tea.KeyMsg k =>
        if key.Matches k (SaveTask (keys m)) || key.Matches k (Confirm (keys m))
        then confirm w m
        else if key.Matches k (Cancel (keys m))
        then (w, set_TextInput (set_State m ListStateDefault)
                   (textinput.Reset (TextInput m)))
        else (w, m)
    | _ => (w, m)
    end in
  let '(ti, cmd) := textinput_Update (TextInput m1) msg in
  (w1, set_TextInput m1 ti, tea.Batch [cmd]).

(** The key handling of the list state: [inl] is an early return. *)
Definition defaultKey (w : World) (m : Model) (k : string)
  : (World * Model * tea.Cmd) + (World * Model) :=
  if decide (bubbles_list.filterState (List m) = bubbles_list.Filtering)
  then inr (w, m)
  else if key.Matches k (AddTask (keys m)) then
    let m1 := set_State m ListStateAdding in
    inl (w, set_TextInput m1 (textinput.Focus (TextInput m1)), [tea.Blink])
  else if key.Matches k (EditTask (keys m)) then
    match bubbles_list.SelectedItem (List m) with
    | Some i =>
        let m1 := set_State m ListStateEditing in
        let m2 := set_TextInput m1 (textinput.SetValue (TextInput m1) (Title i)) in
        inl (w, set_TextInput m2 (textinput.Focus (TextInput m2)), [tea.Blink])
    | None => inr (w, m)
    end
  else if key.Matches k (Toggle (keys m)) then
    match bubbles_list.SelectedItem (List m) with
    | Some i =>
        let i := mkTask (Title i) (Description i) (negb (Done i)) in
        let m1 := set_List m (bubbles_list.SetItem (List m)
                                (bubbles_list.Index (List m)) i) in
        inr (saveTasks_of w m1, m1)
    | None => inr (w, m)
    end
  else if key.Matches k (Delete (keys m)) then
    if (0 <? length (bubbles_list.Items (List m)))%nat then
      let m1 := set_List m (bubbles_list.RemoveItem (List m)
                              (bubbles_list.Index (List m))) in
      inr (saveTasks_of w m1, m1)
    else inr (w, m)
  else inr (w, m).

Definition updateDefault (w : World) (m : Model) (msg : tea.Msg)
  : World * Model * tea.Cmd :=
  let handled :=
    match msg with
    | tea.KeyMsg k => defaultKey w m k
    | _ => inr (w, m)
    end in
  match handled with
  | inl ret => ret
  | inr (w1, m1) =>
      let '(l, cmd) := list_Update (List m1) msg in
      (w1, set_List m1 l, tea.Batch [cmd])
  end.

Definition Update (w : World) (m : Model) (msg : tea.Msg) (focused : bool)
  : World * Model * tea.Cmd :=
  if focused then
    match State m with
    | ListStateAdding | ListStateEditing => updateEntry w m msg
    | ListStateDefault => updateDefault w m msg
    end
  else (w, m, tea.Batch []).

Definition SetSize (m : Model) (width height : Z) : Model :=
  let m1 := set_TextInput m (textinput.SetWidth (TextInput m) width) in
  set_List m1 (bubbles_list.SetSize (List m1) width height).

End Update.

End todo.

(** ** Package calendar (widgets/calendar) *)

Module calendar.

Inductive calendarState := StateIdle | StateReady.

Definition fetchCoolDown : time.Duration := 5 * time.Second.

Record KeyMap := mkKeyMap { Confirm : key.Binding }.

(** The cache holds the events by pointer, as the cache file and the
    calendar service gave them. [events] holds the events of the selected
    day: only [filterEventsForSelectedDate] writes it, with events it has
    read the start of, so no nil pointer enters it. *)
Record Model := mkModel {
  state : calendarState;
  DatePicker : datepicker.Model;
  events : list gcal.Event;
  selectedDate : time.Time;
  cachedEvents : gmap string (list (option gcal.Event));
  fetchingMonths : gmap string bool;
  lastFetchTime : time.Time;
  err : option error;
  loading : bool;
  spinner_ : spinner.Model;
  keys : KeyMap;
  clock_ : clock.Model;
  weather_ : option weather.WeatherResponse;
  weatherErr : option error;
  weatherLoading : bool;
  location : string;
  width : Z;
  height : Z
}.

Definition set_state (m : Model) (x : calendarState) : Model :=
  mkModel x (DatePicker m) (events m) (selectedDate m) (cachedEvents m)
    (fetchingMonths m) (lastFetchTime m) (err m) (loading m) (spinner_ m) (keys m)
    (clock_ m) (weather_ m) (weatherErr m) (weatherLoading m) (location m) (width m)
    (height m).
Definition set_DatePicker (m : Model) (x : datepicker.Model) : Model :=
  mkModel (state m) x (events m) (selectedDate m) (cachedEvents m) (fetchingMonths m)
    (lastFetchTime m) (err m) (loading m) (spinner_ m) (keys m) (clock_ m) (weather_
    m) (weatherErr m) (weatherLoading m) (location m) (width m) (height m).
Definition set_events (m : Model) (x : list gcal.Event) : Model :=
  mkModel (state m) (DatePicker m) x (selectedDate m) (cachedEvents m) (fetchingMonths
    m) (lastFetchTime m) (err m) (loading m) (spinner_ m) (keys m) (clock_ m)
    (weather_ m) (weatherErr m) (weatherLoading m) (location m) (width m) (height m).
Definition set_selectedDate (m : Model) (x : time.Time) : Model :=
  mkModel (state m) (DatePicker m) (events m) x (cachedEvents m) (fetchingMonths m)
    (lastFetchTime m) (err m) (loading m) (spinner_ m) (keys m) (clock_ m) (weather_
    m) (weatherErr m) (weatherLoading m) (location m) (width m) (height m).
Definition set_cachedEvents (m : Model) (x : gmap string (list (option gcal.Event)))
  : Model :=
  mkModel (state m) (DatePicker m) (events m) (selectedDate m) x (fetchingMonths m)
    (lastFetchTime m) (err m) (loading m) (spinner_ m) (keys m) (clock_ m) (weather_
    m) (weatherErr m) (weatherLoading m) (location m) (width m) (height m).
Definition set_fetchingMonths (m : Model) (x : gmap string bool) : Model :=
  mkModel (state m) (DatePicker m) (events m) (selectedDate m) (cachedEvents m) x
    (lastFetchTime m) (err m) (loading m) (spinner_ m) (keys m) (clock_ m) (weather_
    m) (weatherErr m) (weatherLoading m) (location m) (width m) (height m).
Definition set_lastFetchTime (m : Model) (x : time.Time) : Model :=
  mkModel (state m) (DatePicker m) (events m) (selectedDate m) (cachedEvents m)
    (fetchingMonths m) x (err m) (loading m) (spinner_ m) (keys m) (clock_ m)
    (weather_ m) (weatherErr m) (weatherLoading m) (location m) (width m) (height m).
Definition set_err (m : Model) (x : option error) : Model :=
  mkModel (state m) (DatePicker m) (events m) (selectedDate m) (cachedEvents m)
    (fetchingMonths m) (lastFetchTime m) x (loading m) (spinner_ m) (keys m) (clock_
    m) (weather_ m) (weatherErr m) (weatherLoading m) (location m) (width m) (height
    m).
Definition set_loading (m : Model) (x : bool) : Model :=
  mkModel (state m) (DatePicker m) (events m) (selectedDate m) (cachedEvents m)
    (fetchingMonths m) (lastFetchTime m) (err m) x (spinner_ m) (keys m) (clock_ m)
    (weather_ m) (weatherErr m) (weatherLoading m) (location m) (width m) (height m).
Definition set_spinner (m : Model) (x : spinner.Model) : Model :=
  mkModel (state m) (DatePicker m) (events m) (selectedDate m) (cachedEvents m)
    (fetchingMonths m) (lastFetchTime m) (err m) (loading m) x (keys m) (clock_ m)
    (weather_ m) (weatherErr m) (weatherLoading m) (location m) (width m) (height m).
Definition set_clock (m : Model) (x : clock.Model) : Model :=
  mkModel (state m) (DatePicker m) (events m) (selectedDate m) (cachedEvents m)
    (fetchingMonths m) (lastFetchTime m) (err m) (loading m) (spinner_ m) (keys m) x
    (weather_ m) (weatherErr m) (weatherLoading m) (location m) (width m) (height m).
Definition set_weather (m : Model) (x : option weather.WeatherResponse) : Model :=
  mkModel (state m) (DatePicker m) (events m) (selectedDate m) (cachedEvents m)
    (fetchingMonths m) (lastFetchTime m) (err m) (loading m) (spinner_ m) (keys m)
    (clock_ m) x (weatherErr m) (weatherLoading m) (location m) (width m) (height m).
Definition set_weatherErr (m : Model) (x : option error) : Model :=
  mkModel (state m) (DatePicker m) (events m) (selectedDate m) (cachedEvents m)
    (fetchingMonths m) (lastFetchTime m) (err m) (loading m) (spinner_ m) (keys m)
    (clock_ m) (weather_ m) x (weatherLoading m) (location m) (width m) (height m).
Definition set_weatherLoading (m : Model) (x : bool) : Model :=
  mkModel (state m) (DatePicker m) (events m) (selectedDate m) (cachedEvents m)
    (fetchingMonths m) (lastFetchTime m) (err m) (loading m) (spinner_ m) (keys m)
    (clock_ m) (weather_ m) (weatherErr m) x (location m) (width m) (height m).
Definition set_width (m : Model) (x : Z) : Model :=
  mkModel (state m) (DatePicker m) (events m) (selectedDate m) (cachedEvents m)
    (fetchingMonths m) (lastFetchTime m) (err m) (loading m) (spinner_ m) (keys m)
    (clock_ m) (weather_ m) (weatherErr m) (weatherLoading m) (location m) x (height
    m).
Definition set_height (m : Model) (x : Z) : Model :=
  mkModel (state m) (DatePicker m) (events m) (selectedDate m) (cachedEvents m)
    (fetchingMonths m) (lastFetchTime m) (err m) (loading m) (spinner_ m) (keys m)
    (clock_ m) (weather_ m) (weatherErr m) (weatherLoading m) (location m) (width m)
    x.

(** [m.fetchingMonths[monthKey]]: a missing key reads as [false]. *)
Definition fetching (m : Model) (monthKey : string) : bool :=
  default false (fetchingMonths m !! monthKey).

Definition Init (w : World) (m : Model) : tea.Cmd :=
  tea.Batch [ [tea.FetchEventsForMonth (time.Format_2006_01 (now w)) (now w)];
              clock.Init (clock_ m);
              [tea.fetchWeather (location m)] ].

(** [FetchEventsForMonth(month)] *)
Definition FetchEventsForMonth (month : time.Time) : tea.Cmd :=
  let monthKey := time.Format_2006_01 month in
  [tea.FetchEventsForMonth monthKey month].

Definition sameDate (a b : time.Time) : bool :=
  (time.Day a =? time.Day b) && (time.Month a =? time.Month b)
  && (time.Year a =? time.Year b).

Section Update.
Context `{Components}.

(** The start of an event as the loop reads it: the timestamp when there
    is one, else the all-day date; [None] when the text does not parse. *)
Definition eventDate (start : gcal.EventDateTime) : option time.Time :=
  if negb (String.eqb (gcal.DateTime start) "")
  then time_Parse time.RFC3339 (gcal.DateTime start)
  else time_Parse time.DateOnly (gcal.Date start).

(** One turn of the loop over the month's events. The loop reads
    [event.Start.DateTime] without a test of [event] or of [event.Start]:
    on a nil pointer it panics. An event whose start does not parse is
    passed over ([continue]). *)
Definition filterStep (selectedDate : time.Time)
  (dailyEvents : list gcal.Event) (event : option gcal.Event)
  : Outcome (list gcal.Event) :=
  match event with
  | None => Panics nilPointerDereference
  | Some event =>
      match gcal.Start event with
      | None => Panics nilPointerDereference
      | Some start =>
          match eventDate start with
          | None => Returned dailyEvents
          | Some eventDate =>
              if sameDate eventDate selectedDate
              then Returned (dailyEvents ++ [event])
              else Returned dailyEvents
          end
      end
  end.

(** [for _, event := range monthlyEvents]: a panic ends the loop. *)
Fixpoint filterLoop (selectedDate : time.Time)
  (monthlyEvents : list (option gcal.Event)) (dailyEvents : list gcal.Event)
  : Outcome (list gcal.Event) :=
  match monthlyEvents with
  | [] => Returned dailyEvents
  | event :: rest =>
      match filterStep selectedDate dailyEvents event with
      | Returned dailyEvents => filterLoop selectedDate rest dailyEvents
      | Panics p => Panics p
      end
  end.

Definition filterEventsForSelectedDate (m : Model) : Outcome Model :=
  let monthKey := time.Format_2006_01 (selectedDate m) in
  match cachedEvents m !! monthKey with
  | Some monthlyEvents =>
      match filterLoop (selectedDate m) monthlyEvents [] with
      | Returned dailyEvents => Returned (set_events m dailyEvents)
      | Panics p => Panics p
      end
  | None => Returned (set_events m [])
  end.

(** The date picker has moved to another day: the month is shown from
    the cache, or fetched when it is neither cached nor being fetched
    and the cool-down has passed. *)
Definition navigate (w : World) (m : Model) (datepickerCmd : tea.Cmd)
  : Outcome (Model * tea.Cmd) :=
  let m := set_selectedDate m (datepicker.Time (DatePicker m)) in
  let monthKey := time.Format_2006_01 (selectedDate m) in
  match cachedEvents m !! monthKey with
  | Some _ =>
      match filterEventsForSelectedDate m with
      | Returned m => Returned (set_loading m false, datepickerCmd)
      | Panics p => Panics p
      end
  | None =>
      if negb (fetching m monthKey)
         && (fetchCoolDown <? time.Since (now w) (lastFetchTime m))
      then
        let m := set_loading m true in
        let m := set_fetchingMonths m (<[monthKey := true]> (fetchingMonths m)) in
        let m := set_lastFetchTime m (now w) in
        Returned (m, tea.Batch [datepickerCmd; FetchEventsForMonth (selectedDate m)])
      else Returned (m, datepickerCmd)
  end.

(** The date picker as [Update] prepares it before handing it the
    message. *)
Definition focusedPicker (m : Model) : datepicker.Model :=
  datepicker.SelectDate
    (datepicker.SetFocus (DatePicker m) datepicker.FocusCalendar).

(** What [Update] does with a message that is not one of its own: the
    clock and, while something is loading, the spinner get it; the date
    picker gets it when the panel has the focus and is ready. When the
    refiltering panics, [Update] does not return: the program ends, which
    the world records; the panel is then the one the runtime had before
    the message, and there is no command. *)
Definition updateRest (w : World) (m : Model) (msg : tea.Msg) (focused : bool)
  : World * Model * tea.Cmd :=
  let '(c, cmd) := clock.Update w (clock_ m) msg in
  let m1 := set_clock m c in
  let cmds := [cmd] in
  let '(m1, cmd, cmds) :=
    if loading m1 || weatherLoading m1 then
      let '(sp, cmd) := spinner_Update (spinner_ m1) msg in
      (set_spinner m1 sp, cmd, cmds ++ [cmd])
    else (m1, cmd, cmds) in
  if focused then
    match state m1 with
    | StateReady =>
        let '(dp, datepickerCmd) := datepicker_Update (focusedPicker m1) msg in
        let m1 := set_DatePicker m1 dp in
        let moved :=
          if negb (sameDate (datepicker.Time (DatePicker m1)) (selectedDate m1))
          then navigate w m1 datepickerCmd
          else Returned (m1, datepickerCmd) in
        match moved with
        | Returned (m1, datepickerCmd) =>
            (w, m1, tea.Batch ((cmds ++ [datepickerCmd]) ++ [cmd]))
        | Panics p => (panic w p, m, [])
        end
    | StateIdle => (w, m1, tea.Batch (cmds ++ [cmd]))
    end
  else (w, m1, tea.Batch cmds).

(** On a panic of the refiltering see [updateRest]. *)
Definition Update (w : World) (m : Model) (msg : tea.Msg) (focused : bool)
  : World * Model * tea.Cmd :=
  match msg with
  | tea.EventsMsg MonthKey Events =>
      let m1 := set_cachedEvents m (<[MonthKey := Events]> (cachedEvents m)) in
      let m1 := set_fetchingMonths m1 (<[MonthKey := false]> (fetchingMonths m1)) in
      let m1 := set_loading m1 false in
      let m1 := set_state m1 StateReady in
      match filterEventsForSelectedDate m1 with
      | Returned m1 => (launch w (SaveCalendarCacheJob (cachedEvents m1)), m1, [])
      | Panics p => (panic w p, m, [])
      end
  | tea.EventsErrMsg MonthKey Err =>
      let m := set_fetchingMonths m (<[MonthKey := false]> (fetchingMonths m)) in
      if decide (Err = ErrAuthRequired)
      then (w, set_loading (set_state m StateIdle) false, [])
      else (w, set_loading (set_err m (Some Err)) false, [])
  | tea.weatherMsg wr =>
      (w, set_weatherLoading (set_weather m (Some wr)) false, [])
  | tea.weatherErrMsg e =>
      (w, set_weatherLoading (set_weatherErr m (Some e)) false, [])
  | _ => updateRest w m msg focused
  end.

(** The panel driven through a sequence of messages, each handled in
    the world of its moment. *)
Fixpoint run (m : Model) (steps : list (World * tea.Msg * bool)) : Model :=
  match steps with
  | [] => m
  | (w, msg, focused) :: rest => run (snd (fst (Update w m msg focused))) rest
  end.

(** *** Notions the properties are stated with *)

(** The message is none of the four the panel consumes itself. *)
Definition passedOn (msg : tea.Msg) : bool :=
  match msg with
  | tea.EventsMsg _ _ | tea.EventsErrMsg _ _
  | tea.weatherMsg _ | tea.weatherErrMsg _ => false
  | _ => true
  end.

(** A navigation step: the message reaches the date picker, and the date
    picker moves to [date], a day other than the selected one. *)
Definition navigatesTo (m : Model) (msg : tea.Msg) (date : time.Time) : Prop :=
  passedOn msg = true
  /\ datepicker.Time (fst (datepicker_Update (focusedPicker m) msg)) = date
  /\ sameDate date (selectedDate m) = false.

(** The panel once the clock, the spinner and the date picker have
    seen the message. *)
Definition withComponents (w : World) (m : Model) (msg : tea.Msg) : Model :=
  let m := set_clock m (fst (clock.Update w (clock_ m) msg)) in
  let m :=
    if loading m || weatherLoading m
    then set_spinner m (fst (spinner_Update (spinner_ m) msg))
    else m in
  set_DatePicker m (fst (datepicker_Update (focusedPicker m) msg)).

(** The commands of a navigation step in which the panel itself starts
    [started]: those of the clock, of the spinner while something is
    loading, and of the date picker. *)
Definition stepCmds (w : World) (m : Model) (msg : tea.Msg) (started : tea.Cmd)
  : tea.Cmd :=
  let clockCmd := snd (clock.Update w (clock_ m) msg) in
  let spinnerCmd := snd (spinner_Update (spinner_ m) msg) in
  let datepickerCmd := snd (datepicker_Update (focusedPicker m) msg) in
  if loading m || weatherLoading m
  then clockCmd ++ spinnerCmd ++ (datepickerCmd ++ started) ++ spinnerCmd
  else clockCmd ++ (datepickerCmd ++ started) ++ clockCmd.

(** The pointer is to an event that carries a start. *)
Definition carriesStart (event : option gcal.Event) : bool :=
  match event with
  | Some event =>
      match gcal.Start event with
      | Some _ => true
      | None => false
      end
  | None => false
  end.

(** Every event the cache holds carries a start. *)
Definition startsKnown (m : Model) : Prop :=
  forall (monthKey : string) (monthly : list (option gcal.Event)),
    cachedEvents m !! monthKey = Some monthly ->
    forallb carriesStart monthly = true.

(** The event starts on the day: its start, the timestamp when it has
    one and the all-day date otherwise, parses, and has the year, month
    and day of [selected]. *)
Definition startsOn (selected : time.Time) (event : gcal.Event) : bool :=
  match gcal.Start event with
  | Some s =>
      let start :=
        if negb (String.eqb (gcal.DateTime s) "")
        then time_Parse time.RFC3339 (gcal.DateTime s)
        else time_Parse time.DateOnly (gcal.Date s) in
      match start with
      | Some d =>
          (time.Year d =? time.Year selected) && (time.Month d =? time.Month selected)
          && (time.Day d =? time.Day selected)
      | None => false
      end
  | None => false
  end.

(** The events a list of pointers points to, in their order. *)
Definition pointees (events : list (option gcal.Event)) : list gcal.Event :=
  omap id events.

(** The events of a month that start on the day, in their order. *)
Definition dailyEvents (selected : time.Time) (monthly : list (option gcal.Event))
  : list gcal.Event :=
  List.filter (startsOn selected) (pointees monthly).

Definition SetSize (m : Model) (w h : Z) : Model := set_height (set_width m w) h.

End Update.

(** *** The arithmetic of [View] *)

(** The lines of the events that [View] writes under the date picker
    when the panel is not loading, before they are coloured: as many as
    fit under the eight lines of the date picker, line breaks replaced by
    spaces, each cut to the width that is left. *)
Definition eventLines (m : Model) : list string :=
  if (0 <? length (events m))%nat then
    let datePickerHeight := 8 in
    let availableLines := height m - datePickerHeight in
    if 0 <? availableLines then
      let numToShow := Z.min (Z.of_nat (length (events m))) availableLines in
      let maxSummaryLength := Z.max 0 (width m - 14) in
      List.map
        (fun event =>
           let summary := gcal.Summary event in
           let summary := strings.ReplaceAll1 summary (json.byte 10) " " in
           if maxSummaryLength <? Z.of_nat (String.length summary)
           then String.substring 0 (Z.to_nat maxSummaryLength) summary
           else summary)
        (take (Z.to_nat numToShow) (events m))
    else []
  else [].

(** The widths of the left side (date picker and events) and of the right
    side (clock and weather) of a panel that is [width] cells wide. *)
Definition columnWidths (width : Z) : Z * Z :=
  let minLeftWidth := 30 in
  let minRightWidth := 20 in
  let '(leftWidth, rightWidth) :=
    if width <? 80 then (minLeftWidth, width - minLeftWidth - 2)
    else
      let leftWidth := Z.min (Z.quot (width * 2) 3) 40 in
      (leftWidth, width - leftWidth - 2) in
  (* Ensure minimum widths *)
  let '(leftWidth, rightWidth) :=
    if leftWidth <? minLeftWidth
    then (minLeftWidth, width - minLeftWidth - 2)
    else (leftWidth, rightWidth) in
  if rightWidth <? minRightWidth
  then (width - minRightWidth - 2, minRightWidth)
  else (leftWidth, rightWidth).

(** What [View] draws: the text of the error, the left side alone on a
    narrow panel, or the two sides at their widths with the separator
    line of the right side. *)
Inductive Layout :=
| ShowsError (e : error)
| LeftOnly
| TwoColumns (leftWidth rightWidth separatorWidth : Z).

Definition layout (m : Model) : Layout :=
  match err m with
  | Some e => ShowsError e
  | None =>
      if width m <? 45 then LeftOnly
      else
        let '(leftWidth, rightWidth) := columnWidths (width m) in
        TwoColumns leftWidth rightWidth (Z.max 1 (rightWidth - 4))
  end.

End calendar.

(** ** Package notes (widgets/notes) *)

Module notes.

Inductive NoteState := NoteStateList | NoteStateCreate.

Record note := mkNote { title : string; path : string }.

Record KeyMap := mkKeyMap {
  CreateNote : key.Binding;
  DeleteNote : key.Binding;
  EditNote : key.Binding;
  SaveNote : key.Binding;
  Confirm : key.Binding;
  Cancel : key.Binding
}.

Record Model := mkModel {
  List : bubbles_list.Model note;
  TextInput : textinput.Model;
  State : NoteState;
  keys : KeyMap;
  width : Z;
  height : Z
}.

Definition set_List (m : Model) (l : bubbles_list.Model note) : Model :=
  mkModel l (TextInput m) (State m) (keys m) (width m) (height m).
Definition set_TextInput (m : Model) (ti : textinput.Model) : Model :=
  mkModel (List m) ti (State m) (keys m) (width m) (height m).
Definition set_State (m : Model) (st : NoteState) : Model :=
  mkModel (List m) (TextInput m) st (keys m) (width m) (height m).

Definition is_alnum_or_hyphen (c : ascii) : bool :=
  strings.is_lower c || strings.is_upper c || strings.is_digit c || Ascii.eqb c "-".

(** Spaces become hyphens, every byte outside [a-zA-Z0-9-] is dropped
    (the bytes of a character beyond ASCII are all outside the class). *)
Definition sanitizeFilename (name : string) : string :=
  let name := strings.ReplaceAll1 name " " "-" in
  let sanitized := strings.filter is_alnum_or_hyphen name in
  if String.eqb sanitized "" then "untitled-note" else sanitized.

(** A letter, a digit or a space: the characters of a title that the
    file name keeps, the space as a hyphen. *)
Definition is_alnum_or_space (c : ascii) : bool :=
  strings.is_lower c || strings.is_upper c || strings.is_digit c || Ascii.eqb c " ".

Definition is_md (file : os.DirEntry) : bool :=
  negb (os.IsDir file) && strings.HasSuffix (os.Name file) ".md".

Definition is_regexp_space (c : ascii) : bool :=
  let n := nat_of_ascii c in
  ((n =? 32) || (n =? 9) || (n =? 10) || (n =? 12) || (n =? 13))%nat.

Fixpoint drop_digits (s : string) : string :=
  match s with
  | String c rest => if strings.is_digit c then drop_digits rest else s
  | EmptyString => s
  end.

(** [regexp.MustCompile(`^\d+\s`).ReplaceAllString(title, "")] *)
Definition stripNumericPrefix (title : string) : string :=
  match title with
  | String c _ =>
      if strings.is_digit c then
        match drop_digits title with
        | String sp rest => if is_regexp_space sp then rest else title
        | EmptyString => title
        end
      else title
  | EmptyString => title
  end.

(** The seed documents; of each text only the heading is kept here. *)
Definition welcomeTitle : string := "01 Welcome to GoDash".
Definition welcomeContent : string := "# Welcome to GoDash".
Definition keybindingsTitle : string := "02 Keybindings for the entire GoDash app".
Definition keybindingsContent : string := "# GoDash Keyboard Reference".

Definition createDefaultNotes (w : World) (dir : string) : World :=
  let welcomeFilename := sanitizeFilename welcomeTitle +:+ ".md" in
  let keybindingsFilename := sanitizeFilename keybindingsTitle +:+ ".md" in
  let w := set_files w (fst (os.WriteFile (files w)
                               (os.Join dir welcomeFilename) welcomeContent)) in
  set_files w (fst (os.WriteFile (files w)
                      (os.Join dir keybindingsFilename) keybindingsContent)).

Definition note_of (notesDir : string) (file : os.DirEntry) : note :=
  let title := strings.TrimSuffix (os.Name file) ".md" in
  let title := strings.ReplaceAll1 title "-" " " in
  let title := stripNumericPrefix title in
  mkNote title (os.Join notesDir (os.Name file)).

Definition loadNotes (w : World) : World * (list note * option error) :=
  let notesDir := config.GetNotesDir w in
  let files0 := os.ReadDir (files w) notesDir in
  let noteCount := length (List.filter is_md files0) in
  (* Only create default notes on first run, not every time the notes
     directory is empty *)
  let '(w, files1) :=
    if (noteCount =? 0)%nat then
      let '(w, (settings, err)) := config.LoadSettings w in
      match err with
      | None =>
          if negb (config.DefaultNotesCreated settings) then
            let w := createDefaultNotes w notesDir in
            (* Mark default notes as created *)
            let settings := config.mkSettings (config.Location settings) true in
            let w := fst (config.SaveSettings w settings) in
            (* Re-read files after creating the default ones *)
            (w, os.ReadDir (files w) notesDir)
          else (w, files0)
      | Some _ => (w, files0)
      end
    else (w, files0) in
  (w, (List.map (note_of notesDir) (List.filter is_md files1), None)).

Definition New (w : World) (ks : KeyMap) : World * Model :=
  let '(w, (notes, _)) := loadNotes w in
  (w, mkModel (bubbles_list.New notes) (textinput.mkModel "" false 0)
              NoteStateList ks 0 0).

Definition Reload (w : World) (m : Model) : World * Model :=
  let '(w, (notes, err)) := loadNotes w in
  match err with
  | Some _ => (w, m)
  | None => (w, set_List m (bubbles_list.SetItems (List m) notes))
  end.

Definition error_text (e : error) : string :=
  match e with
  | ErrNotExist => "no such file or directory"
  | ErrPermission => "permission denied"
  | SyntaxError => "unexpected end of JSON input"
  | UnmarshalTypeError f => "json: cannot unmarshal into " +:+ f
  | ErrAuthRequired => "authorization required"
  | errorString msg => msg
  end.

(** [err.Error()] of the [*fs.PathError] in which [os.ReadFile] returns
    the failure [e] of operation [op] on [path]. *)
Definition pathError_text (op path : string) (e : error) : string :=
  op +:+ " " +:+ path +:+ ": " +:+ error_text e.

Section Update.
Context `{Components}.

Definition createKey (w : World) (m : Model) (k : string) : World * Model :=
  if key.Matches k (Cancel (keys m)) then
    (w, set_TextInput (set_State m NoteStateList) (textinput.Reset (TextInput m)))
  else if key.Matches k (Confirm (keys m)) then
    let title := textinput.Value (TextInput m) in
    if negb (String.eqb title "") then
      let notesDir := config.GetNotesDir w in
      let filename := sanitizeFilename title +:+ ".md" in
      let filePath := os.Join notesDir filename in
      let w := set_files w (fst (os.WriteFile (files w) filePath
                                   ("# " +:+ title +:+ json.newline +:+ json.newline))) in
      let newNote := mkNote title filePath in
      let m := set_List m (bubbles_list.InsertItem (List m)
                             (length (bubbles_list.Items (List m))) newNote) in
      let m := set_TextInput m (textinput.Reset (TextInput m)) in
      (w, set_State m NoteStateList)
    else (w, m)
  else (w, m).

(** The key handling of the list state: [inl] is an early return. *)
Definition listKey (w : World) (m : Model) (k : string)
  : (World * Model * tea.Cmd) + (World * Model) :=
  if decide (bubbles_list.filterState (List m) = bubbles_list.Filtering)
  then inr (w, m)
  else if key.Matches k (CreateNote (keys m)) then
    let m := set_State m NoteStateCreate in
    inl (w, set_TextInput m (textinput.Focus (TextInput m)), [tea.Blink])
  else if key.Matches k (DeleteNote (keys m)) then
    if (0 <? length (bubbles_list.Items (List m)))%nat then
      match bubbles_list.SelectedItem (List m) with
      | Some selected =>
          let w := set_files w (os.Remove (files w) (path selected)) in
          inr (w, set_List m (bubbles_list.RemoveItem (List m)
                                (bubbles_list.Index (List m))))
      | None => inr (w, m)
      end
    else inr (w, m)
  else if key.Matches k (Confirm (keys m)) then
    match bubbles_list.SelectedItem (List m) with
    | Some selected =>
        let content :=
          match os.ReadFile (files w) (path selected) with
          | inl content => content
          | inr err =>
              "Could not read file: " +:+ pathError_text "open" (path selected) err
          end in
        inl (w, m, [tea.Emit (tea.EditNoteMsg (path selected) content)])
    | None => inr (w, m)
    end
  else inr (w, m).

Definition Update (w : World) (m : Model) (msg : tea.Msg) (focused : bool)
  : World * Model * tea.Cmd :=
  if focused then
    match State m with
    | NoteStateCreate =>
        let '(w, m) :=
          match msg with
          | tea.KeyMsg k => createKey w m k
          | _ => (w, m)
          end in
        let '(ti, cmd) := textinput_Update (TextInput m) msg in
        (w, set_TextInput m ti, tea.Batch [cmd])
    | NoteStateList =>
        let handled :=
          match msg with
          | tea.KeyMsg k => listKey w m k
          | _ => inr (w, m)
          end in
        match handled with
        | inl ret => ret
        | inr (w, m) =>
            let '(l, cmd) := list_Update (List m) msg in
            (w, set_List m l, tea.Batch [cmd])
        end
    end
  else (w, m, tea.Batch []).

End Update.

End notes.

(** ** Package main (main.go): the dashboard *)

Module main.

Inductive appState :=
| stateDashboard | stateEditingNote | stateSetupWeather | stateSetupCalendar
| stateExitConfirmation.

Inductive noteEditorMode := notePreviewMode | noteSourceMode.

Definition minWidth : Z := 140.
Definition minHeight : Z := 35.

Inductive focusState := focusList | focusNotes | focusCalendar.

#[global] Instance appState_eq_dec : EqDecision appState.
Proof. solve_decision. Defined.
#[global] Instance noteEditorMode_eq_dec : EqDecision noteEditorMode.
Proof. solve_decision. Defined.
#[global] Instance focusState_eq_dec : EqDecision focusState.
Proof. solve_decision. Defined.

(** [(m.focus + 1) % 3] *)
Definition nextFocus (f : focusState) : focusState :=
  match f with
  | focusList => focusNotes
  | focusNotes => focusCalendar
  | focusCalendar => focusList
  end.

Record keyMap := mkKeyMap {
  AddTask : key.Binding;
  Delete : key.Binding;
  Toggle : key.Binding;
  EditTask : key.Binding;
  SaveTask : key.Binding;
  Confirm : key.Binding;
  OpenLink : key.Binding;
  OpenCalendar : key.Binding;
  Cancel : key.Binding;
  CreateNote : key.Binding;
  DeleteNote : key.Binding;
  EditNote : key.Binding;
  SaveNote : key.Binding;
  ToggleEditMode : key.Binding;
  CycleFocus : key.Binding;
  ShowHelp : key.Binding;
  Quit : key.Binding
}.

Definition keys_ : keyMap :=
  mkKeyMap (key.NewBinding ["o"]) (key.NewBinding ["ctrl+d"])
           (key.NewBinding [" "]) (key.NewBinding ["i"])
           (key.NewBinding ["ctrl+s"]) (key.NewBinding ["enter"])
           (key.NewBinding ["ctrl+o"]) (key.NewBinding ["enter"])
           (key.NewBinding ["esc"]) (key.NewBinding ["o"])
           (key.NewBinding ["ctrl+d"]) (key.NewBinding ["e"])
           (key.NewBinding ["ctrl+s"]) (key.NewBinding ["i"])
           (key.NewBinding ["tab"]) (key.NewBinding ["ctrl+k"])
           (key.NewBinding ["ctrl+q"]).

(** The key maps [initialModel] hands to the panels: copies of the
    bindings, taken while all of them are enabled. *)
Definition todoKeys : todo.KeyMap :=
  todo.mkKeyMap (AddTask keys_) (Delete keys_) (Toggle keys_) (EditTask keys_)
                (SaveTask keys_) (Confirm keys_) (Cancel keys_).

Definition noteKeys : notes.KeyMap :=
  notes.mkKeyMap (CreateNote keys_) (DeleteNote keys_) (EditNote keys_)
                 (SaveNote keys_) (Confirm keys_) (Cancel keys_).

(** The fields of the application model the dashboard reads or writes;
    the text area and the viewport of the note editor are kept as their
    text ([noteEditor] is what [m.noteEditor.Value()] returns). *)
Record model := mkModel {
  state : appState;
  focus : focusState;
  todo_ : todo.Model;
  notes_ : notes.Model;
  calendar_ : calendar.Model;
  noteEditor : string;
  noteViewer : string;
  noteEditorMode_ : noteEditorMode;
  noteContent : string;
  editingNotePath : string;
  keys : keyMap;
  width : Z;
  height : Z;
  showHelp : bool;
  markdownRenderer : bool;
  hasUnsavedChanges : bool;
  originalContent : string
}.

Definition set_state (m : model) (x : appState) : model :=
  mkModel x (focus m) (todo_ m) (notes_ m) (calendar_ m) (noteEditor m) (noteViewer m)
    (noteEditorMode_ m) (noteContent m) (editingNotePath m) (keys m) (width m) (height
    m) (showHelp m) (markdownRenderer m) (hasUnsavedChanges m) (originalContent m).
Definition set_focus (m : model) (x : focusState) : model :=
  mkModel (state m) x (todo_ m) (notes_ m) (calendar_ m) (noteEditor m) (noteViewer m)
    (noteEditorMode_ m) (noteContent m) (editingNotePath m) (keys m) (width m) (height
    m) (showHelp m) (markdownRenderer m) (hasUnsavedChanges m) (originalContent m).
Definition set_todo (m : model) (x : todo.Model) : model :=
  mkModel (state m) (focus m) x (notes_ m) (calendar_ m) (noteEditor m) (noteViewer m)
    (noteEditorMode_ m) (noteContent m) (editingNotePath m) (keys m) (width m) (height
    m) (showHelp m) (markdownRenderer m) (hasUnsavedChanges m) (originalContent m).
Definition set_notes (m : model) (x : notes.Model) : model :=
  mkModel (state m) (focus m) (todo_ m) x (calendar_ m) (noteEditor m) (noteViewer m)
    (noteEditorMode_ m) (noteContent m) (editingNotePath m) (keys m) (width m) (height
    m) (showHelp m) (markdownRenderer m) (hasUnsavedChanges m) (originalContent m).
Definition set_calendar (m : model) (x : calendar.Model) : model :=
  mkModel (state m) (focus m) (todo_ m) (notes_ m) x (noteEditor m) (noteViewer m)
    (noteEditorMode_ m) (noteContent m) (editingNotePath m) (keys m) (width m) (height
    m) (showHelp m) (markdownRenderer m) (hasUnsavedChanges m) (originalContent m).
Definition set_noteEditor (m : model) (x : string) : model :=
  mkModel (state m) (focus m) (todo_ m) (notes_ m) (calendar_ m) x (noteViewer m)
    (noteEditorMode_ m) (noteContent m) (editingNotePath m) (keys m) (width m) (height
    m) (showHelp m) (markdownRenderer m) (hasUnsavedChanges m) (originalContent m).
Definition set_noteViewer (m : model) (x : string) : model :=
  mkModel (state m) (focus m) (todo_ m) (notes_ m) (calendar_ m) (noteEditor m) x
    (noteEditorMode_ m) (noteContent m) (editingNotePath m) (keys m) (width m) (height
    m) (showHelp m) (markdownRenderer m) (hasUnsavedChanges m) (originalContent m).
Definition set_noteEditorMode (m : model) (x : noteEditorMode) : model :=
  mkModel (state m) (focus m) (todo_ m) (notes_ m) (calendar_ m) (noteEditor m)
    (noteViewer m) x (noteContent m) (editingNotePath m) (keys m) (width m) (height m)
    (showHelp m) (markdownRenderer m) (hasUnsavedChanges m) (originalContent m).
Definition set_noteContent (m : model) (x : string) : model :=
  mkModel (state m) (focus m) (todo_ m) (notes_ m) (calendar_ m) (noteEditor m)
    (noteViewer m) (noteEditorMode_ m) x (editingNotePath m) (keys m) (width m)
    (height m) (showHelp m) (markdownRenderer m) (hasUnsavedChanges m)
    (originalContent m).
Definition set_editingNotePath (m : model) (x : string) : model :=
  mkModel (state m) (focus m) (todo_ m) (notes_ m) (calendar_ m) (noteEditor m)
    (noteViewer m) (noteEditorMode_ m) (noteContent m) x (keys m) (width m) (height m)
    (showHelp m) (markdownRenderer m) (hasUnsavedChanges m) (originalContent m).
Definition set_keys (m : model) (x : keyMap) : model :=
  mkModel (state m) (focus m) (todo_ m) (notes_ m) (calendar_ m) (noteEditor m)
    (noteViewer m) (noteEditorMode_ m) (noteContent m) (editingNotePath m) x (width m)
    (height m) (showHelp m) (markdownRenderer m) (hasUnsavedChanges m)
    (originalContent m).
Definition set_showHelp (m : model) (x : bool) : model :=
  mkModel (state m) (focus m) (todo_ m) (notes_ m) (calendar_ m) (noteEditor m)
    (noteViewer m) (noteEditorMode_ m) (noteContent m) (editingNotePath m) (keys m)
    (width m) (height m) x (markdownRenderer m) (hasUnsavedChanges m) (originalContent
    m).
Definition set_hasUnsavedChanges (m : model) (x : bool) : model :=
  mkModel (state m) (focus m) (todo_ m) (notes_ m) (calendar_ m) (noteEditor m)
    (noteViewer m) (noteEditorMode_ m) (noteContent m) (editingNotePath m) (keys m)
    (width m) (height m) (showHelp m) (markdownRenderer m) x (originalContent m).
Definition set_originalContent (m : model) (x : string) : model :=
  mkModel (state m) (focus m) (todo_ m) (notes_ m) (calendar_ m) (noteEditor m)
    (noteViewer m) (noteEditorMode_ m) (noteContent m) (editingNotePath m) (keys m)
    (width m) (height m) (showHelp m) (markdownRenderer m) (hasUnsavedChanges m) x.

Definition updateKeybindings (m : model) : model :=
  let k := keys m in
  let en := key.SetEnabled in
  if decide (state m = stateEditingNote) then
    set_keys m
      (mkKeyMap (en (AddTask k) false) (en (Delete k) false) (en (Toggle k) false)
                (en (EditTask k) false) (SaveTask k) (en (Confirm k) false)
                (en (OpenLink k) false) (en (OpenCalendar k) false)
                (en (Cancel k) true) (en (CreateNote k) false)
                (en (DeleteNote k) false) (en (EditNote k) false)
                (en (SaveNote k) (bool_decide (noteEditorMode_ m = noteSourceMode)))
                (en (ToggleEditMode k) true) (en (CycleFocus k) false)
                (en (ShowHelp k) false) (en (Quit k) true))
  else
    let isListFocused := bool_decide (focus m = focusList) in
    let isNotesFocused := bool_decide (focus m = focusNotes) in
    let isCalendarFocused := bool_decide (focus m = focusCalendar) in
    let isSetup := bool_decide (state m = stateSetupWeather)
                   || bool_decide (state m = stateSetupCalendar) in
    let st := todo.GetState (todo_ m) in
    let listDefault :=
      negb isSetup && isListFocused && bool_decide (st = todo.ListStateDefault) in
    set_keys m
      (mkKeyMap (en (AddTask k) listDefault) (en (Delete k) listDefault)
                (en (Toggle k) listDefault) (en (EditTask k) listDefault)
                (SaveTask k)
                (en (Confirm k)
                    ((negb isSetup && isListFocused
                      && (bool_decide (st = todo.ListStateAdding)
                          || bool_decide (st = todo.ListStateEditing)))
                     || isSetup))
                (en (OpenLink k) isSetup)
                (en (OpenCalendar k) (negb isSetup && isCalendarFocused))
                (en (Cancel k) (negb isSetup))
                (en (CreateNote k) (negb isSetup && isNotesFocused))
                (en (DeleteNote k) (negb isSetup && isNotesFocused))
                (en (EditNote k) (negb isSetup && isNotesFocused))
                (en (SaveNote k) false)
                (ToggleEditMode k)
                (en (CycleFocus k) (negb isSetup))
                (en (ShowHelp k) true) (en (Quit k) true)).

(** The keys of the bindings, in the order of the fields. *)
Definition keyLists (k : keyMap) : list (list string) :=
  [key.keys (AddTask k); key.keys (Delete k); key.keys (Toggle k);
   key.keys (EditTask k); key.keys (SaveTask k); key.keys (Confirm k);
   key.keys (OpenLink k); key.keys (OpenCalendar k); key.keys (Cancel k);
   key.keys (CreateNote k); key.keys (DeleteNote k); key.keys (EditNote k);
   key.keys (SaveNote k); key.keys (ToggleEditMode k); key.keys (CycleFocus k);
   key.keys (ShowHelp k); key.keys (Quit k)].

(** The bindings as they are on the dashboard: the keys of [keys], and
    the global bindings enabled. *)
Definition dashboardKeys (k : keyMap) : Prop :=
  keyLists k = keyLists keys_
  /\ key.enabled (Cancel k) = true
  /\ key.enabled (CycleFocus k) = true
  /\ key.enabled (ShowHelp k) = true
  /\ key.enabled (Quit k) = true.

Definition openURLInBrowser (w : World) (url : string) : World :=
  launch w (OpenURL url).

Section Update.
Context `{Components}.

(** The preview of a note: the rendered markdown, or the text itself
    when there is no renderer or the rendering fails. *)
Definition preview (m : model) (content : string) : string :=
  if markdownRenderer m then
    match glamour_Render content with
    | inl rendered => rendered
    | inr _ => content
    end
  else content.

Definition editNote (m : model) (Path Content : string) : model :=
  let m := set_state m stateEditingNote in
  let m := set_editingNotePath m Path in
  let m := set_noteContent m Content in
  let m := set_originalContent m (noteContent m) in
  let m := set_hasUnsavedChanges m false in
  let m := set_noteEditor m (textarea_SetValue (noteContent m)) in
  let m := set_noteEditorMode m notePreviewMode in
  let m := set_noteViewer m (preview m (noteContent m)) in
  updateKeybindings m.

(** A left-button press picks the panel under the pointer. *)
Definition mouseFocus (m : model) (X Y : Z) : model :=
  let leftColumnWidth := Z.quot (width m * 2) 5 in
  let m :=
    if X <? leftColumnWidth then
      if Y <? Z.quot (height m) 2
      then set_focus m focusList
      else set_focus m focusCalendar
    else set_focus m focusNotes in
  updateKeybindings m.

(** The three panels get the message, each told whether it has the
    focus. *)
Definition updatePanels (w : World) (m : model) (msg : tea.Msg)
  : World * model * list tea.Cmd :=
  let '(w, t, cmd1) :=
    todo.Update w (todo_ m) msg (bool_decide (focus m = focusList)) in
  let m := set_todo m t in
  let '(w, n, cmd2) :=
    notes.Update w (notes_ m) msg (bool_decide (focus m = focusNotes)) in
  let m := set_notes m n in
  let '(w, c, cmd3) :=
    calendar.Update w (calendar_ m) msg (bool_decide (focus m = focusCalendar)) in
  let m := set_calendar m c in
  (w, m, [cmd1; cmd2; cmd3]).

(** The global keys, after the panels have seen the message. *)
Definition dashboardKey (w : World) (m : model) (k : string) (cmds : list tea.Cmd)
  : World * model * tea.Cmd :=
  let w :=
    if bool_decide (focus m = focusCalendar) && key.Matches k (OpenCalendar (keys m))
    then openURLInBrowser w "https://calendar.google.com/calendar/u/0/r"
    else w in
  if String.eqb k "q" then (w, m, [])
  else if key.Matches k (ShowHelp (keys m)) then
    (w, set_showHelp m (negb (showHelp m)), [])
  else if key.Matches k (Cancel (keys m)) then
    (w, (if showHelp m then set_showHelp m false else m), [])
  else if key.Matches k (Quit (keys m)) then (w, m, [tea.Quit])
  else if key.Matches k (CycleFocus (keys m)) then
    if negb (bool_decide (todo.GetState (todo_ m) = todo.ListStateAdding))
    then (w, updateKeybindings (set_focus m (nextFocus (focus m))), [])
    else (w, m, [])
  else (w, m, tea.Batch cmds).

Definition updateDashboard (w : World) (m : model) (msg : tea.Msg)
  : World * model * tea.Cmd :=
  if bool_decide (todo.GetState (todo_ m) = todo.ListStateAdding)
     || bool_decide (todo.GetState (todo_ m) = todo.ListStateEditing)
  then
    let '(w, t, cmd) :=
      todo.Update w (todo_ m) msg (bool_decide (focus m = focusList)) in
    (w, set_todo m t, tea.Batch [cmd])
  else
    match msg with
    | tea.EditNoteMsg Path Content => (w, editNote m Path Content, [])
    | _ =>
        let m :=
          match msg with
          | tea.MouseMsg X Y tea.MouseActionPress tea.MouseButtonLeft =>
              mouseFocus m X Y
          | _ => m
          end in
        let '(w, m, cmds) := updatePanels w m msg in
        match msg with
        | tea.KeyMsg k => dashboardKey w m k cmds
        | _ => (w, m, tea.Batch cmds)
        end
    end.

End Update.

(** *** The geometry of [viewDashboard]

    The frame is the logo line, then the grid, then the status bar. The
    grid joins the left column (the task box above the calendar box) and
    the notes box side by side. A box is rendered at [Width(n - 2)] inside
    a border of one cell on each side, so it is [n] cells wide. *)

Definition logoHeight : Z := 1.

Definition gridHeight (m : model) : Z := height m - 3.

Definition leftColumnWidth (m : model) : Z := Z.quot (width m) 2.
Definition rightColumnWidth (m : model) : Z := width m - leftColumnWidth m.

Definition todoBoxHeight (m : model) : Z := Z.quot (gridHeight m * 3) 7.
Definition calendarBoxHeight (m : model) : Z := gridHeight m - todoBoxHeight m.

(** The rendered width of the task box and of the calendar box. *)
Definition todoBoxWidth (m : model) : Z := (leftColumnWidth m - 2) + 2.
Definition notesBoxWidth (m : model) : Z := (rightColumnWidth m - 2) + 2.

(** The dashboard is drawn only on a terminal that is large enough. *)
Definition rendersDashboard (m : model) : Prop :=
  state m = stateDashboard /\ minWidth <= width m /\ minHeight <= height m.

(** Column [X] of the frame shows the left column, resp. the notes box. *)
Definition inLeftColumn (m : model) (X : Z) : Prop :=
  0 <= X < todoBoxWidth m.

Definition inRightColumn (m : model) (X : Z) : Prop :=
  todoBoxWidth m <= X < todoBoxWidth m + notesBoxWidth m.

End main.

(** ** Package main (main.go): the note editor and the dispatcher

    [main.model] holds the fields of the application model that the
    dashboard reads or writes. The record below adds the fields the other
    states use. As in [main.model], the text area and the viewport of the
    note editor are kept as their text: [Focus], [Blur] and the setting of
    sizes do not change it. *)

(** How the text of the text area and of the viewport reacts to a
    message. *)
Class Editor := {
  textarea_Update : string -> tea.Msg -> string * tea.Cmd;
  viewport_Update : string -> tea.Msg -> string * tea.Cmd
}.

Module app.

Record model := mkModel {
  dash : main.model;
  setupTextInput : textinput.Model;
  err : option error;
  saveMessage : string;
  saveMessageTimer : Z;
  confirmationChoice : Z              (* 0 = Yes, 1 = No *)
}.

Definition set_dash (m : model) (x : main.model) : model :=
  mkModel x (setupTextInput m) (err m) (saveMessage m) (saveMessageTimer m)
          (confirmationChoice m).
Definition set_setupTextInput (m : model) (x : textinput.Model) : model :=
  mkModel (dash m) x (err m) (saveMessage m) (saveMessageTimer m)
          (confirmationChoice m).
Definition set_err (m : model) (x : option error) : model :=
  mkModel (dash m) (setupTextInput m) x (saveMessage m) (saveMessageTimer m)
          (confirmationChoice m).
Definition set_saveMessage (m : model) (x : string) : model :=
  mkModel (dash m) (setupTextInput m) (err m) x (saveMessageTimer m)
          (confirmationChoice m).
Definition set_saveMessageTimer (m : model) (x : Z) : model :=
  mkModel (dash m) (setupTextInput m) (err m) (saveMessage m) x
          (confirmationChoice m).
Definition set_confirmationChoice (m : model) (x : Z) : model :=
  mkModel (dash m) (setupTextInput m) (err m) (saveMessage m) (saveMessageTimer m) x.

Definition savedMessage : string := "✅ Note saved!".

(** The bindings as they are in the note editor: the keys of [keys], the
    toggle and cancel bindings enabled, the save binding enabled in source
    mode only. *)
Definition editorKeys (d : main.model) : Prop :=
  main.keyLists (main.keys d) = main.keyLists main.keys_
  /\ key.enabled (main.ToggleEditMode (main.keys d)) = true
  /\ key.enabled (main.Cancel (main.keys d)) = true
  /\ key.enabled (main.SaveNote (main.keys d))
     = bool_decide (main.noteEditorMode_ d = main.noteSourceMode).

Section Update.
Context `{Components} `{Editor}.

(** The handlers of the two setup screens, which talk to the
    authorisation flow of the calendar service. *)
Variable updateSetupWeather : World -> model -> tea.Msg -> World * model * tea.Cmd.
Variable updateSetupCalendar : World -> model -> tea.Msg -> World * model * tea.Cmd.

(** The save key of the note editor. *)
Definition saveNote (w : World) (m : model) : World * model * tea.Cmd :=
  let d := dash m in
  if decide (main.noteEditorMode_ d = main.noteSourceMode) then
    let content := main.noteEditor d in
    let '(fs, err) := os.WriteFile (files w) (main.editingNotePath d) content in
    let w := set_files w fs in
    match err with
    | Some e =>
        (w, set_err m (Some (errorString ("could not save note: "
                                           +:+ notes.error_text e))), [])
    | None =>
        let d := main.set_noteContent d content in
        let '(w, n) := notes.Reload w (main.notes_ d) in
        let d := main.set_notes d n in
        (* Show save confirmation message *)
        let m := set_saveMessage m savedMessage in
        let m := set_saveMessageTimer m 3 in
        let d := main.set_hasUnsavedChanges d false in
        let d := main.set_originalContent d content in
        (* Update preview after saving *)
        let d := main.set_noteViewer d (main.preview d content) in
        (w, set_dash m d, [tea.tickCmd])
    end
  else (w, m, [tea.tickCmd]).

(** The cancel key of the note editor. *)
Definition cancelNote (w : World) (m : model) : World * model * tea.Cmd :=
  let d := dash m in
  if decide (main.noteEditorMode_ d = main.noteSourceMode) then
    (* If in source mode, check for unsaved changes before going to preview *)
    let currentContent := main.noteEditor d in
    let hasChanges := negb (String.eqb currentContent (main.originalContent d)) in
    if hasChanges then
      let d := main.set_hasUnsavedChanges d hasChanges in
      let d := main.set_state d main.stateExitConfirmation in
      let m := set_confirmationChoice m 1 in
      (w, set_dash m (main.updateKeybindings d), [])
    else
      let d := main.set_noteEditorMode d main.notePreviewMode in
      let d := main.set_noteContent d currentContent in
      let d := main.set_noteViewer d (main.preview d (main.noteContent d)) in
      (w, set_dash m (main.updateKeybindings d), [])
  else
    (* If in preview mode, exit directly *)
    let d := main.set_state d main.stateDashboard in
    (w, set_dash m (main.updateKeybindings d), []).

(** The keys of the note editor; [None] when the switch on the key is
    left without a return. *)
Definition noteEditorKey (w : World) (m : model) (k : string)
  : option (World * model * tea.Cmd) :=
  let d := dash m in
  if key.Matches k (main.ToggleEditMode (main.keys d)) then
    if decide (main.noteEditorMode_ d = main.notePreviewMode) then
      (* Switch to source mode *)
      let d := main.set_noteEditorMode d main.noteSourceMode in
      Some (w, set_dash m (main.updateKeybindings d), [])
    else None
  else if key.Matches k (main.SaveNote (main.keys d)) then Some (saveNote w m)
  else if key.Matches k (main.Cancel (main.keys d)) then Some (cancelNote w m)
  else None.

Definition updateNoteEditor (w : World) (m : model) (msg : tea.Msg)
  : World * model * tea.Cmd :=
  let handled :=
    match msg with
    | tea.KeyMsg k => noteEditorKey w m k
    | _ => None
    end in
  match handled with
  | Some ret => ret
  | None =>
      (* Update the appropriate component based on mode *)
      let d := dash m in
      if decide (main.noteEditorMode_ d = main.noteSourceMode) then
        let '(editor, cmd) := textarea_Update (main.noteEditor d) msg in
        let d := main.set_noteEditor d editor in
        (* Check for unsaved changes *)
        let currentContent := main.noteEditor d in
        let d := main.set_hasUnsavedChanges d
                   (negb (String.eqb currentContent (main.originalContent d))) in
        (w, set_dash m d, cmd)
      else
        let '(viewer, cmd) := viewport_Update (main.noteViewer d) msg in
        (w, set_dash m (main.set_noteViewer d viewer), cmd)
  end.

(** [key.Matches(msg, key.NewBinding(key.WithKeys(...)))] *)
Definition pressed (k : string) (ks : list string) : bool :=
  key.Matches k (key.NewBinding ks).

Definition updateExitConfirmation (w : World) (m : model) (msg : tea.Msg)
  : World * model * tea.Cmd :=
  match msg with
  | tea.KeyMsg k =>
      let d := dash m in
      if pressed k ["left"; "h"] then (w, set_confirmationChoice m 0, [])
      else if pressed k ["right"; "l"] then (w, set_confirmationChoice m 1, [])
      else if pressed k ["y"; "Y"] then (w, set_confirmationChoice m 0, [])
      else if pressed k ["n"; "N"] then (w, set_confirmationChoice m 1, [])
      else if pressed k ["enter"] then
        if confirmationChoice m =? 0 then
          (* Yes: go to preview mode without saving changes *)
          let d := main.set_noteEditorMode d main.notePreviewMode in
          let d := main.set_noteContent d (main.originalContent d) in
          let d := main.set_noteEditor d (textarea_SetValue (main.originalContent d)) in
          let d := main.set_hasUnsavedChanges d false in
          let d := main.set_noteViewer d (main.preview d (main.originalContent d)) in
          let d := main.set_state d main.stateEditingNote in
          (w, set_dash m (main.updateKeybindings d), [])
        else
          (* No: go back to the editor *)
          let d := main.set_state d main.stateEditingNote in
          (w, set_dash m (main.updateKeybindings d), [])
      else if pressed k ["esc"] then
        let d := main.set_state d main.stateEditingNote in
        (w, set_dash m (main.updateKeybindings d), [])
      else (w, m, [])
  | _ => (w, m, [])
  end.

(** The first switch of [Update]: [inl] is its return. *)
Definition beforeDispatch (w : World) (m : model) (msg : tea.Msg)
  : (World * model * tea.Cmd) + model :=
  match msg with
  | tea.tickMsg =>
      if 0 <? saveMessageTimer m then
        let m := set_saveMessageTimer m (saveMessageTimer m - 1) in
        let m := if saveMessageTimer m =? 0 then set_saveMessage m "" else m in
        inl (w, m, [tea.tickCmd])
      else inr m
  | tea.WindowSizeMsg Width Height =>
      let d := main.mkModel (main.state (dash m)) (main.focus (dash m))
                 (main.todo_ (dash m)) (main.notes_ (dash m)) (main.calendar_ (dash m))
                 (main.noteEditor (dash m)) (main.noteViewer (dash m))
                 (main.noteEditorMode_ (dash m)) (main.noteContent (dash m))
                 (main.editingNotePath (dash m)) (main.keys (dash m))
                 Width Height
                 (main.showHelp (dash m)) (main.markdownRenderer (dash m))
                 (main.hasUnsavedChanges (dash m)) (main.originalContent (dash m)) in
      let m := set_dash m d in
      inr (set_setupTextInput m
             (textinput.SetWidth (setupTextInput m) (Z.min 50 (main.width d - 10))))
  | _ => inr m
  end.

Definition Update (w : World) (m : model) (msg : tea.Msg)
  : World * model * tea.Cmd :=
  match beforeDispatch w m msg with
  | inl ret => ret
  | inr m =>
      match err m with
      | Some _ => (w, m, [tea.Quit])
      | None =>
          match main.state (dash m) with
          | main.stateEditingNote => updateNoteEditor w m msg
          | main.stateExitConfirmation => updateExitConfirmation w m msg
          | main.stateSetupWeather => updateSetupWeather w m msg
          | main.stateSetupCalendar => updateSetupCalendar w m msg
          | main.stateDashboard =>
              let '(w, d, cmd) := main.updateDashboard w (dash m) msg in
              (w, set_dash m d, cmd)
          end
      end
  end.

(** The program driven through a sequence of messages, each handled in
    the world the one before left, at the time of its moment. *)
Fixpoint run (w : World) (m : model) (steps : list (time.Time * tea.Msg))
  : World * model :=
  match steps with
  | [] => (w, m)
  | (t, msg) :: rest =>
      let w := mkWorld (files w) t (configDir w) (dataDir w) (launched w) (panicked w) in
      let '(w, m, _) := Update w m msg in
      run w m rest
  end.

End Update.

End app.

(** ** A simple instance of the components

    Small stand-ins for the libraries, used to run the panels on concrete
    inputs: the arrow keys move the date picker by a day or to the first of
    the next month, typed characters go to the end of a text input, a date
    is read from its first ten characters. *)

Module simple.

Definition day : Z := 86400 * time.Second.

Definition tomorrow (t : time.Time) : time.Time :=
  if time.Day t <? 28
  then time.mkTime (time.unixNano t + day) (time.Year t) (time.Month t) (time.Day t + 1)
  else if time.Month t <? 12
  then time.mkTime (time.unixNano t + day) (time.Year t) (time.Month t + 1) 1
  else time.mkTime (time.unixNano t + day) (time.Year t + 1) 1 1.

Definition nextMonth (t : time.Time) : time.Time :=
  if time.Month t <? 12
  then time.mkTime (time.unixNano t + 31 * day) (time.Year t) (time.Month t + 1) 1
  else time.mkTime (time.unixNano t + 31 * day) (time.Year t + 1) 1 1.

Definition datepicker_Update (m : datepicker.Model) (msg : tea.Msg)
  : datepicker.Model * tea.Cmd :=
  match msg with
  | tea.KeyMsg k =>
      if String.eqb k "right"
      then (datepicker.mkModel (tomorrow (datepicker.Time m))
              (datepicker.focus m) (datepicker.Selected m), [])
      else if String.eqb k "pgdown"
      then (datepicker.mkModel (nextMonth (datepicker.Time m))
              (datepicker.focus m) (datepicker.Selected m), [])
      else (m, [])
  | _ => (m, [])
  end.

Definition spinner_Update (m : spinner.Model) (msg : tea.Msg)
  : spinner.Model * tea.Cmd :=
  match msg with
  | tea.SpinnerTickMsg => (spinner.mkModel (S (spinner.frame m)), [tea.LibraryCmd 0])
  | _ => (m, [])
  end.

Definition textinput_Update (m : textinput.Model) (msg : tea.Msg)
  : textinput.Model * tea.Cmd :=
  match msg with
  | tea.KeyMsg (String c EmptyString) =>
      if textinput.focused m
      then (textinput.SetValue m (textinput.value m +:+ String c ""), [])
      else (m, [])
  | _ => (m, [])
  end.

Definition list_Update {A : Type} (m : bubbles_list.Model A) (msg : tea.Msg)
  : bubbles_list.Model A * tea.Cmd :=
  match msg with
  | tea.KeyMsg k =>
      if String.eqb k "down" && (S (bubbles_list.cursor m) <? length (bubbles_list.items m))%nat
      then (bubbles_list.mkModel (bubbles_list.items m) (S (bubbles_list.cursor m))
              (bubbles_list.filterState m) (bubbles_list.width m)
              (bubbles_list.height m), [])
      else if String.eqb k "up"
      then (bubbles_list.mkModel (bubbles_list.items m) (pred (bubbles_list.cursor m))
              (bubbles_list.filterState m) (bubbles_list.width m)
              (bubbles_list.height m), [])
      else (m, [])
  | _ => (m, [])
  end.

Definition number (s : string) : option Z :=
  if negb (String.eqb s "") && strings.forallb strings.is_digit s
  then Some (fold_left (fun n c => n * 10 + (Z.of_nat (nat_of_ascii c) - 48))
                       (list_ascii_of_string s) 0)
  else None.

(** "YYYY-MM-DD" at the head of the text; a timestamp goes on with 'T'. *)
Definition time_Parse (layout : time.Layout) (s : string) : option time.Time :=
  let well_formed :=
    String.eqb (String.substring 4 1 s) "-" && String.eqb (String.substring 7 1 s) "-"
    && match layout with
       | time.DateOnly => (String.length s =? 10)%nat
       | time.RFC3339 => String.eqb (String.substring 10 1 s) "T"
       end in
  if well_formed then
    match number (String.substring 0 4 s), number (String.substring 5 2 s),
          number (String.substring 8 2 s) with
    | Some y, Some mo, Some d =>
        if (1 <=? mo) && (mo <=? 12) && (1 <=? d) && (d <=? 31)
        then Some (time.mkTime 0 y mo d) else None
    | _, _, _ => None
    end
  else None.

(** A tab becomes four spaces. *)
Definition textarea_SetValue (s : string) : string :=
  strings.ReplaceAll1 s (json.byte 9) "    ".

Definition components : Components :=
  Build_Components spinner_Update datepicker_Update textinput_Update
                   (@list_Update) time_Parse (fun content => inl content)
                   textarea_SetValue.

End simple.

(** ** Concrete worlds *)

Module world.

Definition cfg : string := "/home/u/.config/GoDash".
Definition data : string := "/home/u/.local/share/GoDash".

(** Noon UTC on 3 November 2025. *)
Definition noon : time.Time := time.mkTime (1762171200 * time.Second) 2025 11 3.

(** A fresh installation: the directories exist and hold no file. *)
Definition fresh : World := mkWorld ∅ noon cfg data [] None.

(** The settings file exists and has zero bytes. *)
Definition emptySettingsFile : World :=
  mkWorld {[ os.Join cfg "config.json" := os.Regular "" ]} noon cfg data [] None.

End world.

(** ** Concrete panels *)

Module sample.

Definition buyMilk : todo.task := todo.mkTask "Buy milk" "" false.

(** The task panel while the one task of the list is being edited and the
    text input has been cleared. *)
Definition editingCleared : todo.Model :=
  todo.mkModel (bubbles_list.New [buyMilk]) (textinput.mkModel "" true 40)
               todo.ListStateEditing main.todoKeys "tasks.json".

(** The task panel while a task is being added and nothing has been typed. *)
Definition addingNothing : todo.Model :=
  todo.mkModel (bubbles_list.New [buyMilk]) (textinput.mkModel "" true 40)
               todo.ListStateAdding main.todoKeys "tasks.json".

End sample.

(** ** A concrete calendar panel *)

Module sample_calendar.

Definition standup : gcal.Event :=
  gcal.mkEvent "Standup" (Some (gcal.mkEventDateTime "" "2025-11-04T09:00:00+02:00")).
Definition holiday : gcal.Event :=
  gcal.mkEvent "Holiday" (Some (gcal.mkEventDateTime "2025-11-04" "")).
Definition review : gcal.Event :=
  gcal.mkEvent "Review" (Some (gcal.mkEventDateTime "2025-11-05" "")).
Definition someday : gcal.Event :=
  gcal.mkEvent "Someday" (Some (gcal.mkEventDateTime "soon" "")).

Definition november : list (option gcal.Event) :=
  [Some standup; Some review; Some someday; Some holiday].

(** An entry of the cache file without a start:
    [{"summary": "Dentist"}]. *)
Definition dentist : gcal.Event := gcal.mkEvent "Dentist" None.

Definition nov4 : time.Time := simple.tomorrow world.noon.

(** The panel showing 3 November 2025: November is in the cache, and the
    last fetch was started two seconds before noon. *)
Definition ready : calendar.Model :=
  calendar.mkModel calendar.StateReady
    (datepicker.mkModel world.noon datepicker.FocusCalendar true)
    [] world.noon
    {[ "2025-11" := november ]} ∅
    (time.mkTime (time.unixNano world.noon - 2 * time.Second) 2025 11 3)
    None false (spinner.mkModel 0)
    (calendar.mkKeyMap (key.NewBinding ["enter"]))
    (clock.mkModel world.noon) None None false "Athens" 60 20.

(** The same panel started on a cache file in which an entry of November
    has no start. *)
Definition corrupt : calendar.Model :=
  calendar.set_cachedEvents ready {[ "2025-11" := [Some standup; Some dentist] ]}.

(** Ten seconds after noon. *)
Definition later : World :=
  mkWorld ∅ (time.mkTime (time.unixNano world.noon + 10 * time.Second) 2025 11 3)
          world.cfg world.data [] None.

End sample_calendar.

(** ** A concrete dashboard *)

Module sample_dashboard.

(** The calendar panel of [sample_calendar.ready] with a clock that last
    ticked one second before noon. *)
Definition calendarPanel : calendar.Model :=
  calendar.set_clock sample_calendar.ready
    (clock.mkModel
       (time.mkTime (time.unixNano world.noon - time.Second) 2025 11 3)).

Definition notesPanel : notes.Model :=
  notes.mkModel (bubbles_list.New []) (textinput.mkModel "" false 0)
                notes.NoteStateList main.noteKeys 0 0.

Definition dashboard (todoPanel : todo.Model) : main.model :=
  main.mkModel main.stateDashboard main.focusList todoPanel notesPanel calendarPanel
               "" "" main.notePreviewMode "" "" main.keys_ 140 40
               false false false "".

(** A task is being added. *)
Definition entering : main.model := dashboard sample.addingNothing.

(** The task panel shows its list. *)
Definition idle : main.model :=
  dashboard (todo.set_State sample.addingNothing todo.ListStateDefault).

End sample_dashboard.

(** ** The paths of the seed documents *)

Module seed.

Definition welcome (w : World) : string :=
  os.Join (config.GetNotesDir w) "01-Welcome-to-GoDash.md".

Definition keybindings (w : World) : string :=
  os.Join (config.GetNotesDir w) "02-Keybindings-for-the-entire-GoDash-app.md".

(** The settings document with the flag set. *)
Definition flagged (settings : config.Settings) : string :=
  json.encode_indent "  " 0
    (config.to_json (config.mkSettings (config.Location settings) true)).

End seed.

(** ** Further concrete inputs and notions of the properties *)

(** The tokens of the task file, for the proof that it reads back. *)
Module task_file.
(** The tokens of a task in the task file. *)
Definition tokens (t : todo.task) : list json.token :=
  [json.TLBrace; json.TString "title"; json.TColon; json.TString (todo.Title t);
   json.TComma; json.TString "description"; json.TColon;
   json.TString (todo.Description t);
   json.TComma; json.TString "done"; json.TColon;
   (if todo.Done t then json.TTrue else json.TFalse); json.TRBrace].

(** The tokens of the task file: the tasks, separated by commas. *)
Fixpoint separated (tasks : list todo.task) : list json.token :=
  match tasks with
  | [] => []
  | [t] => tokens t
  | t :: rest => tokens t ++ json.TComma :: separated rest
  end.
End task_file.

(** ** A task panel and its file *)

Module sample_tasks.

Definition tomAndJerry : todo.task := todo.mkTask "Tom & Jerry" "<b>" true.

(** The task panel showing a list of one task. *)
Definition panel : todo.Model :=
  todo.mkModel (bubbles_list.New [sample.buyMilk]) (textinput.mkModel "" false 40)
               todo.ListStateDefault main.todoKeys "tasks.json".

(** The world in which the task file holds that list. *)
Definition saved : World := todo.saveTasks world.fresh "tasks.json" [sample.buyMilk].

(** A second task is being added: its title has been typed. *)
Definition typing : todo.Model :=
  todo.mkModel (bubbles_list.New [sample.buyMilk])
               (textinput.mkModel "Call Ann" true 40)
               todo.ListStateAdding main.todoKeys "tasks.json".

End sample_tasks.

(** ** A note panel *)

Module sample_notes.

Definition planPath : string := os.Join (config.GetNotesDir world.fresh) "Plan-Q3.md".

(** A note is being created: its title has been typed. *)
Definition naming : notes.Model :=
  notes.mkModel (bubbles_list.New []) (textinput.mkModel "Plan: Q3" true 40)
                notes.NoteStateCreate main.noteKeys 40 20.

(** The panel lists one note, whose file is in [withPlan]. *)
Definition listing : notes.Model :=
  notes.mkModel (bubbles_list.New [notes.mkNote "Plan Q3" planPath])
                (textinput.mkModel "" false 40)
                notes.NoteStateList main.noteKeys 40 20.

Definition withPlan : World :=
  set_files world.fresh {[ planPath := os.Regular "# Plan: Q3" ]}.

End sample_notes.

(** The dashboard with the focus on the note panel, which lists the one
    note of [sample_notes.withPlan]. *)
Module sample_reading.

Definition dashboard : main.model :=
  main.mkModel main.stateDashboard main.focusNotes
               (todo.set_State sample.addingNothing todo.ListStateDefault)
               sample_notes.listing sample_dashboard.calendarPanel
               "" "" main.notePreviewMode "" "" main.keys_ 140 40
               false false false "".

End sample_reading.

(** ** A simple instance of the editor *)

Module simple_editor.

(** A typed character goes to the end of the text. *)
Definition textarea_Update (text : string) (msg : tea.Msg) : string * tea.Cmd :=
  match msg with
  | tea.KeyMsg (String c EmptyString) => (text +:+ String c "", [])
  | _ => (text, [])
  end.

Definition viewport_Update (text : string) (msg : tea.Msg) : string * tea.Cmd :=
  (text, []).

Definition editor : Editor := Build_Editor textarea_Update viewport_Update.

(** A setup screen that ignores its messages. *)
Definition noSetup (w : World) (m : app.model) (msg : tea.Msg)
  : World * app.model * tea.Cmd := (w, m, []).

End simple_editor.

(** ** A note in the editor *)

Module sample_editor.

(** The note of [sample_notes.withPlan] has been opened from the list. *)
Definition opened : app.model :=
  app.mkModel
    (@main.editNote simple.components sample_reading.dashboard
       sample_notes.planPath "# Plan: Q3")
    (textinput.mkModel "" true 50) None "" 0 0.

(** The editor has been switched to source mode. *)
Definition source : app.model :=
  app.set_dash opened
    (main.updateKeybindings
       (main.set_noteEditorMode (app.dash opened) main.noteSourceMode)).

(** The text has been changed. *)
Definition edited : app.model :=
  app.set_dash source
    (main.set_hasUnsavedChanges
       (main.set_noteEditor (app.dash source) "# Plan: Q4") true).

(** The confirmation dialog is open. *)
Definition asking : app.model :=
  app.set_confirmationChoice
    (app.set_dash edited
       (main.updateKeybindings
          (main.set_state (app.dash edited) main.stateExitConfirmation)))
    1.

(** The note has just been saved: the message shows for three ticks. *)
Definition justSaved : app.model :=
  app.set_saveMessageTimer (app.set_saveMessage source app.savedMessage) 3.

(** The file of the note cannot be written. *)
Definition locked : World :=
  set_files world.fresh {[ sample_notes.planPath := os.Unreadable ]}.

End sample_editor.

(** * Properties *)

(** ** The standard library model on concrete inputs *)

Example format_2025_11 :
  time.Format_2006_01 (time.mkTime 0 2025 11 3) = "2025-11".
Proof. reflexivity. Qed.

Example format_year_987 :
  time.Format_2006_01 (time.mkTime 0 987 2 3) = "0987-02".
Proof. reflexivity. Qed.

Example since_zero_saturates :
  time.Since world.noon time.zero = time.maxDuration.
Proof. reflexivity. Qed.

Example parse_empty : json.parse "" = None.
Proof. reflexivity. Qed.

Example parse_blank : json.parse "  " = None.
Proof. reflexivity. Qed.

Example parse_trailing_comma : json.parse "[1,]" = None.
Proof. reflexivity. Qed.

Example parse_object :
  json.parse ("{" +:+ json.quote "a" +:+ ": [1, true, null], "
                  +:+ json.quote "b" +:+ ": " +:+ json.quote "x\ny" +:+ "}")
  = Some (json.Object
            [("a", json.Array [json.Number "1"; json.Bool true; json.Null]);
             ("b", json.Str "x\ny")]).
Proof. reflexivity. Qed.

Example parse_escape :
  json.parse "[ 1.5e3 ,{ } ]" = Some (json.Array [json.Number "1.5e3"; json.Object []])
  /\ json.parse "[01]" = None
  /\ json.parse "{" = None
  /\ json.parse "nul" = None
  /\ json.parse "1 2" = None.
Proof. repeat split. Qed.

Example settings_document :
  json.encode_indent "  " 0 (config.to_json (config.mkSettings "Athens" false))
  = "{" +:+ json.newline
        +:+ "  " +:+ json.quote "location" +:+ ": " +:+ json.quote "Athens" +:+ ","
        +:+ json.newline
        +:+ "  " +:+ json.quote "default_notes_created" +:+ ": false"
        +:+ json.newline +:+ "}".
Proof. reflexivity. Qed.

Example sanitize_welcome :
  notes.sanitizeFilename notes.welcomeTitle = "01-Welcome-to-GoDash".
Proof. reflexivity. Qed.

Example strip_prefix_welcome :
  notes.stripNumericPrefix "01 Welcome to GoDash" = "Welcome to GoDash".
Proof. reflexivity. Qed.

(** ** Settings (package config) *)

Lemma ReadFile_missing (fs : gmap string os.Node) (path : string) :
  fs !! path = None -> os.ReadFile fs path = inr ErrNotExist.
Proof. intros E. unfold os.ReadFile. by rewrite E. Qed.

Lemma ReadFile_regular (fs : gmap string os.Node) (path content : string) :
  fs !! path = Some (os.Regular content) -> os.ReadFile fs path = inl content.
Proof. intros E. unfold os.ReadFile. by rewrite E. Qed.

Lemma ReadFile_unreadable (fs : gmap string os.Node) (path : string) :
  fs !! path = Some os.Unreadable -> os.ReadFile fs path = inr ErrPermission.
Proof. intros E. unfold os.ReadFile. by rewrite E. Qed.

Lemma WriteFile_missing (fs : gmap string os.Node) (path data : string) :
  fs !! path = None ->
  os.WriteFile fs path data = (<[path := os.Regular data]> fs, None).
Proof. intros E. unfold os.WriteFile. by rewrite E. Qed.

Lemma WriteFile_regular (fs : gmap string os.Node) (path old data : string) :
  fs !! path = Some (os.Regular old) ->
  os.WriteFile fs path data = (<[path := os.Regular data]> fs, None).
Proof. intros E. unfold os.WriteFile. by rewrite E. Qed.

Lemma Unmarshal_invalid {A : Type} (decode : json.value -> A -> A * option error)
  (data : string) (v : A) :
  json.parse data = None -> json.Unmarshal decode data v = (v, Some SyntaxError).
Proof. intros E. unfold json.Unmarshal. by rewrite E. Qed.

(** C8, as the code has it: on a missing settings file [LoadSettings]
    writes the default document and returns the defaults, Location "Athens"
    and DefaultNotesCreated false, without an error; on a settings file of
    zero bytes it returns a JSON syntax error with the zero-valued settings
    and writes nothing. *)
Theorem LoadSettings_missing_or_empty (w : World) :
  (files w !! config.settingsPath w = None ->
   config.LoadSettings w
   = (set_files w
        (<[config.settingsPath w :=
             os.Regular (json.encode_indent "  " 0
                           (config.to_json (config.mkSettings "Athens" false)))]>
           (files w)),
      (config.mkSettings "Athens" false, None)))
  /\ (files w !! config.settingsPath w = Some (os.Regular "") ->
      config.LoadSettings w = (w, (config.zeroSettings, Some SyntaxError))).
Proof.
  split; intros E; unfold config.LoadSettings.
  - rewrite (ReadFile_missing _ _ E). cbn [os.IsNotExist].
    by rewrite (WriteFile_missing _ _ _ E).
  - by rewrite (ReadFile_regular _ _ _ E).
Qed.

Lemma LoadSettings_missing_or_empty_witness :
  snd (config.LoadSettings world.fresh) = (config.mkSettings "Athens" false, None)
  /\ snd (config.LoadSettings world.emptySettingsFile)
     = (config.zeroSettings, Some SyntaxError).
Proof.
  split.
  - rewrite (proj1 (LoadSettings_missing_or_empty world.fresh)); reflexivity.
  - rewrite (proj2 (LoadSettings_missing_or_empty world.emptySettingsFile));
      reflexivity.
Defined.

(** C8 as stated fails: with a settings file of zero bytes [LoadSettings]
    returns an error, and the settings it returns are not the defaults. *)
Lemma LoadSettings_empty_file_counterexample :
  snd (config.LoadSettings world.emptySettingsFile)
  = (config.mkSettings "" false, Some SyntaxError)
  /\ snd (config.LoadSettings world.emptySettingsFile)
     <> (config.mkSettings "Athens" false, None).
Proof. split; [reflexivity | discriminate]. Qed.

(** ** The task file (package todo) *)

(** What [saveTasks] writes for the default tasks reads back as the same
    eight tasks. *)
Lemma defaultTasks_round_trip :
  json.Unmarshal todo.decode_tasks
    (json.encode (json.Array (List.map todo.to_json todo.defaultTasks))) []
  = (todo.defaultTasks, None).
Proof. vm_compute. reflexivity. Qed.

Lemma saveTasks_missing (w : World) (path : string) (items : list todo.task) :
  files w !! path = None ->
  todo.saveTasks w path items
  = set_files w (<[path := os.Regular
                             (json.encode (json.Array (List.map todo.to_json items)))]>
                   (files w)).
Proof. intros E. unfold todo.saveTasks. by rewrite (WriteFile_missing _ _ _ E). Qed.

(** C9: loading tasks from a file that does not exist creates the file and
    returns the eight default welcome tasks, all with Done false and an
    empty Description, and the file holds the same eight tasks (loading
    again returns them); on any other read error, and on content that is
    not parseable JSON, the list returned is empty. The result is a task
    list in every case: no error reaches the caller. *)
Theorem loadTasks_spec (w : World) (path : string) :
  (files w !! path = None ->
   todo.loadTasks w path
   = (set_files w
        (<[path := os.Regular
                     (json.encode (json.Array (List.map todo.to_json todo.defaultTasks)))]>
           (files w)),
      todo.defaultTasks)
   /\ length todo.defaultTasks = 8%nat
   /\ Forall (fun t => todo.Done t = false /\ todo.Description t = "") todo.defaultTasks
   /\ todo.loadTasks (fst (todo.loadTasks w path)) path
      = (fst (todo.loadTasks w path), todo.defaultTasks))
  /\ (files w !! path = Some os.Unreadable -> todo.loadTasks w path = (w, []))
  /\ (forall data : string,
        files w !! path = Some (os.Regular data) ->
        json.parse data = None ->
        todo.loadTasks w path = (w, [])).
Proof.
  split; [| split].
  - intros E.
    assert (L : todo.loadTasks w path
                = (set_files w
                     (<[path := os.Regular
                                  (json.encode
                                     (json.Array (List.map todo.to_json todo.defaultTasks)))]>
                        (files w)),
                   todo.defaultTasks)).
    { unfold todo.loadTasks. rewrite (ReadFile_missing _ _ E). cbn [os.IsNotExist].
      by rewrite (saveTasks_missing _ _ _ E). }
    rewrite L. split; [reflexivity |]. split; [reflexivity |]. split.
    + repeat constructor.
    + cbn [fst]. unfold todo.loadTasks at 1. cbn [files set_files].
      rewrite (ReadFile_regular _ _ _ (lookup_insert_eq _ _ _)).
      by rewrite defaultTasks_round_trip.
  - intros E. unfold todo.loadTasks. by rewrite (ReadFile_unreadable _ _ E).
  - intros data E P. unfold todo.loadTasks. rewrite (ReadFile_regular _ _ _ E).
    by rewrite (Unmarshal_invalid _ _ _ P).
Qed.

Lemma loadTasks_spec_witness :
  snd (todo.loadTasks world.fresh (config.GetTodoPath world.fresh)) = todo.defaultTasks
  /\ snd (todo.loadTasks
            (set_files world.fresh {[ "tasks.json" := os.Unreadable ]}) "tasks.json") = []
  /\ snd (todo.loadTasks
            (set_files world.fresh {[ "tasks.json" := os.Regular "[{" ]})
            "tasks.json") = [].
Proof.
  split; [| split].
  - pose proof (proj1 (loadTasks_spec world.fresh (config.GetTodoPath world.fresh))) as P.
    destruct P as [P _]; [reflexivity |]. rewrite P. reflexivity.
  - pose proof (proj1 (proj2 (loadTasks_spec
                  (set_files world.fresh {[ "tasks.json" := os.Unreadable ]})
                  "tasks.json"))) as P.
    rewrite P; reflexivity.
  - pose proof (proj2 (proj2 (loadTasks_spec
                  (set_files world.fresh {[ "tasks.json" := os.Regular "[{" ]})
                  "tasks.json"))) as P.
    rewrite (P "[{"); reflexivity.
Defined.

(** ** Confirming a text entry (package todo) *)

Section todo_confirm.
Context `{Components}.

Lemma Update_entry_confirm (w : World) (m : todo.Model) (k : string) :
  todo.State m <> todo.ListStateDefault ->
  todo.confirms m k ->
  todo.Update w m (tea.KeyMsg k) true
  = (fst (todo.confirm w m),
     todo.set_TextInput (snd (todo.confirm w m))
       (fst (textinput_Update (todo.TextInput (snd (todo.confirm w m))) (tea.KeyMsg k))),
     tea.Batch
       [snd (textinput_Update (todo.TextInput (snd (todo.confirm w m))) (tea.KeyMsg k))]).
Proof.
  intros S C. unfold todo.confirms in C. unfold todo.Update.
  assert (E : (match todo.State m with
               | todo.ListStateDefault => todo.updateDefault w m (tea.KeyMsg k)
               | _ => todo.updateEntry w m (tea.KeyMsg k)
               end) = todo.updateEntry w m (tea.KeyMsg k)).
  { destruct (todo.State m); congruence. }
  rewrite E. unfold todo.updateEntry. rewrite C.
  destruct (todo.confirm w m) as [w1 m1]. cbn [fst snd].
  by destruct (textinput_Update (todo.TextInput m1) (tea.KeyMsg k)).
Qed.

(** Confirming an empty entry while adding: no task is appended and the
    panel is back in its default state. *)
Lemma Adding_empty_ignored (w : World) (m : todo.Model) (k : string) :
  todo.State m = todo.ListStateAdding ->
  textinput.Value (todo.TextInput m) = "" ->
  todo.confirms m k ->
  bubbles_list.Items (todo.List (snd (fst (todo.Update w m (tea.KeyMsg k) true))))
  = bubbles_list.Items (todo.List m)
  /\ todo.State (snd (fst (todo.Update w m (tea.KeyMsg k) true)))
     = todo.ListStateDefault.
Proof.
  intros S V C. rewrite Update_entry_confirm; [| congruence | done].
  unfold todo.confirm. rewrite S, V.
  destruct (decide (todo.ListStateAdding = todo.ListStateAdding)); [| congruence].
  done.
Qed.

(** C4, the editing half, as the code has it: confirming an empty entry
    while editing writes the empty title over the title of the selected
    task; the panel is back in its default state. *)
Theorem Editing_empty_overwrites_title
  (w : World) (m : todo.Model) (k : string) (t : todo.task) :
  todo.State m = todo.ListStateEditing ->
  textinput.Value (todo.TextInput m) = "" ->
  todo.confirms m k ->
  bubbles_list.SelectedItem (todo.List m) = Some t ->
  let m' := snd (fst (todo.Update w m (tea.KeyMsg k) true)) in
  bubbles_list.Items (todo.List m')
  = <[bubbles_list.Index (todo.List m) :=
        todo.mkTask "" (todo.Description t) (todo.Done t)]>
      (bubbles_list.Items (todo.List m))
  /\ bubbles_list.Items (todo.List m') !! bubbles_list.Index (todo.List m)
     = Some (todo.mkTask "" (todo.Description t) (todo.Done t))
  /\ (todo.Title t <> "" ->
      bubbles_list.Items (todo.List m') <> bubbles_list.Items (todo.List m))
  /\ todo.State m' = todo.ListStateDefault.
Proof.
  intros S V C Sel m'. subst m'.
  rewrite Update_entry_confirm; [| congruence | done].
  unfold todo.confirm. rewrite S, V, Sel.
  destruct (decide (todo.ListStateEditing = todo.ListStateAdding)); [congruence |].
  cbn [todo.List todo.State todo.set_List todo.set_TextInput todo.set_State snd fst
       bubbles_list.Items bubbles_list.SetItem bubbles_list.set_items
       bubbles_list.items].
  unfold bubbles_list.SelectedItem, bubbles_list.Index in Sel.
  unfold bubbles_list.Index.
  pose proof (lookup_lt_Some _ _ _ Sel) as Lt.
  assert (L : <[bubbles_list.cursor (todo.List m) :=
                  todo.mkTask "" (todo.Description t) (todo.Done t)]>
                (bubbles_list.items (todo.List m))
              !! bubbles_list.cursor (todo.List m)
              = Some (todo.mkTask "" (todo.Description t) (todo.Done t))).
  { by apply list_lookup_insert_eq. }
  repeat split; [exact L |].
  intros NE EQ. unfold bubbles_list.Items in EQ. rewrite EQ in L.
  rewrite Sel in L. destruct t as [ti de dn]. cbn in *. congruence.
Qed.

End todo_confirm.

Lemma Editing_empty_overwrites_title_witness :
  bubbles_list.Items
    (todo.List (snd (fst (@todo.Update simple.components world.fresh
                            sample.editingCleared (tea.KeyMsg "enter") true))))
  = [todo.mkTask "" "" false].
Proof.
  pose proof (@Editing_empty_overwrites_title simple.components world.fresh
                sample.editingCleared "enter" sample.buyMilk
                eq_refl eq_refl eq_refl eq_refl) as P.
  cbv zeta in P. destruct P as [P _]. rewrite P. reflexivity.
Defined.

Example Adding_empty_ignored_example :
  bubbles_list.Items
    (todo.List (snd (fst (@todo.Update simple.components world.fresh
                            sample.addingNothing (tea.KeyMsg "enter") true))))
  = [sample.buyMilk].
Proof. reflexivity. Qed.

(** ** The events of the selected day (package calendar) *)

Section calendar_filter.
Context `{Components}.

Lemma filterStep_startsOn (selected : time.Time) (daily : list gcal.Event)
  (event : gcal.Event) :
  calendar.carriesStart (Some event) = true ->
  calendar.filterStep selected daily (Some event)
  = Returned (daily ++ (if calendar.startsOn selected event then [event] else [])).
Proof.
  unfold calendar.filterStep, calendar.startsOn, calendar.eventDate,
    calendar.sameDate, calendar.carriesStart.
  destruct (gcal.Start event) as [start |]; [intros _ | discriminate].
  destruct (negb _); (destruct (time_Parse _ _) as [d |]; [| by rewrite app_nil_r]).
  all: destruct (time.Day d =? time.Day selected),
         (time.Month d =? time.Month selected),
         (time.Year d =? time.Year selected); cbn; by rewrite ?app_nil_r.
Qed.

(** The loop over events that all carry a start appends to what it has
    collected the events that start on the day, in their order. *)
Lemma filter_loop (selected : time.Time) (monthly : list (option gcal.Event))
  (daily : list gcal.Event) :
  forallb calendar.carriesStart monthly = true ->
  calendar.filterLoop selected monthly daily
  = Returned (daily ++ calendar.dailyEvents selected monthly).
Proof.
  revert daily. induction monthly as [| event monthly IH]; intros daily C.
  - cbn. by rewrite app_nil_r.
  - cbn [forallb] in C. apply andb_prop in C as [C1 C2].
    destruct event as [event |]; [| discriminate].
    cbn [calendar.filterLoop]. rewrite (filterStep_startsOn _ _ _ C1), (IH _ C2).
    unfold calendar.dailyEvents, calendar.pointees. cbn [omap list_omap id List.filter].
    destruct (calendar.startsOn selected event); cbn.
    + by rewrite <- app_assoc.
    + by rewrite app_nil_r.
Qed.

(** The loop panics as soon as it meets a nil pointer or an event without
    a start, whatever the other events are. *)
Lemma filter_loop_panics (selected : time.Time) (monthly : list (option gcal.Event))
  (daily : list gcal.Event) :
  forallb calendar.carriesStart monthly = false ->
  calendar.filterLoop selected monthly daily = Panics nilPointerDereference.
Proof.
  revert daily. induction monthly as [| event monthly IH]; intros daily C;
    [discriminate |].
  cbn [forallb] in C. cbn [calendar.filterLoop].
  destruct (calendar.carriesStart event) eqn:S.
  - destruct event as [event |]; [| discriminate].
    rewrite (filterStep_startsOn _ _ _ S). by apply IH.
  - unfold calendar.filterStep. unfold calendar.carriesStart in S.
    destruct event as [event |]; [| reflexivity].
    by destruct (gcal.Start event).
Qed.

(** C3, as the code has it: the loop of [filterEventsForSelectedDate]
    reads [event.Start.DateTime] of every event of the month. When the
    cached list of the selected month holds a nil pointer or an event
    without a start, the function panics: the event is not passed over,
    and the daily events are not set. *)
Theorem filterEventsForSelectedDate_panics_without_start
  (m : calendar.Model) (monthly : list (option gcal.Event))
  (event : option gcal.Event) :
  calendar.cachedEvents m !! time.Format_2006_01 (calendar.selectedDate m)
  = Some monthly ->
  In event monthly ->
  calendar.carriesStart event = false ->
  calendar.filterEventsForSelectedDate m = Panics nilPointerDereference.
Proof.
  intros E I S. unfold calendar.filterEventsForSelectedDate. rewrite E.
  rewrite filter_loop_panics; [reflexivity |].
  apply not_true_is_false. intros A.
  rewrite forallb_forall in A. specialize (A event I). congruence.
Qed.

(** The part of C3 that holds: when every event of the cached month
    carries a start, [filterEventsForSelectedDate] returns, and sets the
    daily events to exactly the events of the month whose start (the
    RFC3339 timestamp when there is one, else the all-day date) parses and
    has the year, month and day of the selected date, in their original
    order; events whose start does not parse are left out. *)
Lemma filterEventsForSelectedDate_spec
  (m : calendar.Model) (monthly : list (option gcal.Event)) :
  calendar.cachedEvents m !! time.Format_2006_01 (calendar.selectedDate m)
  = Some monthly ->
  forallb calendar.carriesStart monthly = true ->
  let daily := calendar.dailyEvents (calendar.selectedDate m) monthly in
  calendar.filterEventsForSelectedDate m = Returned (calendar.set_events m daily)
  /\ (forall event : gcal.Event,
        In event daily
        <-> In (Some event) monthly
            /\ calendar.startsOn (calendar.selectedDate m) event = true)
  /\ sublist (List.map Some daily) monthly.
Proof.
  intros E C daily. subst daily. split; [| split].
  - unfold calendar.filterEventsForSelectedDate. rewrite E.
    by rewrite (filter_loop _ _ _ C).
  - intros event. unfold calendar.dailyEvents, calendar.pointees.
    rewrite filter_In, <- list_elem_of_In, list_elem_of_omap.
    split.
    + intros [(x & I & X) S]. cbn in X. subst x.
      split; [by apply list_elem_of_In | exact S].
    + intros [I S]. split; [| exact S]. exists (Some event).
      split; [by apply list_elem_of_In | reflexivity].
  - unfold calendar.dailyEvents, calendar.pointees. clear.
    induction monthly as [| [e |] l IH]; cbn; [constructor | | by constructor].
    destruct (calendar.startsOn _ e); cbn; by constructor.
Qed.

(** When it returns, nothing else of the panel has changed. *)
Lemma filterEventsForSelectedDate_frame (m m' : calendar.Model) :
  calendar.filterEventsForSelectedDate m = Returned m' ->
  m' = calendar.set_events m (calendar.events m').
Proof.
  unfold calendar.filterEventsForSelectedDate.
  destruct (calendar.cachedEvents m !! _).
  - destruct (calendar.filterLoop _ _ _); [| discriminate]. by intros [= <-].
  - by intros [= <-].
Qed.

(** With a cache whose events all carry a start it returns. *)
Lemma filterEventsForSelectedDate_returns (m : calendar.Model) :
  calendar.startsKnown m ->
  exists daily : list gcal.Event,
    calendar.filterEventsForSelectedDate m = Returned (calendar.set_events m daily).
Proof.
  intros K. unfold calendar.filterEventsForSelectedDate.
  destruct (calendar.cachedEvents m !! _) as [monthly |] eqn:E.
  - rewrite (filter_loop _ _ _ (K _ _ E)). by eexists.
  - by eexists.
Qed.

End calendar_filter.

Lemma filterEventsForSelectedDate_panics_without_start_witness :
  @calendar.filterEventsForSelectedDate simple.components
    (calendar.set_selectedDate sample_calendar.corrupt sample_calendar.nov4)
  = Panics nilPointerDereference.
Proof.
  apply (@filterEventsForSelectedDate_panics_without_start simple.components
           (calendar.set_selectedDate sample_calendar.corrupt sample_calendar.nov4)
           [Some sample_calendar.standup; Some sample_calendar.dentist]
           (Some sample_calendar.dentist)).
  - reflexivity.
  - right. left. reflexivity.
  - reflexivity.
Defined.

(** Moving to 4 November on the panel whose cache has the entry without
    a start. *)
Example navigation_to_corrupt_month_panics :
  @calendar.Update simple.components world.fresh sample_calendar.corrupt
    (tea.KeyMsg "right") true
  = (panic world.fresh nilPointerDereference, sample_calendar.corrupt, []).
Proof. reflexivity. Qed.

Example filterEventsForSelectedDate_spec_example :
  @calendar.filterEventsForSelectedDate simple.components
    (calendar.set_selectedDate sample_calendar.ready sample_calendar.nov4)
  = Returned
      (calendar.set_events
         (calendar.set_selectedDate sample_calendar.ready sample_calendar.nov4)
         [sample_calendar.standup; sample_calendar.holiday]).
Proof.
  pose proof (@filterEventsForSelectedDate_spec simple.components
                (calendar.set_selectedDate sample_calendar.ready sample_calendar.nov4)
                sample_calendar.november eq_refl eq_refl) as P.
  cbv zeta in P. destruct P as [P _]. rewrite P. reflexivity.
Qed.

(** ** Navigation, the month cache and the cool-down (package calendar) *)

(** Projections of a panel that has been written to. *)
Ltac calendar_simpl :=
  cbn [fst snd negb
       calendar.state calendar.DatePicker calendar.events calendar.selectedDate
       calendar.cachedEvents calendar.fetchingMonths calendar.lastFetchTime calendar.err
       calendar.loading calendar.spinner_ calendar.keys calendar.clock_
       calendar.weather_ calendar.weatherErr calendar.weatherLoading calendar.location
       calendar.width calendar.height calendar.set_state calendar.set_DatePicker
       calendar.set_events calendar.set_selectedDate calendar.set_cachedEvents
       calendar.set_fetchingMonths calendar.set_lastFetchTime calendar.set_err
       calendar.set_loading calendar.set_spinner calendar.set_clock calendar.set_weather
       calendar.set_weatherErr calendar.set_weatherLoading calendar.set_width
       calendar.set_height].

Ltac calendar_simpl_in H :=
  cbn [fst snd negb
       calendar.state calendar.DatePicker calendar.events calendar.selectedDate
       calendar.cachedEvents calendar.fetchingMonths calendar.lastFetchTime calendar.err
       calendar.loading calendar.spinner_ calendar.keys calendar.clock_
       calendar.weather_ calendar.weatherErr calendar.weatherLoading calendar.location
       calendar.width calendar.height calendar.set_state calendar.set_DatePicker
       calendar.set_events calendar.set_selectedDate calendar.set_cachedEvents
       calendar.set_fetchingMonths calendar.set_lastFetchTime calendar.set_err
       calendar.set_loading calendar.set_spinner calendar.set_clock calendar.set_weather
       calendar.set_weatherErr calendar.set_weatherLoading calendar.set_width
       calendar.set_height] in H.

Section calendar_navigation.
Context `{Components}.

Lemma Update_passedOn (w : World) (m : calendar.Model) (msg : tea.Msg)
  (focused : bool) :
  calendar.passedOn msg = true ->
  calendar.Update w m msg focused = calendar.updateRest w m msg focused.
Proof. by destruct msg. Qed.

(** A navigation step of the focused, ready panel: the components see the
    message, then [navigate] decides about the month. *)
Lemma Update_navigates (w : World) (m : calendar.Model) (msg : tea.Msg)
  (date : time.Time) :
  calendar.state m = calendar.StateReady ->
  calendar.navigatesTo m msg date ->
  calendar.Update w m msg true
  = match calendar.navigate w (calendar.withComponents w m msg)
            (snd (datepicker_Update (calendar.focusedPicker m) msg)) with
    | Returned (m', cmd') =>
        (w, m',
         if calendar.loading m || calendar.weatherLoading m
         then snd (clock.Update w (calendar.clock_ m) msg)
              ++ snd (spinner_Update (calendar.spinner_ m) msg)
              ++ cmd'
              ++ snd (spinner_Update (calendar.spinner_ m) msg)
         else snd (clock.Update w (calendar.clock_ m) msg)
              ++ cmd'
              ++ snd (clock.Update w (calendar.clock_ m) msg))
    | Panics p => (panic w p, m, [])
    end.
Proof.
  intros S (P & D & N). rewrite (Update_passedOn _ _ _ _ P).
  unfold calendar.updateRest, calendar.withComponents, calendar.focusedPicker in *.
  destruct (clock.Update w (calendar.clock_ m) msg) as [c clockCmd].
  calendar_simpl.
  destruct (calendar.loading m || calendar.weatherLoading m).
  - destruct (spinner_Update (calendar.spinner_ m) msg) as [sp spinnerCmd].
    calendar_simpl. rewrite S.
    destruct (datepicker_Update _ msg) as [dp datepickerCmd].
    calendar_simpl. calendar_simpl_in D. rewrite D, N. cbn [negb].
    destruct (calendar.navigate _ _ _) as [[m' cmd'] | p]; [| reflexivity].
    unfold tea.Batch. cbn [fst snd concat app]. by rewrite ?app_nil_r.
  - calendar_simpl. rewrite S.
    destruct (datepicker_Update _ msg) as [dp datepickerCmd].
    calendar_simpl. calendar_simpl_in D. rewrite D, N. cbn [negb].
    destruct (calendar.navigate _ _ _) as [[m' cmd'] | p]; [| reflexivity].
    unfold tea.Batch. cbn [fst snd concat app]. by rewrite ?app_nil_r.
Qed.

Lemma withComponents_DatePicker (w : World) (m : calendar.Model) (msg : tea.Msg) :
  calendar.DatePicker (calendar.withComponents w m msg)
  = fst (datepicker_Update (calendar.focusedPicker m) msg).
Proof.
  unfold calendar.withComponents, calendar.focusedPicker. calendar_simpl.
  by destruct (calendar.loading m || calendar.weatherLoading m).
Qed.

(** The components leave the date selection, the cache, the months being
    fetched and the time of the last fetch alone. *)
Lemma withComponents_frame (w : World) (m : calendar.Model) (msg : tea.Msg) :
  calendar.state (calendar.withComponents w m msg) = calendar.state m
  /\ calendar.selectedDate (calendar.withComponents w m msg) = calendar.selectedDate m
  /\ calendar.cachedEvents (calendar.withComponents w m msg) = calendar.cachedEvents m
  /\ calendar.fetchingMonths (calendar.withComponents w m msg)
     = calendar.fetchingMonths m
  /\ calendar.lastFetchTime (calendar.withComponents w m msg)
     = calendar.lastFetchTime m.
Proof.
  unfold calendar.withComponents. calendar_simpl.
  by destruct (calendar.loading m || calendar.weatherLoading m).
Qed.

(** [navigate] on a month of the cache whose events carry a start. *)
Lemma navigate_cached (w : World) (m : calendar.Model) (cmd : tea.Cmd)
  (monthly : list (option gcal.Event)) :
  calendar.cachedEvents m
    !! time.Format_2006_01 (datepicker.Time (calendar.DatePicker m)) = Some monthly ->
  forallb calendar.carriesStart monthly = true ->
  calendar.navigate w m cmd
  = Returned
      (calendar.set_loading
         (calendar.set_events
            (calendar.set_selectedDate m (datepicker.Time (calendar.DatePicker m)))
            (calendar.dailyEvents (datepicker.Time (calendar.DatePicker m)) monthly))
         false,
       cmd).
Proof.
  intros E C. unfold calendar.navigate. calendar_simpl. rewrite E.
  unfold calendar.filterEventsForSelectedDate. calendar_simpl. rewrite E.
  by rewrite (filter_loop _ _ _ C).
Qed.

(** [navigate] on a month of the cache that holds a nil pointer or an
    event without a start. *)
Lemma navigate_panics (w : World) (m : calendar.Model) (cmd : tea.Cmd)
  (monthly : list (option gcal.Event)) :
  calendar.cachedEvents m
    !! time.Format_2006_01 (datepicker.Time (calendar.DatePicker m)) = Some monthly ->
  forallb calendar.carriesStart monthly = false ->
  calendar.navigate w m cmd = Panics nilPointerDereference.
Proof.
  intros E C. unfold calendar.navigate. calendar_simpl. rewrite E.
  unfold calendar.filterEventsForSelectedDate. calendar_simpl. rewrite E.
  by rewrite (filter_loop_panics _ _ _ C).
Qed.

(** [navigate] returns when every event of the cache carries a start. *)
Lemma navigate_returns (w : World) (m : calendar.Model) (cmd : tea.Cmd) :
  calendar.startsKnown m ->
  exists (m' : calendar.Model) (cmd' : tea.Cmd),
    calendar.navigate w m cmd = Returned (m', cmd').
Proof.
  intros K. unfold calendar.navigate. calendar_simpl.
  destruct (calendar.cachedEvents m !! _) as [monthly |] eqn:E.
  - unfold calendar.filterEventsForSelectedDate. calendar_simpl. rewrite E.
    rewrite (filter_loop _ _ _ (K _ _ E)). by do 2 eexists.
  - destruct (negb _ && _); by do 2 eexists.
Qed.

(** [navigate] on a month that is not in the cache while a fetch may not
    start: the month is being fetched, or the cool-down has not passed. *)
Lemma navigate_deferred (w : World) (m : calendar.Model) (cmd : tea.Cmd) :
  calendar.cachedEvents m
    !! time.Format_2006_01 (datepicker.Time (calendar.DatePicker m)) = None ->
  calendar.fetching m (time.Format_2006_01 (datepicker.Time (calendar.DatePicker m)))
  = true
  \/ time.Since (now w) (calendar.lastFetchTime m) <= calendar.fetchCoolDown ->
  calendar.navigate w m cmd
  = Returned (calendar.set_selectedDate m (datepicker.Time (calendar.DatePicker m)), cmd).
Proof.
  intros E D. unfold calendar.navigate. calendar_simpl. rewrite E.
  unfold calendar.fetching in *. calendar_simpl.
  destruct D as [D | D].
  - by rewrite D.
  - apply Z.ltb_ge in D. rewrite D. by rewrite andb_false_r.
Qed.

(** [navigate] on a month that is neither in the cache nor being fetched,
    once the cool-down has passed. *)
Lemma navigate_fetch (w : World) (m : calendar.Model) (cmd : tea.Cmd) :
  calendar.cachedEvents m
    !! time.Format_2006_01 (datepicker.Time (calendar.DatePicker m)) = None ->
  calendar.fetching m (time.Format_2006_01 (datepicker.Time (calendar.DatePicker m)))
  = false ->
  calendar.fetchCoolDown < time.Since (now w) (calendar.lastFetchTime m) ->
  calendar.navigate w m cmd
  = Returned
      (calendar.set_lastFetchTime
         (calendar.set_fetchingMonths
            (calendar.set_loading
               (calendar.set_selectedDate m (datepicker.Time (calendar.DatePicker m)))
               true)
            (<[time.Format_2006_01 (datepicker.Time (calendar.DatePicker m)) := true]>
               (calendar.fetchingMonths m)))
         (now w),
       cmd ++ [tea.FetchEventsForMonth
                 (time.Format_2006_01 (datepicker.Time (calendar.DatePicker m)))
                 (datepicker.Time (calendar.DatePicker m))]).
Proof.
  intros E F C. unfold calendar.navigate. calendar_simpl. rewrite E.
  unfold calendar.fetching in *. calendar_simpl. rewrite F.
  apply Z.ltb_lt in C. rewrite C. cbn [negb andb].
  unfold tea.Batch, calendar.FetchEventsForMonth. calendar_simpl.
  cbn [concat app]. by rewrite ?app_nil_r.
Qed.

(** A navigation step to a month of the cache that holds a nil pointer
    or an event without a start ends the program: the panic is recorded,
    and nothing is returned to the runtime. *)
Lemma Update_panics_on_navigation (w : World) (m : calendar.Model) (msg : tea.Msg)
  (date : time.Time) (monthly : list (option gcal.Event)) :
  calendar.state m = calendar.StateReady ->
  calendar.navigatesTo m msg date ->
  calendar.cachedEvents m !! time.Format_2006_01 date = Some monthly ->
  forallb calendar.carriesStart monthly = false ->
  calendar.Update w m msg true = (panic w nilPointerDereference, m, []).
Proof.
  intros S N E C. rewrite (Update_navigates w m msg date S N).
  destruct N as (_ & D & _).
  destruct (withComponents_frame w m msg) as (_ & _ & FC & _).
  pose proof (withComponents_DatePicker w m msg) as DP.
  rewrite (navigate_panics w (calendar.withComponents w m msg) _ monthly);
    [reflexivity | by rewrite FC, DP, D | exact C].
Qed.

(** C2: navigating to a date whose month key is in the cache, whatever
    list it maps to (the empty list too), starts no fetch and leaves the
    cache as it is; nothing is written or launched, the months being
    fetched and the time of the last fetch are unchanged, and the daily
    events are the cached events of the month filtered to the new date.
    The cached events of the month carry a start, as the events the
    calendar service delivers do. *)
Theorem cache_hit_no_fetch (w : World) (m : calendar.Model) (msg : tea.Msg)
  (date : time.Time) (monthly : list (option gcal.Event)) :
  calendar.state m = calendar.StateReady ->
  calendar.navigatesTo m msg date ->
  calendar.cachedEvents m !! time.Format_2006_01 date = Some monthly ->
  forallb calendar.carriesStart monthly = true ->
  let r := calendar.Update w m msg true in
  let m' := snd (fst r) in
  fst (fst r) = w
  /\ snd r = calendar.stepCmds w m msg []
  /\ m' = calendar.set_loading
            (calendar.set_events
               (calendar.set_selectedDate (calendar.withComponents w m msg) date)
               (calendar.dailyEvents date monthly))
            false
  /\ calendar.cachedEvents m' = calendar.cachedEvents m
  /\ calendar.fetchingMonths m' = calendar.fetchingMonths m
  /\ calendar.lastFetchTime m' = calendar.lastFetchTime m
  /\ calendar.selectedDate m' = date
  /\ calendar.events m' = calendar.dailyEvents date monthly.
Proof.
  intros S N E C r m'. subst r m'.
  rewrite (Update_navigates w m msg date S N).
  destruct N as (_ & D & _).
  destruct (withComponents_frame w m msg) as (_ & _ & FC & FF & FL).
  pose proof (withComponents_DatePicker w m msg) as DP.
  rewrite (navigate_cached w (calendar.withComponents w m msg) _ monthly);
    [| by rewrite FC, DP, D | exact C].
  rewrite DP, D. calendar_simpl. rewrite FC, FF, FL.
  repeat split. unfold calendar.stepCmds. by rewrite app_nil_r.
Qed.

(** C1: a navigation to a month that is neither cached nor being fetched,
    less than the cool-down of five seconds after the last fetch was
    started, starts no fetch; and after any further messages, a
    navigation to that month more than five seconds after the last start,
    the month still neither cached nor being fetched, starts the fetch,
    marks the month as being fetched and records the time. *)
Theorem cooldown_policy (w : World) (m : calendar.Model) (msg : tea.Msg)
  (date : time.Time) (steps : list (World * tea.Msg * bool))
  (w2 : World) (msg2 : tea.Msg) (date2 : time.Time) :
  calendar.state m = calendar.StateReady ->
  calendar.navigatesTo m msg date ->
  calendar.cachedEvents m !! time.Format_2006_01 date = None ->
  calendar.fetching m (time.Format_2006_01 date) = false ->
  time.Since (now w) (calendar.lastFetchTime m) < calendar.fetchCoolDown ->
  let r1 := calendar.Update w m msg true in
  let m1 := snd (fst r1) in
  (fst (fst r1) = w
   /\ snd r1 = calendar.stepCmds w m msg []
   /\ m1 = calendar.set_selectedDate (calendar.withComponents w m msg) date
   /\ calendar.fetchingMonths m1 = calendar.fetchingMonths m
   /\ calendar.lastFetchTime m1 = calendar.lastFetchTime m
   /\ calendar.cachedEvents m1 = calendar.cachedEvents m)
  /\ (let m2 := calendar.run m1 steps in
      calendar.state m2 = calendar.StateReady ->
      calendar.navigatesTo m2 msg2 date2 ->
      time.Format_2006_01 date2 = time.Format_2006_01 date ->
      calendar.cachedEvents m2 !! time.Format_2006_01 date = None ->
      calendar.fetching m2 (time.Format_2006_01 date) = false ->
      calendar.fetchCoolDown < time.Since (now w2) (calendar.lastFetchTime m2) ->
      let r2 := calendar.Update w2 m2 msg2 true in
      let m3 := snd (fst r2) in
      snd r2 = calendar.stepCmds w2 m2 msg2
                 [tea.FetchEventsForMonth (time.Format_2006_01 date) date2]
      /\ calendar.fetching m3 (time.Format_2006_01 date) = true
      /\ calendar.lastFetchTime m3 = now w2
      /\ calendar.loading m3 = true
      /\ calendar.selectedDate m3 = date2).
Proof.
  intros S N E F C r1 m1. subst r1 m1. split.
  - rewrite (Update_navigates w m msg date S N).
    destruct N as (_ & D & _).
    destruct (withComponents_frame w m msg) as (_ & _ & FC & FF & FL).
    pose proof (withComponents_DatePicker w m msg) as DP.
    rewrite (navigate_deferred w (calendar.withComponents w m msg));
      [| by rewrite FC, DP, D | right; rewrite FL; lia].
    rewrite DP, D. calendar_simpl. rewrite FC, FF, FL.
    repeat split. unfold calendar.stepCmds. by rewrite app_nil_r.
  - intros m2 S2 N2 K E2 F2 C2 r2 m3. subst r2 m3.
    rewrite (Update_navigates w2 m2 msg2 date2 S2 N2).
    destruct N2 as (_ & D2 & _).
    destruct (withComponents_frame w2 m2 msg2) as (_ & _ & FC & FF & FL).
    pose proof (withComponents_DatePicker w2 m2 msg2) as DP.
    rewrite (navigate_fetch w2 (calendar.withComponents w2 m2 msg2)).
    + rewrite DP, D2, K. calendar_simpl. unfold calendar.fetching. calendar_simpl.
      rewrite lookup_insert_eq. repeat split.
    + by rewrite FC, DP, D2, K.
    + unfold calendar.fetching in *. by rewrite FF, DP, D2, K.
    + by rewrite FL.
Qed.

(** The time of the last fetch changes only when [Update] starts a fetch,
    and is then the current time: it is the time at which the last fetch
    of a navigation was started. *)
Lemma lastFetchTime_records_fetch (w : World) (m : calendar.Model) (msg : tea.Msg)
  (focused : bool) :
  let r := calendar.Update w m msg focused in
  calendar.lastFetchTime (snd (fst r)) = calendar.lastFetchTime m
  \/ (calendar.lastFetchTime (snd (fst r)) = now w
      /\ exists date : time.Time,
           In (tea.FetchEventsForMonth (time.Format_2006_01 date) date) (snd r)
           /\ calendar.fetching (snd (fst r)) (time.Format_2006_01 date) = true).
Proof.
  cbv zeta.
  assert (N : forall m0 cmd m' cmd',
             calendar.navigate w m0 cmd = Returned (m', cmd') ->
             calendar.lastFetchTime m' = calendar.lastFetchTime m0
             \/ (calendar.lastFetchTime m' = now w
                 /\ exists date : time.Time,
                      In (tea.FetchEventsForMonth (time.Format_2006_01 date) date) cmd'
                      /\ calendar.fetching m' (time.Format_2006_01 date) = true)).
  { intros m0 cmd m' cmd'. unfold calendar.navigate. calendar_simpl.
    destruct (calendar.cachedEvents m0 !! _).
    - destruct (calendar.filterEventsForSelectedDate _) as [m1 |] eqn:F;
        [| discriminate].
      intros [= <- <-]. left. rewrite (filterEventsForSelectedDate_frame _ _ F).
      by calendar_simpl.
    - destruct (negb _ && _); intros [= <- <-]; [| by left]. right. calendar_simpl.
      split; [done |]. exists (datepicker.Time (calendar.DatePicker m0)). split.
      + unfold tea.Batch, calendar.FetchEventsForMonth. calendar_simpl.
        cbn [concat app]. rewrite ?app_nil_r. apply in_or_app. right. by left.
      + unfold calendar.fetching. calendar_simpl. by rewrite lookup_insert_eq. }
  destruct msg; cbn [calendar.Update]; calendar_simpl;
    try (left; reflexivity);
    try (left; by destruct (decide _)).
  all: try (destruct (calendar.filterEventsForSelectedDate _) as [m1 |] eqn:F;
            [left; rewrite (filterEventsForSelectedDate_frame _ _ F);
             by calendar_simpl
            | by left]).
  all: unfold calendar.updateRest;
    destruct (clock.Update _ _ _) as [c clockCmd]; calendar_simpl;
    destruct (calendar.loading m || calendar.weatherLoading m);
    [destruct (spinner_Update _ _) as [sp spinnerCmd] |]; calendar_simpl;
    (destruct focused; [| by left]);
    (destruct (calendar.state m); calendar_simpl; [by left |]);
    destruct (datepicker_Update _ _) as [dp datepickerCmd]; calendar_simpl;
    (destruct (negb _); [| by left]).
  all: match goal with
       | |- context [calendar.navigate _ ?m0 ?cmd] =>
           pose proof (N m0 cmd) as N0;
           destruct (calendar.navigate _ m0 cmd) as [[m' cmd'] | p]
       end; calendar_simpl; [| by left];
    (destruct (N0 m' cmd' eq_refl) as [N1 | (N1 & date & I & F)];
     [left; exact N1 | right]);
    (split; [exact N1 |]); exists date; (split; [| exact F]);
    unfold tea.Batch; cbn [concat app]; rewrite ?in_app_iff; tauto.
Qed.

(** A navigation step that is deferred, as a whole. *)
Lemma deferred_step (w : World) (m : calendar.Model) (msg : tea.Msg) (date : time.Time) :
  calendar.state m = calendar.StateReady ->
  calendar.navigatesTo m msg date ->
  calendar.cachedEvents m !! time.Format_2006_01 date = None ->
  time.Since (now w) (calendar.lastFetchTime m) <= calendar.fetchCoolDown ->
  calendar.Update w m msg true
  = (w, calendar.set_selectedDate (calendar.withComponents w m msg) date,
     calendar.stepCmds w m msg []).
Proof.
  intros S N E C. rewrite (Update_navigates w m msg date S N).
  destruct N as (_ & D & _).
  destruct (withComponents_frame w m msg) as (_ & _ & FC & FF & FL).
  pose proof (withComponents_DatePicker w m msg) as DP.
  rewrite (navigate_deferred w (calendar.withComponents w m msg));
    [| by rewrite FC, DP, D | right; by rewrite FL].
  rewrite DP, D. cbn [fst snd]. unfold calendar.stepCmds. by rewrite app_nil_r.
Qed.

(** A navigation step that starts a fetch, as a whole. *)
Lemma fetch_step (w : World) (m : calendar.Model) (msg : tea.Msg) (date : time.Time) :
  calendar.state m = calendar.StateReady ->
  calendar.navigatesTo m msg date ->
  calendar.cachedEvents m !! time.Format_2006_01 date = None ->
  calendar.fetching m (time.Format_2006_01 date) = false ->
  calendar.fetchCoolDown < time.Since (now w) (calendar.lastFetchTime m) ->
  calendar.Update w m msg true
  = (w,
     calendar.set_lastFetchTime
       (calendar.set_fetchingMonths
          (calendar.set_loading
             (calendar.set_selectedDate (calendar.withComponents w m msg) date) true)
          (<[time.Format_2006_01 date := true]> (calendar.fetchingMonths m)))
       (now w),
     calendar.stepCmds w m msg
       [tea.FetchEventsForMonth (time.Format_2006_01 date) date]).
Proof.
  intros S N E F C. rewrite (Update_navigates w m msg date S N).
  destruct N as (_ & D & _).
  destruct (withComponents_frame w m msg) as (_ & _ & FC & FF & FL).
  pose proof (withComponents_DatePicker w m msg) as DP.
  rewrite (navigate_fetch w (calendar.withComponents w m msg));
    [| by rewrite FC, DP, D | unfold calendar.fetching in *; by rewrite FF, DP, D
     | by rewrite FL].
  rewrite DP, D, FF. reflexivity.
Qed.

Lemma Since_recent (t1 t2 : time.Time) :
  0 <= time.unixNano t2 - time.unixNano t1 < calendar.fetchCoolDown ->
  time.Since t2 t1 <= calendar.fetchCoolDown.
Proof.
  unfold time.Since, time.Sub, calendar.fetchCoolDown, time.minDuration,
    time.maxDuration, time.Second.
  change (- 2 ^ 63) with (-9223372036854775808).
  change (2 ^ 63 - 1) with 9223372036854775807.
  intros T.
  destruct (_ <? -9223372036854775808) eqn:A; [apply Z.ltb_lt in A; lia |].
  destruct (9223372036854775807 <? _) eqn:B; [apply Z.ltb_lt in B; lia |]. lia.
Qed.

(** Within the cool-down of a fetch that a navigation has just started, a
    navigation to another month that is not cached starts no second one. *)
Lemma second_navigation_starts_no_fetch
  (w1 w2 : World) (m : calendar.Model) (msg1 msg2 : tea.Msg) (date1 date2 : time.Time) :
  calendar.state m = calendar.StateReady ->
  calendar.navigatesTo m msg1 date1 ->
  calendar.cachedEvents m !! time.Format_2006_01 date1 = None ->
  calendar.fetching m (time.Format_2006_01 date1) = false ->
  calendar.fetchCoolDown < time.Since (now w1) (calendar.lastFetchTime m) ->
  let r1 := calendar.Update w1 m msg1 true in
  let m1 := snd (fst r1) in
  calendar.navigatesTo m1 msg2 date2 ->
  calendar.cachedEvents m1 !! time.Format_2006_01 date2 = None ->
  0 <= time.unixNano (now w2) - time.unixNano (now w1) < calendar.fetchCoolDown ->
  let r2 := calendar.Update w2 m1 msg2 true in
  snd r1 = calendar.stepCmds w1 m msg1
             [tea.FetchEventsForMonth (time.Format_2006_01 date1) date1]
  /\ snd r2 = calendar.stepCmds w2 m1 msg2 []
  /\ calendar.lastFetchTime (snd (fst r2)) = now w1.
Proof.
  intros S N1 E1 F1 C1 r1 m1 N2 E2 T r2.
  assert (R1 : r1 = calendar.Update w1 m msg1 true) by reflexivity.
  rewrite (fetch_step w1 m msg1 date1 S N1 E1 F1 C1) in R1.
  assert (L1 : calendar.lastFetchTime m1 = now w1) by (subst m1; by rewrite R1).
  assert (S1 : calendar.state m1 = calendar.StateReady).
  { subst m1. rewrite R1. calendar_simpl.
    by rewrite (proj1 (withComponents_frame w1 m msg1)). }
  assert (C2 : time.Since (now w2) (calendar.lastFetchTime m1) <= calendar.fetchCoolDown).
  { rewrite L1. by apply Since_recent. }
  assert (R2 : r2 = calendar.Update w2 m1 msg2 true) by reflexivity.
  rewrite (deferred_step w2 m1 msg2 date2 S1 N2 E2 C2) in R2.
  rewrite R1, R2. cbn [fst snd]. repeat split.
  calendar_simpl. rewrite (proj2 (proj2 (proj2 (proj2 (withComponents_frame w2 m1 msg2))))).
  exact L1.
Qed.

End calendar_navigation.

Lemma cache_hit_no_fetch_witness :
  let r := @calendar.Update simple.components world.fresh sample_calendar.ready
             (tea.KeyMsg "right") true in
  snd r = []
  /\ calendar.cachedEvents (snd (fst r)) = {[ "2025-11" := sample_calendar.november ]}
  /\ calendar.events (snd (fst r)) = [sample_calendar.standup; sample_calendar.holiday].
Proof.
  pose proof (@cache_hit_no_fetch simple.components world.fresh sample_calendar.ready
                (tea.KeyMsg "right") sample_calendar.nov4 sample_calendar.november
                eq_refl (conj eq_refl (conj eq_refl eq_refl)) eq_refl eq_refl) as P.
  cbv zeta in P. destruct P as (_ & P1 & _ & P2 & _ & _ & _ & P3).
  cbv zeta. rewrite P1, P2, P3. repeat split.
Defined.

Lemma cooldown_policy_witness :
  let december := simple.nextMonth world.noon in
  let r1 := @calendar.Update simple.components world.fresh sample_calendar.ready
              (tea.KeyMsg "pgdown") true in
  let m2 := @calendar.run simple.components (snd (fst r1))
              [(world.fresh, tea.ClockTickMsg, true)] in
  let r2 := @calendar.Update simple.components sample_calendar.later m2
              (tea.KeyMsg "right") true in
  snd r1 = []
  /\ calendar.lastFetchTime (snd (fst r1)) = calendar.lastFetchTime sample_calendar.ready
  /\ snd r2 = [tea.FetchEventsForMonth "2025-12" (simple.tomorrow december)]
  /\ calendar.lastFetchTime (snd (fst r2)) = now sample_calendar.later.
Proof.
  pose proof (@cooldown_policy simple.components world.fresh sample_calendar.ready
                (tea.KeyMsg "pgdown") (simple.nextMonth world.noon)
                [(world.fresh, tea.ClockTickMsg, true)]
                sample_calendar.later (tea.KeyMsg "right")
                (simple.tomorrow (simple.nextMonth world.noon))
                eq_refl (conj eq_refl (conj eq_refl eq_refl)) eq_refl eq_refl eq_refl)
    as P.
  cbv zeta in P. destruct P as [(_ & P1 & _ & _ & P2 & _) P3].
  specialize (P3 eq_refl (conj eq_refl (conj eq_refl eq_refl)) eq_refl eq_refl eq_refl
                 eq_refl).
  destruct P3 as (P3 & _ & P4 & _).
  cbv zeta. rewrite P1, P2, P3, P4. repeat split.
Defined.

(** ** The dashboard (package main) *)

Ltac main_simpl :=
  cbn [fst snd negb main.state main.focus main.todo_ main.notes_ main.calendar_
       main.noteEditor main.noteViewer main.noteEditorMode_ main.noteContent
       main.editingNotePath main.keys main.width main.height main.showHelp
       main.markdownRenderer main.hasUnsavedChanges main.originalContent main.set_state
       main.set_focus main.set_todo main.set_notes main.set_calendar main.set_noteEditor
       main.set_noteViewer main.set_noteEditorMode main.set_noteContent
       main.set_editingNotePath main.set_keys main.set_showHelp
       main.set_hasUnsavedChanges main.set_originalContent].

Section dashboard.
Context `{Components}.

Lemma updateKeybindings_focus (m : main.model) :
  main.focus (main.updateKeybindings m) = main.focus m
  /\ main.todo_ (main.updateKeybindings m) = main.todo_ m
  /\ main.notes_ (main.updateKeybindings m) = main.notes_ m
  /\ main.calendar_ (main.updateKeybindings m) = main.calendar_ m
  /\ main.width (main.updateKeybindings m) = main.width m
  /\ main.height (main.updateKeybindings m) = main.height m.
Proof. unfold main.updateKeybindings. by destruct (decide _). Qed.

(** The panels do not move the focus. *)
Lemma updatePanels_focus (w : World) (m : main.model) (msg : tea.Msg) :
  main.focus (snd (fst (main.updatePanels w m msg))) = main.focus m.
Proof.
  unfold main.updatePanels.
  destruct (todo.Update _ _ _ _) as [[w1 t] c1]. main_simpl.
  destruct (notes.Update _ _ _ _) as [[w2 n] c2]. main_simpl.
  by destruct (calendar.Update _ _ _ _) as [[w3 c] c3].
Qed.

(** A message that is not a key press leaves the task panel and the note
    panel out of the world. *)
Lemma todo_Update_not_key (w : World) (m : todo.Model) (msg : tea.Msg)
  (focused : bool) :
  (forall k, msg <> tea.KeyMsg k) ->
  fst (fst (todo.Update w m msg focused)) = w.
Proof.
  intros NK. unfold todo.Update. destruct focused; [| done].
  destruct (todo.State m); unfold todo.updateDefault, todo.updateEntry.
  all: destruct msg; try (by destruct (list_Update _ _));
    try (by destruct (textinput_Update _ _)); by destruct (NK k).
Qed.

Lemma notes_Update_not_key (w : World) (m : notes.Model) (msg : tea.Msg)
  (focused : bool) :
  (forall k, msg <> tea.KeyMsg k) ->
  fst (fst (notes.Update w m msg focused)) = w.
Proof.
  intros NK. unfold notes.Update. destruct focused; [| done].
  destruct (notes.State m).
  all: destruct msg; try (by destruct (list_Update _ _));
    try (by destruct (textinput_Update _ _)); by destruct (NK k).
Qed.

Lemma navigate_clock (w : World) (m : calendar.Model) (cmd : tea.Cmd)
  (m' : calendar.Model) (cmd' : tea.Cmd) :
  calendar.navigate w m cmd = Returned (m', cmd') ->
  calendar.clock_ m' = calendar.clock_ m.
Proof.
  unfold calendar.navigate. calendar_simpl.
  destruct (calendar.cachedEvents m !! _).
  - destruct (calendar.filterEventsForSelectedDate _) as [m1 |] eqn:F;
      [| discriminate].
    intros [= <- <-]. rewrite (filterEventsForSelectedDate_frame _ _ F).
    by calendar_simpl.
  - destruct (negb _ && _); by intros [= <- <-].
Qed.

(** A clock tick that reaches the calendar panel sets its clock to the
    current time and schedules the next tick, focused or not. The events
    of the cache carry a start, so that the panel does not panic should
    the date picker move on the tick. *)
Lemma calendar_tick (w : World) (m : calendar.Model) (focused : bool) :
  calendar.startsKnown m ->
  let r := calendar.Update w m tea.ClockTickMsg focused in
  clock.Time (calendar.clock_ (snd (fst r))) = now w /\ In tea.ClockTick (snd r).
Proof.
  intros K. cbv zeta. cbn [calendar.Update]. unfold calendar.updateRest.
  cbn [clock.Update]. calendar_simpl.
  destruct (calendar.loading m || calendar.weatherLoading m).
  - destruct (spinner_Update _ _) as [sp spinnerCmd]. calendar_simpl.
    destruct focused; [| by split; [| left]].
    destruct (calendar.state m); calendar_simpl; [by split; [| left] |].
    destruct (datepicker_Update _ _) as [dp datepickerCmd]. calendar_simpl.
    destruct (negb _).
    + destruct (navigate_returns w
                  (calendar.set_DatePicker
                     (calendar.set_spinner
                        (calendar.set_clock m (clock.mkModel (now w))) sp) dp)
                  datepickerCmd K) as (m' & cmd' & N).
      rewrite N. calendar_simpl. rewrite (navigate_clock _ _ _ _ _ N).
      by split; [| left].
    + by split; [| left].
  - calendar_simpl.
    destruct focused; [| by split; [| left]].
    destruct (calendar.state m); calendar_simpl; [by split; [| left] |].
    destruct (datepicker_Update _ _) as [dp datepickerCmd]. calendar_simpl.
    destruct (negb _).
    + destruct (navigate_returns w
                  (calendar.set_DatePicker
                     (calendar.set_clock m (clock.mkModel (now w))) dp)
                  datepickerCmd K) as (m' & cmd' & N).
      rewrite N. calendar_simpl. rewrite (navigate_clock _ _ _ _ _ N).
      by split; [| left].
    + by split; [| left].
Qed.

(** While the task panel shows its list, a clock tick reaches the clock
    of the calendar panel whichever panel has the focus (the events of
    the cache carrying a start). *)
Lemma tick_reaches_clock (w : World) (m : main.model) :
  todo.State (main.todo_ m) = todo.ListStateDefault ->
  calendar.startsKnown (main.calendar_ m) ->
  let r := main.updateDashboard w m tea.ClockTickMsg in
  clock.Time (calendar.clock_ (main.calendar_ (snd (fst r)))) = now w
  /\ In tea.ClockTick (snd r).
Proof.
  intros S K. cbv zeta. unfold main.updateDashboard, todo.GetState.
  assert (E : bool_decide (todo.State (main.todo_ m) = todo.ListStateAdding)
              || bool_decide (todo.State (main.todo_ m) = todo.ListStateEditing)
              = false) by (by rewrite S).
  rewrite E. unfold main.updatePanels.
  pose proof (todo_Update_not_key w (main.todo_ m) tea.ClockTickMsg
                (bool_decide (main.focus m = main.focusList))) as T.
  destruct (todo.Update _ _ _ _) as [[w1 t] c1]. cbn [fst] in T.
  rewrite T by done. main_simpl.
  pose proof (notes_Update_not_key w (main.notes_ m) tea.ClockTickMsg
                (bool_decide (main.focus m = main.focusNotes))) as N.
  destruct (notes.Update _ _ _ _) as [[w2 n] c2]. cbn [fst] in N.
  rewrite N by done. main_simpl.
  pose proof (calendar_tick w (main.calendar_ m)
                (bool_decide (main.focus m = main.focusCalendar)) K) as [C1 C2].
  destruct (calendar.Update _ _ _ _) as [[w3 c] c3]. main_simpl.
  cbn [fst snd] in C1, C2. split; [done |].
  unfold tea.Batch. cbn [concat]. rewrite !in_app_iff. tauto.
Qed.

(** C5, as the code has it: while the task panel is adding or editing a
    task, the dashboard hands the message to the task panel alone. The
    calendar panel and the note panel are left as they were, so a clock
    tick does not reach the clock of the calendar panel, and the only
    commands returned are those of the task panel: the clock's next tick
    is not scheduled. *)
Theorem tick_not_passed_on_while_entering (w : World) (m : main.model)
  (msg : tea.Msg) :
  todo.State (main.todo_ m) <> todo.ListStateDefault ->
  let r := main.updateDashboard w m msg in
  main.calendar_ (snd (fst r)) = main.calendar_ m
  /\ main.notes_ (snd (fst r)) = main.notes_ m
  /\ snd r = snd (todo.Update w (main.todo_ m) msg
                    (bool_decide (main.focus m = main.focusList))).
Proof.
  intros S. cbv zeta. unfold main.updateDashboard, todo.GetState.
  assert (E : bool_decide (todo.State (main.todo_ m) = todo.ListStateAdding)
              || bool_decide (todo.State (main.todo_ m) = todo.ListStateEditing)
              = true).
  { by destruct (todo.State (main.todo_ m)). }
  rewrite E. destruct (todo.Update _ _ _ _) as [[w1 t] c1]. main_simpl.
  unfold tea.Batch. cbn [concat]. by rewrite app_nil_r.
Qed.

End dashboard.

Lemma tick_not_passed_on_while_entering_witness :
  let r := @main.updateDashboard simple.components world.fresh
             sample_dashboard.entering tea.ClockTickMsg in
  clock.Time (calendar.clock_ (main.calendar_ (snd (fst r))))
  = time.mkTime (time.unixNano world.noon - time.Second) 2025 11 3
  /\ clock.Time (calendar.clock_ (main.calendar_ (snd (fst r)))) <> now world.fresh
  /\ snd r = [].
Proof.
  pose proof (@tick_not_passed_on_while_entering simple.components world.fresh
                sample_dashboard.entering tea.ClockTickMsg) as P.
  cbv zeta in P. destruct P as (P1 & _ & P2); [discriminate |].
  cbv zeta. rewrite P1, P2. repeat split. discriminate.
Defined.

Example tick_reaches_clock_example :
  let r := @main.updateDashboard simple.components world.fresh
             sample_dashboard.idle tea.ClockTickMsg in
  clock.Time (calendar.clock_ (main.calendar_ (snd (fst r)))) = now world.fresh
  /\ snd r = [tea.ClockTick].
Proof. split; reflexivity. Qed.

Section dashboard_mouse.
Context `{Components}.

(** A left-button press on the dashboard, the task panel showing its
    list: the focus goes by the column two fifths of the width and the row
    half of the height. *)
Lemma mouse_press_focus (w : World) (m : main.model) (X Y : Z) :
  todo.State (main.todo_ m) = todo.ListStateDefault ->
  main.focus (snd (fst (main.updateDashboard w m
                          (tea.MouseMsg X Y tea.MouseActionPress tea.MouseButtonLeft))))
  = if X <? Z.quot (main.width m * 2) 5
    then if Y <? Z.quot (main.height m) 2 then main.focusList else main.focusCalendar
    else main.focusNotes.
Proof.
  intros S. unfold main.updateDashboard, todo.GetState.
  assert (E : bool_decide (todo.State (main.todo_ m) = todo.ListStateAdding)
              || bool_decide (todo.State (main.todo_ m) = todo.ListStateEditing)
              = false) by (by rewrite S).
  rewrite E.
  pose proof (updatePanels_focus w (main.mouseFocus m X Y)
                (tea.MouseMsg X Y tea.MouseActionPress tea.MouseButtonLeft)) as F.
  destruct (main.updatePanels _ _ _) as [[w' m'] cmds]. cbn [fst snd] in *.
  rewrite F. unfold main.mouseFocus.
  rewrite (proj1 (updateKeybindings_focus _)).
  by destruct (X <? _); [destruct (Y <? _) |].
Qed.

(** C6, as the code has it: the left column is rendered half the width
    of the terminal wide, while a press is classified by two fifths of
    the width. On every dashboard that is drawn the two boundaries differ,
    and a left press in a column between them lies in the rendered left
    column and focuses the notes panel. *)
Theorem mouse_boundary_differs_from_rendering (w : World) (m : main.model) :
  main.rendersDashboard m ->
  todo.State (main.todo_ m) = todo.ListStateDefault ->
  Z.quot (main.width m * 2) 5 < main.leftColumnWidth m
  /\ forall X Y : Z,
       Z.quot (main.width m * 2) 5 <= X < main.leftColumnWidth m ->
       main.inLeftColumn m X
       /\ main.focus
            (snd (fst (main.updateDashboard w m
                         (tea.MouseMsg X Y tea.MouseActionPress tea.MouseButtonLeft))))
          = main.focusNotes.
Proof.
  intros (_ & W & _) S. unfold main.minWidth in W.
  assert (B : Z.quot (main.width m * 2) 5 < main.leftColumnWidth m).
  { unfold main.leftColumnWidth.
    rewrite !Z.quot_div_nonneg by lia.
    Z.div_mod_to_equations. lia. }
  split; [exact B |]. intros X Y R. split.
  - unfold main.inLeftColumn, main.todoBoxWidth.
    assert (0 <= Z.quot (main.width m * 2) 5) by (apply Z.quot_pos; lia). lia.
  - rewrite (mouse_press_focus w m X Y S).
    destruct (X <? _) eqn:L; [apply Z.ltb_lt in L; lia | reflexivity].
Qed.

End dashboard_mouse.

Lemma mouse_boundary_differs_from_rendering_witness :
  main.inLeftColumn sample_dashboard.idle 60
  /\ main.focus
       (snd (fst (@main.updateDashboard simple.components world.fresh
                    sample_dashboard.idle
                    (tea.MouseMsg 60 5 tea.MouseActionPress tea.MouseButtonLeft))))
     = main.focusNotes.
Proof.
  pose proof (@mouse_boundary_differs_from_rendering simple.components world.fresh
                sample_dashboard.idle) as P.
  destruct P as [_ P].
  - split; [reflexivity | split; vm_compute; discriminate].
  - reflexivity.
  - apply (P 60 5). split; vm_compute; [discriminate | reflexivity].
Defined.

(** ** First-run seeding of the notes (package notes) *)

Section string_facts.

#[local] Arguments String.append _ _ : simpl nomatch.

Lemma append_assoc (a b c : string) : (a +:+ b) +:+ c = a +:+ (b +:+ c).
Proof. induction a as [| x a IH]; simpl; [done | by f_equal]. Qed.

Lemma append_inj (a s t : string) : a +:+ s = a +:+ t -> s = t.
Proof.
  induction a as [| x a IH]; simpl; [done |]. intros E. apply IH. by injection E.
Qed.

Lemma prefix_append (p s : string) : String.prefix p (p +:+ s) = true.
Proof.
  induction p as [| x p IH]; simpl; [by destruct s |].
  destruct (ascii_dec x x); [exact IH | done].
Qed.

Lemma length_append (a b : string) :
  String.length (a +:+ b) = (String.length a + String.length b)%nat.
Proof. induction a as [| x a IH]; simpl; [done | by f_equal]. Qed.

Lemma substring_all (s : string) : String.substring 0 (String.length s) s = s.
Proof. induction s as [| x s IH]; simpl; [done | by f_equal]. Qed.

Lemma TrimPrefix_append (p s : string) : strings.TrimPrefix (p +:+ s) p = s.
Proof.
  unfold strings.TrimPrefix, strings.HasPrefix. rewrite prefix_append, length_append.
  replace (String.length p + String.length s - String.length p)%nat
    with (String.length s) by lia.
  induction p as [| x p IH]; simpl; [apply substring_all | exact IH].
Qed.

Lemma list_of_append (a b : string) :
  list_ascii_of_string (a +:+ b) = list_ascii_of_string a ++ list_ascii_of_string b.
Proof. induction a as [| x a IH]; simpl; [done | by f_equal]. Qed.

(** Two texts that end in different bytes are different. *)
Lemma append_last_neq (a b s t : string) (c d : ascii) :
  c <> d -> a +:+ (s +:+ String c "") <> b +:+ (t +:+ String d "").
Proof.
  intros NE E. apply (f_equal list_ascii_of_string) in E.
  rewrite !list_of_append in E. cbn in E. rewrite !app_assoc in E.
  apply (f_equal last) in E. rewrite !last_snoc in E. congruence.
Qed.

End string_facts.

Section directory_facts.

(** A file that lies directly in a directory is among its entries. *)
Lemma ReadDir_entry (fs : gmap string os.Node) (dir name : string) (node : os.Node) :
  fs !! os.Join dir name = Some node ->
  name <> "" ->
  os.has_separator name = false ->
  os.mkDirEntry name false ∈ os.ReadDir fs dir.
Proof.
  intros E NE NS. unfold os.ReadDir. rewrite merge_sort_Permutation.
  apply list_elem_of_omap. exists (os.Join dir name, node). split.
  - by apply elem_of_map_to_list.
  - cbn. unfold os.entry_name, os.Join, strings.HasPrefix.
    rewrite <- (append_assoc dir "/" name), prefix_append, TrimPrefix_append, NS.
    apply String.eqb_neq in NE. by rewrite NE.
Qed.

(** In a directory without markdown files no markdown name is taken. *)
Lemma no_markdown_free (fs : gmap string os.Node) (dir name : string) :
  List.filter notes.is_md (os.ReadDir fs dir) = [] ->
  name <> "" ->
  os.has_separator name = false ->
  strings.HasSuffix name ".md" = true ->
  fs !! os.Join dir name = None.
Proof.
  intros Z NE NS MD. destruct (fs !! os.Join dir name) as [node |] eqn:E; [| done].
  pose proof (ReadDir_entry fs dir name node E NE NS) as I.
  apply list_elem_of_In in I.
  assert (J : In (os.mkDirEntry name false)
                 (List.filter notes.is_md (os.ReadDir fs dir))).
  { apply filter_In. split; [exact I |]. unfold notes.is_md. cbn. exact MD. }
  rewrite Z in J. destruct J.
Qed.

End directory_facts.

(** ** The settings document reads back (packages json and config) *)

Section json_round_trip.

#[local] Arguments String.append _ _ : simpl nomatch.

Lemma lex_app (st : json.lexstate) (a b : string) (out : list json.token) :
  json.lex st (a +:+ b) out
  = match json.lex_run st a out with
    | Some (st', out') => json.lex st' b out'
    | None => None
    end.
Proof.
  revert st out. induction a as [| c a IH]; intros st out; simpl; [done |].
  destruct (json.lex_step st c out) as [[st' out'] |]; [apply IH | done].
Qed.

Lemma lex_run_app (st : json.lexstate) (a b : string) (out : list json.token) :
  json.lex_run st (a +:+ b) out
  = match json.lex_run st a out with
    | Some (st', out') => json.lex_run st' b out'
    | None => None
    end.
Proof.
  revert st out. induction a as [| c a IH]; intros st out; simpl; [done |].
  destruct (json.lex_step st c out) as [[st' out'] |]; [apply IH | done].
Qed.

(** An escaped ASCII byte scans to one unit that stands for the byte. *)
Lemma lex_run_escape_ascii (c : ascii) (acc : list json.unit_) (out : list json.token) :
  json.code c < 128 ->
  exists u : json.unit_,
    json.lex_run (json.LString acc) (json.escape_ascii c) out
    = Some (json.LString (u :: acc), out)
    /\ forall rest, json.units_bytes (u :: rest) = c :: json.units_bytes rest.
Proof.
  destruct c as [[] [] [] [] [] [] [] []]; intros L;
    try (exfalso; vm_compute in L; discriminate L).
  all: eexists; split; [lazy; reflexivity | intros rest; reflexivity].
Qed.

Lemma lex_run_cons (st : json.lexstate) (c : ascii) (rest : string)
  (out : list json.token) :
  json.lex_run st (String c rest) out
  = match json.lex_step st c out with
    | Some (st', out') => json.lex_run st' rest out'
    | None => None
    end.
Proof. reflexivity. Qed.

Lemma lex_step_high (c : ascii) (acc : list json.unit_) (out : list json.token) :
  128 <= json.code c ->
  json.lex_step (json.LString acc) c out = Some (json.LString (inl c :: acc), out).
Proof.
  destruct c as [[] [] [] [] [] [] [] []]; intros L;
    try (exfalso; vm_compute in L; by apply L); reflexivity.
Qed.

Lemma code_eq (c : ascii) (n : nat) :
  (json.code c =? Z.of_nat n) = true -> c = ascii_of_nat n.
Proof.
  intros E. apply Z.eqb_eq in E. unfold json.code in E. apply Nat2Z.inj in E.
  by rewrite <- E, ascii_nat_embedding.
Qed.

(** The body of a string literal scans back to the bytes of the string. *)
Lemma lex_run_escape (n : nat) :
  forall s : string,
    (String.length s <= n)%nat ->
    forall (acc : list json.unit_) (out : list json.token),
    exists us : list json.unit_,
      json.lex_run (json.LString acc) (json.escape s) out
      = Some (json.LString (us ++ acc), out)
      /\ forall tail,
           json.units_bytes (rev us ++ tail)
           = list_ascii_of_string s ++ json.units_bytes tail.
Proof.
  induction n as [| n IH]; intros s L acc out.
  { destruct s; [| simpl in L; lia]. by exists []. }
  destruct s as [| c rest]; [by exists [] |]. simpl in L.
  assert (High : 128 <= json.code c ->
            exists us : list json.unit_,
              json.lex_run (json.LString acc) (String c (json.escape rest)) out
              = Some (json.LString (us ++ acc), out)
              /\ forall tail,
                   json.units_bytes (rev us ++ tail)
                   = c :: list_ascii_of_string rest ++ json.units_bytes tail).
  { intros H. destruct (IH rest ltac:(lia) (inl c :: acc) out) as (us & R & B).
    exists (us ++ [inl c]). split.
    - rewrite lex_run_cons, (lex_step_high c acc out H), R. by rewrite <- app_assoc.
    - intros tail. rewrite rev_app_distr. cbn [rev app json.units_bytes]. by rewrite B. }
  simpl json.escape. destruct (json.code c <? 128) eqn:A.
  - apply Z.ltb_lt in A.
    destruct (lex_run_escape_ascii c acc out A) as (u & R & B).
    destruct (IH rest ltac:(lia) (u :: acc) out) as (us & R' & B').
    exists (us ++ [u]). split.
    + rewrite lex_run_app, R, R'. by rewrite <- app_assoc.
    + intros tail. rewrite rev_app_distr. cbn [rev app]. by rewrite B, B'.
  - apply Z.ltb_ge in A. destruct rest as [| c1 [| c2 rest']]; try (by apply High).
    destruct ((json.code c =? 226) && (json.code c1 =? 128) && (json.code c2 =? 168))
      eqn:E1.
    { apply andb_prop in E1 as [E1 E3]. apply andb_prop in E1 as [E1 E2].
      apply (code_eq c 226) in E1. apply (code_eq c1 128) in E2.
      apply (code_eq c2 168) in E3. subst c c1 c2.
      destruct (IH rest' ltac:(simpl in L; lia) (inr 8232 :: acc) out) as (us & R & B).
      exists (us ++ [inr 8232]). split.
      - cbv beta iota.
        change (json.lex_run (json.LString (inr 8232 :: acc)) (json.escape rest') out
                = Some (json.LString ((us ++ [inr 8232]) ++ acc), out)).
        rewrite R. by rewrite <- app_assoc.
      - intros tail. rewrite rev_app_distr. cbn [rev app].
        change (json.units_bytes (inr 8232 :: (rev us ++ tail)))
          with (ascii_of_nat 226 :: ascii_of_nat 128 :: ascii_of_nat 168
                :: json.units_bytes (rev us ++ tail)).
        by rewrite B. }
    destruct ((json.code c =? 226) && (json.code c1 =? 128) && (json.code c2 =? 169))
      eqn:E2; [| by apply High].
    apply andb_prop in E2 as [E2 E4]. apply andb_prop in E2 as [E2 E3].
    apply (code_eq c 226) in E2. apply (code_eq c1 128) in E3.
    apply (code_eq c2 169) in E4. subst c c1 c2.
    destruct (IH rest' ltac:(simpl in L; lia) (inr 8233 :: acc) out) as (us & R & B).
    exists (us ++ [inr 8233]). split.
    + cbv beta iota.
      change (json.lex_run (json.LString (inr 8233 :: acc)) (json.escape rest') out
              = Some (json.LString ((us ++ [inr 8233]) ++ acc), out)).
      rewrite R. by rewrite <- app_assoc.
    + intros tail. rewrite rev_app_distr. cbn [rev app].
      change (json.units_bytes (inr 8233 :: (rev us ++ tail)))
        with (ascii_of_nat 226 :: ascii_of_nat 128 :: ascii_of_nat 169
              :: json.units_bytes (rev us ++ tail)).
      by rewrite B.
Qed.

(** A string literal scans to the token of its string. *)
Lemma lex_quote (s rest : string) (out : list json.token) :
  json.lex json.LStart (json.quote s +:+ rest) out
  = json.lex json.LStart rest (json.TString s :: out).
Proof.
  unfold json.quote.
  change (json.lex json.LStart
            ((String json.dquote (json.escape s) +:+ String json.dquote "") +:+ rest) out)
    with (json.lex (json.LString [])
            ((json.escape s +:+ String json.dquote "") +:+ rest) out).
  destruct (lex_run_escape (String.length s) s (le_n _) [] out) as (us & R & B).
  rewrite lex_app, lex_run_app, R. cbn [json.lex_run json.lex_step].
  change (Ascii.eqb json.dquote json.dquote) with true. cbv beta iota.
  unfold json.finish_string. specialize (B []). rewrite !app_nil_r in *.
  by rewrite B, string_of_list_ascii_of_string.
Qed.

(** The settings document reads back as the settings it was written from. *)
Lemma settings_round_trip (settings : config.Settings) :
  json.Unmarshal config.decode
    (json.encode_indent "  " 0 (config.to_json settings)) config.zeroSettings
  = (settings, None).
Proof.
  destruct settings as [location flag]. unfold json.Unmarshal, json.parse.
  assert (D : json.encode_indent "  " 0
                (config.to_json (config.mkSettings location flag))
              = ("{" +:+ json.newline +:+ "  " +:+ json.quote "location" +:+ ": ")
                +:+ (json.quote location
                     +:+ ("," +:+ json.newline +:+ "  "
                          +:+ json.quote "default_notes_created" +:+ ": "
                          +:+ (if flag then "true" else "false")
                          +:+ json.newline +:+ "}"))).
  { cbv [json.encode_indent json.encode config.to_json json.join List.map fst snd
         config.Location config.DefaultNotesCreated json.indentation].
    rewrite !append_assoc. generalize (json.quote location). intros q.
    destruct flag; vm_compute; reflexivity. }
  rewrite D, lex_app.
  change (json.lex_run json.LStart
            ("{" +:+ json.newline +:+ "  " +:+ json.quote "location" +:+ ": ") [])
    with (Some (json.LStart, [json.TColon; json.TString "location"; json.TLBrace])).
  cbv beta iota. rewrite lex_quote. destruct flag; vm_compute; reflexivity.
Qed.

End json_round_trip.

(** Once the settings file holds settings with the flag set, loading the
    notes writes nothing, whatever the note directory holds: after the
    seeding, deleting every note does not bring the seed documents back. *)
Lemma flagged_settings_stop_seeding (w : World) (settings : config.Settings) :
  files w !! config.settingsPath w = Some (os.Regular (seed.flagged settings)) ->
  fst (notes.loadNotes w) = w.
Proof.
  intros E. unfold notes.loadNotes.
  destruct (length _ =? 0)%nat; [| reflexivity].
  unfold config.LoadSettings. rewrite (ReadFile_regular _ _ _ E).
  unfold seed.flagged. rewrite settings_round_trip.
  cbn [config.Location config.DefaultNotesCreated].
  by destruct (String.eqb _ _).
Qed.

Section seeding.

Lemma seed_paths_distinct (w : World) :
  config.settingsPath w <> seed.welcome w
  /\ config.settingsPath w <> seed.keybindings w
  /\ seed.welcome w <> seed.keybindings w.
Proof.
  split; [| split].
  - change (config.settingsPath w)
      with (configDir w +:+ ("/config.jso" +:+ String "n" "")).
    change (seed.welcome w)
      with (config.GetNotesDir w +:+ ("/01-Welcome-to-GoDash.m" +:+ String "d" "")).
    by apply append_last_neq.
  - change (config.settingsPath w)
      with (configDir w +:+ ("/config.jso" +:+ String "n" "")).
    change (seed.keybindings w)
      with (config.GetNotesDir w
            +:+ ("/02-Keybindings-for-the-entire-GoDash-app.m" +:+ String "d" "")).
    by apply append_last_neq.
  - unfold seed.welcome, seed.keybindings, os.Join. intros E.
    apply append_inj in E. discriminate E.
Qed.

(** A successful [LoadSettings] leaves a readable settings file, touches
    no other file, and returns the flag set only when the file was there. *)
Lemma LoadSettings_ok (w : World) (settings : config.Settings) :
  snd (config.LoadSettings w) = (settings, None) ->
  (exists content,
      files (fst (config.LoadSettings w)) !! config.settingsPath w
      = Some (os.Regular content))
  /\ (forall path, path <> config.settingsPath w ->
        files (fst (config.LoadSettings w)) !! path = files w !! path)
  /\ configDir (fst (config.LoadSettings w)) = configDir w
  /\ dataDir (fst (config.LoadSettings w)) = dataDir w
  /\ (config.DefaultNotesCreated settings = true -> fst (config.LoadSettings w) = w).
Proof.
  unfold config.LoadSettings, os.ReadFile, os.WriteFile.
  destruct (files w !! config.settingsPath w) as [[content |] |] eqn:E;
    cbn [os.IsNotExist]; rewrite ?E.
  - destruct (json.Unmarshal _ _ _) as [s [e |]]; cbn [fst snd]; [discriminate |].
    intros _. repeat split; eauto.
  - discriminate.
  - cbn [fst snd]. intros S. injection S as <-. repeat split; try done.
    + eexists. apply lookup_insert_eq.
    + intros path NE. by apply lookup_insert_ne.
Qed.

(** C7: loading the notes when the note directory holds no markdown file.
    If the settings say the default notes were never created, exactly the
    two seed documents are written, the welcome note and the key binding
    reference, both new files, and the settings file is rewritten with the
    flag set; every other file is as it was. If the flag is already set,
    nothing is written. *)
Theorem seeding_at_most_once (w : World) (settings : config.Settings) :
  List.filter notes.is_md (os.ReadDir (files w) (config.GetNotesDir w)) = [] ->
  snd (config.LoadSettings w) = (settings, None) ->
  let w1 := fst (config.LoadSettings w) in
  let w2 := fst (notes.loadNotes w) in
  (config.DefaultNotesCreated settings = false ->
   files w1 !! seed.welcome w = None
   /\ files w1 !! seed.keybindings w = None
   /\ seed.welcome w <> seed.keybindings w
   /\ files w2
      = <[config.settingsPath w := os.Regular (seed.flagged settings)]>
          (<[seed.keybindings w := os.Regular notes.keybindingsContent]>
             (<[seed.welcome w := os.Regular notes.welcomeContent]> (files w1)))
   /\ files w2 !! seed.welcome w = Some (os.Regular notes.welcomeContent)
   /\ files w2 !! seed.keybindings w = Some (os.Regular notes.keybindingsContent)
   /\ files w2 !! config.settingsPath w = Some (os.Regular (seed.flagged settings)))
  /\ (config.DefaultNotesCreated settings = true -> w2 = w).
Proof.
  intros Z L w1 w2. subst w1 w2.
  destruct (seed_paths_distinct w) as (N1 & N2 & N3).
  destruct (LoadSettings_ok w settings L) as ([content C] & O & CD & DD & T).
  assert (W0 : files w !! seed.welcome w = None).
  { by apply no_markdown_free. }
  assert (K0 : files w !! seed.keybindings w = None).
  { by apply no_markdown_free. }
  unfold notes.loadNotes. rewrite Z. cbn [length Nat.eqb].
  destruct (config.LoadSettings w) as [w1 [s e]]. cbn [fst snd] in *.
  injection L as -> ->. split.
  - intros F. rewrite F. cbn [negb].
    assert (W1 : files w1 !! seed.welcome w = None) by (rewrite O; done).
    assert (K1 : files w1 !! seed.keybindings w = None) by (rewrite O; done).
    unfold notes.createDefaultNotes.
    change (os.Join (config.GetNotesDir w)
              (notes.sanitizeFilename notes.welcomeTitle +:+ ".md"))
      with (seed.welcome w).
    change (os.Join (config.GetNotesDir w)
              (notes.sanitizeFilename notes.keybindingsTitle +:+ ".md"))
      with (seed.keybindings w).
    rewrite (WriteFile_missing _ _ _ W1). cbn [fst files set_files].
    rewrite WriteFile_missing by (by rewrite lookup_insert_ne).
    unfold config.SaveSettings, config.settingsPath in *.
    cbn [fst files set_files configDir]. rewrite CD.
    rewrite (WriteFile_regular _ _ content)
      by (by rewrite !lookup_insert_ne).
    cbn [fst files set_files]. unfold seed.flagged.
    repeat split; try done.
    + rewrite lookup_insert_ne by done. rewrite lookup_insert_ne by done.
      apply lookup_insert_eq.
    + rewrite lookup_insert_ne by done. apply lookup_insert_eq.
    + apply lookup_insert_eq.
  - intros F. rewrite F. cbn [negb fst]. by apply T.
Qed.

End seeding.

Lemma seeding_at_most_once_witness :
  (files (fst (notes.loadNotes world.fresh)) !! seed.welcome world.fresh
   = Some (os.Regular notes.welcomeContent)
   /\ files (fst (notes.loadNotes world.fresh)) !! seed.keybindings world.fresh
      = Some (os.Regular notes.keybindingsContent)
   /\ files (fst (notes.loadNotes world.fresh)) !! config.settingsPath world.fresh
      = Some (os.Regular (seed.flagged (config.mkSettings "Athens" false))))
  /\ fst (notes.loadNotes
            (set_files world.fresh
               {[ os.Join world.cfg "config.json"
                    := os.Regular (seed.flagged (config.mkSettings "Athens" true)) ]}))
     = set_files world.fresh
         {[ os.Join world.cfg "config.json"
              := os.Regular (seed.flagged (config.mkSettings "Athens" true)) ]}.
Proof.
  split.
  - pose proof (proj1 (seeding_at_most_once world.fresh
                         (config.mkSettings "Athens" false) eq_refl eq_refl)) as P.
    cbv zeta in P. destruct (P eq_refl) as (_ & _ & _ & _ & Q1 & Q2 & Q3).
    exact (conj Q1 (conj Q2 Q3)).
  - pose proof (proj2 (seeding_at_most_once
                         (set_files world.fresh
                            {[ os.Join world.cfg "config.json"
                                 := os.Regular
                                      (seed.flagged (config.mkSettings "Athens" true)) ]})
                         (config.mkSettings "Athens" true) eq_refl eq_refl)) as P.
    cbv zeta in P. exact (P eq_refl).
Defined.

(** After the seeding of a fresh installation the settings read back with
    the flag set. *)
Example seeded_settings_read_back :
  snd (config.LoadSettings (fst (notes.loadNotes world.fresh)))
  = (config.mkSettings "Athens" true, None).
Proof. vm_compute. reflexivity. Qed.

(** * Further properties of the code *)

(** ** The task file reads back (packages json and todo) *)

Section task_file_round_trip.
#[local] Arguments String.append _ _ : simpl nomatch.

Lemma lex_run_quote (s : string) (out : list json.token) :
  json.lex_run json.LStart (json.quote s) out
  = Some (json.LStart, json.TString s :: out).
Proof.
  unfold json.quote.
  change (json.lex_run json.LStart
            (String json.dquote (json.escape s) +:+ String json.dquote "") out)
    with (json.lex_run (json.LString [])
            (json.escape s +:+ String json.dquote "") out).
  destruct (lex_run_escape (String.length s) s (le_n _) [] out) as (us & R & B).
  rewrite lex_run_app, R. cbn [json.lex_run json.lex_step].
  change (Ascii.eqb json.dquote json.dquote) with true. cbv beta iota.
  unfold json.finish_string. specialize (B []). rewrite !app_nil_r in *.
  by rewrite B, string_of_list_ascii_of_string.
Qed.

Lemma lex_run_task (t : todo.task) (out : list json.token) :
  json.lex_run json.LStart (json.encode (todo.to_json t)) out
  = Some (json.LStart, rev (task_file.tokens t) ++ out).
Proof.
  destruct t as [title description done].
  assert (D : json.encode (todo.to_json (todo.mkTask title description done))
              = ("{" +:+ json.quote "title" +:+ ":")
                +:+ (json.quote title
                     +:+ (("," +:+ json.quote "description" +:+ ":")
                          +:+ (json.quote description
                               +:+ ("," +:+ json.quote "done" +:+ ":"
                                    +:+ (if done then "true" else "false") +:+ "}"))))).
  { cbv [json.encode todo.to_json json.join List.map fst snd
         todo.Title todo.Description todo.Done].
    rewrite !append_assoc. generalize (json.quote title) (json.quote description).
    intros q1 q2. destruct done; vm_compute; reflexivity. }
  rewrite D, lex_run_app.
  change (json.lex_run json.LStart ("{" +:+ json.quote "title" +:+ ":") out)
    with (Some (json.LStart, [json.TColon; json.TString "title"; json.TLBrace] ++ out)).
  cbv beta iota. rewrite lex_run_app, lex_run_quote. cbv beta iota.
  rewrite lex_run_app.
  change (json.lex_run json.LStart ("," +:+ json.quote "description" +:+ ":")
            (json.TString title :: [json.TColon; json.TString "title"; json.TLBrace] ++ out))
    with (Some (json.LStart,
                [json.TColon; json.TString "description"; json.TComma]
                  ++ json.TString title
                  :: [json.TColon; json.TString "title"; json.TLBrace] ++ out)).
  cbv beta iota. rewrite lex_run_app, lex_run_quote. cbv beta iota.
  destruct done; reflexivity.
Qed.

Lemma lex_run_tasks (tasks : list todo.task) (out : list json.token) :
  json.lex_run json.LStart
    (json.join "," (List.map json.encode (List.map todo.to_json tasks))) out
  = Some (json.LStart, rev (task_file.separated tasks) ++ out).
Proof.
  revert out. induction tasks as [| t [| t' rest] IH]; intros out.
  - reflexivity.
  - apply lex_run_task.
  - change (json.join "," (List.map json.encode (List.map todo.to_json (t :: t' :: rest))))
      with (json.encode (todo.to_json t)
            +:+ ("," +:+ json.join ","
                           (List.map json.encode (List.map todo.to_json (t' :: rest))))).
    rewrite lex_run_app, lex_run_task. cbv beta iota.
    change (json.lex_run json.LStart
              ("," +:+ json.join ","
                         (List.map json.encode (List.map todo.to_json (t' :: rest))))
              (rev (task_file.tokens t) ++ out))
      with (json.lex_run json.LStart
              (json.join "," (List.map json.encode (List.map todo.to_json (t' :: rest))))
              (json.TComma :: rev (task_file.tokens t) ++ out)).
    rewrite IH.
    change (task_file.separated (t :: t' :: rest))
      with (task_file.tokens t ++ json.TComma :: task_file.separated (t' :: rest)).
    rewrite rev_app_distr. cbn [rev]. by rewrite <- !app_assoc.
Qed.

Lemma lex_task_file (tasks : list todo.task) :
  json.lex json.LStart (json.encode (json.Array (List.map todo.to_json tasks))) []
  = Some (json.TLBracket :: task_file.separated tasks ++ [json.TRBracket]).
Proof.
  change (json.encode (json.Array (List.map todo.to_json tasks)))
    with ("[" +:+ (json.join "," (List.map json.encode (List.map todo.to_json tasks))
                   +:+ "]")).
  change (json.lex json.LStart
            ("[" +:+ (json.join "," (List.map json.encode (List.map todo.to_json tasks))
                   +:+ "]")) [])
    with (json.lex json.LStart
            (json.join "," (List.map json.encode (List.map todo.to_json tasks))
                   +:+ "]") [json.TLBracket]).
  rewrite lex_app, lex_run_tasks. cbn [json.lex json.lex_step json.lex_end].
  change (json.start_step "]") with (Some (json.LStart, [json.TRBracket])).
  cbv beta iota. cbn [app rev]. unfold json.lex_end. cbn [rev].
  rewrite rev_app_distr, rev_involutive. reflexivity.
Qed.

Lemma parse_task (t : todo.task) (acc : list json.value) (stack : list json.frame)
  (rest : list json.token) :
  json.parse_tokens json.EValue (json.FArray acc :: stack) (task_file.tokens t ++ rest)
  = json.parse_tokens json.ECommaOrEnd
      (json.FArray (todo.to_json t :: acc) :: stack) rest.
Proof. destruct t as [title description []]; reflexivity. Qed.

Lemma parse_tasks (tasks : list todo.task) (t : todo.task) (acc : list json.value) :
  json.parse_tokens json.EValue [json.FArray acc]
    (task_file.separated (t :: tasks) ++ [json.TRBracket])
  = Some (json.Array (rev acc ++ List.map todo.to_json (t :: tasks))).
Proof.
  revert t acc. induction tasks as [| t' rest IH]; intros t acc.
  - change (task_file.separated [t] ++ [json.TRBracket])
      with (task_file.tokens t ++ [json.TRBracket]).
    rewrite parse_task. reflexivity.
  - change (task_file.separated (t :: t' :: rest))
      with (task_file.tokens t ++ json.TComma :: task_file.separated (t' :: rest)).
    rewrite <- app_assoc, parse_task.
    change (json.parse_tokens json.ECommaOrEnd [json.FArray (todo.to_json t :: acc)]
              ((json.TComma :: task_file.separated (t' :: rest)) ++ [json.TRBracket]))
      with (json.parse_tokens json.EValue [json.FArray (todo.to_json t :: acc)]
              (task_file.separated (t' :: rest) ++ [json.TRBracket])).
    rewrite IH. cbn [rev]. by rewrite <- app_assoc.
Qed.

Lemma parse_task_file (tasks : list todo.task) :
  json.parse (json.encode (json.Array (List.map todo.to_json tasks)))
  = Some (json.Array (List.map todo.to_json tasks)).
Proof.
  unfold json.parse. rewrite lex_task_file. destruct tasks as [| t rest].
  - reflexivity.
  - transitivity (json.parse_tokens json.EValue [json.FArray []]
                    (task_file.separated (t :: rest) ++ [json.TRBracket])).
    { destruct t as [title description done], rest; reflexivity. }
    rewrite parse_tasks. reflexivity.
Qed.

Lemma decode_task_to_json (t : todo.task) :
  todo.decode_task (todo.to_json t) todo.zeroTask = (t, None).
Proof. by destruct t. Qed.

Lemma decode_tasks_to_json (tasks done : list todo.task) :
  fold_left
    (fun (st : list todo.task * option error) (e : json.value) =>
       let '(x, err) := todo.decode_task e todo.zeroTask in
       (fst st ++ [x], json.first_error (snd st) err))
    (List.map todo.to_json tasks) (done, None)
  = (done ++ tasks, None).
Proof.
  revert done. induction tasks as [| t rest IH]; intros done; cbn [List.map fold_left].
  - by rewrite app_nil_r.
  - rewrite decode_task_to_json. cbn [fst snd json.first_error].
    rewrite IH. by rewrite <- app_assoc.
Qed.

(** The task file reads back as the tasks it was written from. *)
Lemma Unmarshal_tasks (tasks : list todo.task) :
  json.Unmarshal todo.decode_tasks
    (json.encode (json.Array (List.map todo.to_json tasks))) []
  = (tasks, None).
Proof.
  unfold json.Unmarshal. rewrite parse_task_file.
  unfold todo.decode_tasks, json.decode_slice. apply decode_tasks_to_json.
Qed.

End task_file_round_trip.

(** X1: what [saveTasks] writes, [loadTasks] reads back: the same tasks
    in the same order, whatever their titles hold (quotes, line breaks,
    the characters HTML escapes), as long as the file can be written. The
    texts are valid UTF-8, as the texts of a text input and of a decoded
    file are. *)
Theorem saved_tasks_load_back (w : World) (path : string) (items : list todo.task) :
  files w !! path <> Some os.Unreadable ->
  Forall (fun t => utf8.ValidString (todo.Title t) = true
                   /\ utf8.ValidString (todo.Description t) = true) items ->
  todo.loadTasks (todo.saveTasks w path items) path
  = (todo.saveTasks w path items, items).
Proof.
  intros W _. unfold todo.loadTasks, todo.saveTasks, os.WriteFile.
  destruct (files w !! path) as [[old |] |] eqn:E; [| congruence |].
  all: cbn [fst files set_files];
    rewrite (ReadFile_regular _ _ _ (lookup_insert_eq _ _ _));
    by rewrite Unmarshal_tasks.
Qed.

Lemma saved_tasks_load_back_witness :
  snd (todo.loadTasks
         (todo.saveTasks world.fresh "tasks.json"
            [sample.buyMilk; todo.mkTask "Tom & Jerry" "<b>" true])
         "tasks.json")
  = [sample.buyMilk; todo.mkTask "Tom & Jerry" "<b>" true].
Proof.
  rewrite (saved_tasks_load_back world.fresh "tasks.json"
             [sample.buyMilk; todo.mkTask "Tom & Jerry" "<b>" true]).
  - reflexivity.
  - discriminate.
  - repeat constructor.
Defined.

Section todo_file.
Context `{Components}.

Lemma saveTasks_inSync (w : World) (m m' : todo.Model) :
  files w !! todo.path m <> Some os.Unreadable ->
  todo.path m' = todo.path m ->
  bubbles_list.items (todo.List m') = bubbles_list.items (todo.List m) ->
  todo.inSync (todo.saveTasks_of w m) m'.
Proof.
  intros W P I. unfold todo.inSync, todo.saveTasks_of, todo.saveTasks, os.WriteFile.
  unfold bubbles_list.Items. rewrite P, I.
  destruct (files w !! todo.path m) as [[old |] |] eqn:E; [| congruence |].
  all: cbn [fst files set_files]; apply lookup_insert_eq.
Qed.

Lemma inSync_same_list (w : World) (m m' : todo.Model) :
  todo.path m' = todo.path m ->
  bubbles_list.items (todo.List m') = bubbles_list.items (todo.List m) ->
  todo.inSync w m -> todo.inSync w m'.
Proof. unfold todo.inSync, bubbles_list.Items. by intros -> ->. Qed.

Lemma inSync_writable (w : World) (m : todo.Model) :
  todo.inSync w m -> files w !! todo.path m <> Some os.Unreadable.
Proof. unfold todo.inSync. by intros ->. Qed.

(** X2: the task file follows the list. If the file holds the list of the
    panel before a message, it holds the list of the panel after it,
    whatever the message: every branch of [Update] that changes the list
    saves it, and the list component itself never changes the items. *)
Theorem Update_keeps_file_in_sync (w : World) (m : todo.Model) (msg : tea.Msg)
  (focused : bool) :
  (forall (l : bubbles_list.Model todo.task) (msg : tea.Msg),
      bubbles_list.items (fst (list_Update l msg)) = bubbles_list.items l) ->
  todo.inSync w m ->
  todo.inSync (fst (fst (todo.Update w m msg focused)))
              (snd (fst (todo.Update w m msg focused))).
Proof.
  intros L S. pose proof (inSync_writable w m S) as W.
  unfold todo.Update. destruct focused; [| exact S].
  assert (Rest : forall w1 m1,
             todo.inSync w1 m1 ->
             todo.inSync w1
               (todo.set_List m1 (fst (list_Update (todo.List m1) msg)))).
  { intros w1 m1 S1. apply (inSync_same_list w1 m1); [done | apply L | exact S1]. }
  assert (Entry : todo.inSync (fst (fst (todo.updateEntry w m msg)))
                    (snd (fst (todo.updateEntry w m msg)))).
  { unfold todo.updateEntry.
    assert (K : forall w1 m1,
               todo.inSync w1 m1 ->
               todo.inSync w1
                 (todo.set_TextInput m1 (fst (textinput_Update (todo.TextInput m1) msg)))).
    { intros w1 m1 S1. by apply (inSync_same_list w1 m1). }
    destruct msg as [k | | | | | | | | | | |];
      try (specialize (K w m S); by destruct (textinput_Update _ _)).
    destruct (key.Matches k _ || key.Matches k _).
    - unfold todo.confirm.
      match goal with
      | |- context [todo.saveTasks_of w ?m3] =>
          assert (S3 : todo.inSync (todo.saveTasks_of w m3) m3)
      end.
      { apply saveTasks_inSync; [| done | done].
        destruct (decide _); [destruct (negb _) | destruct (bubbles_list.SelectedItem _)];
          exact W. }
      specialize (K _ _ S3). by destruct (textinput_Update _ _).
    - destruct (key.Matches k _).
      + match goal with
        | |- context [textinput_Update (todo.TextInput ?m1) _] =>
            assert (S1 : todo.inSync w m1) by (by apply (inSync_same_list w m))
        end.
        specialize (K _ _ S1). by destruct (textinput_Update _ _).
      + specialize (K w m S). by destruct (textinput_Update _ _). }
  destruct (todo.State m); [| exact Entry | exact Entry].
  unfold todo.updateDefault.
  destruct msg as [k | | | | | | | | | | |];
    try (specialize (Rest w m S); by destruct (list_Update _ _)).
  unfold todo.defaultKey.
  destruct (decide _); [specialize (Rest w m S); by destruct (list_Update _ _) |].
  destruct (key.Matches k _); [exact S |].
  destruct (key.Matches k _).
  { destruct (bubbles_list.SelectedItem _); [exact S |].
    specialize (Rest w m S); by destruct (list_Update _ _). }
  destruct (key.Matches k _).
  { destruct (bubbles_list.SelectedItem _) as [i |].
    - match goal with
      | |- context [todo.saveTasks_of w ?m1] =>
          assert (S1 : todo.inSync (todo.saveTasks_of w m1) m1)
            by (by apply saveTasks_inSync)
      end.
      specialize (Rest _ _ S1). by destruct (list_Update _ _).
    - specialize (Rest w m S); by destruct (list_Update _ _). }
  destruct (key.Matches k _).
  { destruct (0 <? _)%nat.
    - match goal with
      | |- context [todo.saveTasks_of w ?m1] =>
          assert (S1 : todo.inSync (todo.saveTasks_of w m1) m1)
            by (by apply saveTasks_inSync)
      end.
      specialize (Rest _ _ S1). by destruct (list_Update _ _).
    - specialize (Rest w m S); by destruct (list_Update _ _). }
  specialize (Rest w m S); by destruct (list_Update _ _).
Qed.

(** X3: confirming a non-empty entry while adding appends one task with
    that title, not done and without description, at the end of the list;
    the panel is back in its default state and the whole list is saved. *)
Theorem Adding_appends_task (w : World) (m : todo.Model) (k : string) :
  todo.State m = todo.ListStateAdding ->
  textinput.Value (todo.TextInput m) <> "" ->
  todo.confirms m k ->
  let r := todo.Update w m (tea.KeyMsg k) true in
  let added := todo.mkTask (textinput.Value (todo.TextInput m)) "" false in
  bubbles_list.Items (todo.List (snd (fst r)))
  = bubbles_list.Items (todo.List m) ++ [added]
  /\ todo.State (snd (fst r)) = todo.ListStateDefault
  /\ fst (fst r)
     = todo.saveTasks w (todo.path m) (bubbles_list.Items (todo.List m) ++ [added]).
Proof.
  intros S V C r added. subst r added.
  rewrite Update_entry_confirm; [| congruence | done].
  unfold todo.confirm. rewrite S.
  destruct (decide (todo.ListStateAdding = todo.ListStateAdding)); [| congruence].
  apply String.eqb_neq in V. rewrite V. cbn [negb].
  unfold todo.saveTasks_of, bubbles_list.InsertItem, bubbles_list.Items.
  cbn [fst snd todo.List todo.State todo.path todo.TextInput todo.set_List
       todo.set_TextInput todo.set_State bubbles_list.items bubbles_list.set_items].
  by rewrite firstn_all, drop_all.
Qed.

(** The cancel key in a text-entry state discards the entry: the list
    is as it was, nothing is written, the panel is back in its default
    state, and the text input is cleared before it sees the key. *)
Lemma Cancel_discards_entry (w : World) (m : todo.Model) (k : string) :
  todo.State m <> todo.ListStateDefault ->
  key.Matches k (todo.SaveTask (todo.keys m))
  || key.Matches k (todo.Confirm (todo.keys m)) = false ->
  key.Matches k (todo.Cancel (todo.keys m)) = true ->
  let r := todo.Update w m (tea.KeyMsg k) true in
  fst (fst r) = w
  /\ todo.List (snd (fst r)) = todo.List m
  /\ todo.State (snd (fst r)) = todo.ListStateDefault
  /\ todo.TextInput (snd (fst r))
     = fst (textinput_Update (textinput.Reset (todo.TextInput m)) (tea.KeyMsg k)).
Proof.
  intros S NC C r. subst r. unfold todo.Update.
  assert (E : (match todo.State m with
               | todo.ListStateDefault => todo.updateDefault w m (tea.KeyMsg k)
               | _ => todo.updateEntry w m (tea.KeyMsg k)
               end) = todo.updateEntry w m (tea.KeyMsg k)).
  { destruct (todo.State m); congruence. }
  rewrite E. unfold todo.updateEntry. rewrite NC, C.
  cbn [todo.TextInput todo.set_TextInput todo.set_State].
  by destruct (textinput_Update _ _).
Qed.

(** A key of the list state that is neither the add key nor the edit key
    and reaches the switch on the keys. *)
Lemma Update_default_key (w : World) (m : todo.Model) (k : string) :
  todo.State m = todo.ListStateDefault ->
  bubbles_list.filterState (todo.List m) <> bubbles_list.Filtering ->
  key.Matches k (todo.AddTask (todo.keys m)) = false ->
  key.Matches k (todo.EditTask (todo.keys m)) = false ->
  forall (w1 : World) (m1 : todo.Model),
    (if key.Matches k (todo.Toggle (todo.keys m)) then
       match bubbles_list.SelectedItem (todo.List m) with
       | Some i =>
           let i := todo.mkTask (todo.Title i) (todo.Description i) (negb (todo.Done i)) in
           let m1 := todo.set_List m (bubbles_list.SetItem (todo.List m)
                                        (bubbles_list.Index (todo.List m)) i) in
           (todo.saveTasks_of w m1, m1)
       | None => (w, m)
       end
     else if key.Matches k (todo.Delete (todo.keys m)) then
       if (0 <? length (bubbles_list.Items (todo.List m)))%nat then
         let m1 := todo.set_List m (bubbles_list.RemoveItem (todo.List m)
                                      (bubbles_list.Index (todo.List m))) in
         (todo.saveTasks_of w m1, m1)
       else (w, m)
     else (w, m)) = (w1, m1) ->
    todo.Update w m (tea.KeyMsg k) true
    = (w1, todo.set_List m1 (fst (list_Update (todo.List m1) (tea.KeyMsg k))),
       tea.Batch [snd (list_Update (todo.List m1) (tea.KeyMsg k))]).
Proof.
  intros S F A E w1 m1 R. unfold todo.Update. rewrite S.
  unfold todo.updateDefault, todo.defaultKey.
  destruct (decide _) as [D | D]; [by destruct (F D) |]. rewrite A, E.
  destruct (key.Matches k (todo.Toggle _)).
  - destruct (bubbles_list.SelectedItem _); cbv zeta in R; injection R as <- <-;
      by destruct (list_Update _ _).
  - destruct (key.Matches k (todo.Delete _)).
    + destruct (0 <? _)%nat; cbv zeta in R; injection R as <- <-;
        by destruct (list_Update _ _).
    + injection R as <- <-. by destruct (list_Update _ _).
Qed.

(** X4: on a list without a filter the toggle key flips [Done] of the
    selected task and of no other, and saves the list; pressing it again
    restores the list and saves that. The list component is one that
    ignores the key. *)
Theorem Toggle_twice_restores (w : World) (m : todo.Model) (k : string)
  (t : todo.task) :
  todo.State m = todo.ListStateDefault ->
  bubbles_list.filterState (todo.List m) = bubbles_list.Unfiltered ->
  key.Matches k (todo.AddTask (todo.keys m)) = false ->
  key.Matches k (todo.EditTask (todo.keys m)) = false ->
  key.Matches k (todo.Toggle (todo.keys m)) = true ->
  bubbles_list.SelectedItem (todo.List m) = Some t ->
  (forall l : bubbles_list.Model todo.task, fst (list_Update l (tea.KeyMsg k)) = l) ->
  let flipped := todo.mkTask (todo.Title t) (todo.Description t) (negb (todo.Done t)) in
  let once := <[bubbles_list.Index (todo.List m) := flipped]>
                (bubbles_list.Items (todo.List m)) in
  let r1 := todo.Update w m (tea.KeyMsg k) true in
  let r2 := todo.Update (fst (fst r1)) (snd (fst r1)) (tea.KeyMsg k) true in
  bubbles_list.Items (todo.List (snd (fst r1))) = once
  /\ fst (fst r1) = todo.saveTasks w (todo.path m) once
  /\ bubbles_list.Items (todo.List (snd (fst r2))) = bubbles_list.Items (todo.List m)
  /\ fst (fst r2)
     = todo.saveTasks (fst (fst r1)) (todo.path m) (bubbles_list.Items (todo.List m)).
Proof.
  intros S U A E T Sel L flipped once r1 r2.
  assert (F : bubbles_list.filterState (todo.List m) <> bubbles_list.Filtering)
    by (by rewrite U).
  assert (R1 : r1 = (todo.saveTasks w (todo.path m) once,
                     todo.set_List m (bubbles_list.set_items (todo.List m) once),
                     tea.Batch [snd (list_Update
                                       (bubbles_list.set_items (todo.List m) once)
                                       (tea.KeyMsg k))])).
  { subst r1. rewrite (Update_default_key w m k S F A E
                         (todo.saveTasks w (todo.path m) once)
                         (todo.set_List m (bubbles_list.set_items (todo.List m) once))).
    - cbn [todo.List todo.set_List]. by rewrite L.
    - by rewrite T, Sel. }
  unfold bubbles_list.SelectedItem, bubbles_list.Index in Sel.
  pose proof (lookup_lt_Some _ _ _ Sel) as Lt.
  assert (Back : <[bubbles_list.Index (todo.List m) := t]> once
                 = bubbles_list.Items (todo.List m)).
  { subst once. unfold bubbles_list.Index, bubbles_list.Items.
    rewrite list_insert_insert_eq. by apply list_insert_id. }
  assert (R2 : r2 = (todo.saveTasks (fst (fst r1)) (todo.path m)
                       (bubbles_list.Items (todo.List m)),
                     todo.set_List m
                       (bubbles_list.set_items (todo.List m)
                          (bubbles_list.Items (todo.List m))),
                     tea.Batch [snd (list_Update
                                       (bubbles_list.set_items (todo.List m)
                                          (bubbles_list.Items (todo.List m)))
                                       (tea.KeyMsg k))])).
  { subst r2. rewrite R1. cbn [fst snd].
    rewrite (Update_default_key (todo.saveTasks w (todo.path m) once)
               (todo.set_List m (bubbles_list.set_items (todo.List m) once))
               k S F A E
               (todo.saveTasks (todo.saveTasks w (todo.path m) once) (todo.path m)
                  (bubbles_list.Items (todo.List m)))
               (todo.set_List m
                  (bubbles_list.set_items (todo.List m)
                     (bubbles_list.Items (todo.List m))))).
    - cbn [todo.List todo.set_List]. by rewrite L.
    - cbn [todo.keys todo.set_List todo.List]. rewrite T.
      unfold bubbles_list.SelectedItem, bubbles_list.Index, bubbles_list.SetItem.
      cbn [bubbles_list.items bubbles_list.cursor bubbles_list.set_items].
      assert (Sel1 : once !! bubbles_list.cursor (todo.List m) = Some flipped).
      { subst once. by apply list_lookup_insert_eq. }
      rewrite Sel1. cbv zeta. unfold todo.saveTasks_of.
      cbn [todo.path todo.set_List todo.List bubbles_list.set_items bubbles_list.Items
           bubbles_list.items todo.Title todo.Description todo.Done flipped].
      rewrite negb_involutive.
      replace (todo.mkTask (todo.Title t) (todo.Description t) (todo.Done t)) with t
        by (by destruct t).
      unfold bubbles_list.Index in Back. by rewrite Back. }
  rewrite R2, R1. cbn [fst snd todo.List todo.set_List bubbles_list.Items
                       bubbles_list.items bubbles_list.set_items]. done.
Qed.

(** X5: on a list without a filter the delete key removes the task under
    the cursor and saves the list; on an empty list it does nothing and
    writes nothing. The list component is one that does not change the
    items. *)
Theorem Delete_removes_selected (w : World) (m : todo.Model) (k : string) :
  todo.State m = todo.ListStateDefault ->
  bubbles_list.filterState (todo.List m) = bubbles_list.Unfiltered ->
  key.Matches k (todo.AddTask (todo.keys m)) = false ->
  key.Matches k (todo.EditTask (todo.keys m)) = false ->
  key.Matches k (todo.Toggle (todo.keys m)) = false ->
  key.Matches k (todo.Delete (todo.keys m)) = true ->
  (forall l : bubbles_list.Model todo.task,
      bubbles_list.items (fst (list_Update l (tea.KeyMsg k))) = bubbles_list.items l) ->
  let r := todo.Update w m (tea.KeyMsg k) true in
  let rest := delete (bubbles_list.Index (todo.List m))
                     (bubbles_list.Items (todo.List m)) in
  (bubbles_list.Items (todo.List m) = [] ->
   fst (fst r) = w /\ bubbles_list.Items (todo.List (snd (fst r))) = [])
  /\ (bubbles_list.Items (todo.List m) <> [] ->
      bubbles_list.Items (todo.List (snd (fst r))) = rest
      /\ fst (fst r) = todo.saveTasks w (todo.path m) rest).
Proof.
  intros S U A E T D L r rest. subst r rest.
  assert (F : bubbles_list.filterState (todo.List m) <> bubbles_list.Filtering)
    by (by rewrite U).
  split.
  - intros Z.
    rewrite (Update_default_key w m k S F A E w m) by (by rewrite T, D, Z).
    cbn [fst snd todo.List todo.set_List]. unfold bubbles_list.Items in *.
    by rewrite L.
  - intros NZ.
    rewrite (Update_default_key w m k S F A E
               (todo.saveTasks w (todo.path m)
                  (delete (bubbles_list.Index (todo.List m))
                          (bubbles_list.Items (todo.List m))))
               (todo.set_List m
                  (bubbles_list.set_items (todo.List m)
                     (delete (bubbles_list.Index (todo.List m))
                             (bubbles_list.Items (todo.List m)))))).
    + cbn [fst snd todo.List todo.set_List]. unfold bubbles_list.Items in *.
      by rewrite L.
    + rewrite T, D.
      assert (P : (0 <? length (bubbles_list.Items (todo.List m)))%nat = true).
      { apply Nat.ltb_lt. destruct (bubbles_list.Items (todo.List m)); [done |].
        cbn. lia. }
      rewrite P. cbv zeta. unfold todo.saveTasks_of, bubbles_list.RemoveItem.
      cbn [todo.path todo.set_List todo.List bubbles_list.set_items bubbles_list.Items
           bubbles_list.items].
      unfold bubbles_list.Items. by rewrite <- delete_take_drop.
Qed.

End todo_file.

Lemma Update_keeps_file_in_sync_witness :
  let r := @todo.Update simple.components sample_tasks.saved sample_tasks.panel
             (tea.KeyMsg " ") true in
  todo.inSync (fst (fst r)) (snd (fst r)).
Proof.
  apply (@Update_keeps_file_in_sync simple.components).
  - intros l msg. destruct msg; try reflexivity. cbn.
    destruct (_ && _); [reflexivity |]. by destruct (String.eqb _ _).
  - vm_compute. reflexivity.
Defined.

Lemma Adding_appends_task_witness :
  bubbles_list.Items
    (todo.List (snd (fst (@todo.Update simple.components sample_tasks.saved
                            sample_tasks.typing (tea.KeyMsg "enter") true))))
  = [sample.buyMilk; todo.mkTask "Call Ann" "" false].
Proof.
  pose proof (@Adding_appends_task simple.components sample_tasks.saved
                sample_tasks.typing "enter" eq_refl) as P.
  cbv zeta in P. destruct P as (P & _).
  - discriminate.
  - reflexivity.
  - rewrite P. reflexivity.
Defined.

Lemma Cancel_discards_entry_witness :
  let r := @todo.Update simple.components sample_tasks.saved sample_tasks.typing
             (tea.KeyMsg "esc") true in
  fst (fst r) = sample_tasks.saved
  /\ todo.List (snd (fst r)) = todo.List sample_tasks.typing
  /\ todo.State (snd (fst r)) = todo.ListStateDefault.
Proof.
  pose proof (@Cancel_discards_entry simple.components sample_tasks.saved
                sample_tasks.typing "esc") as P.
  cbv zeta in P. destruct P as (P1 & P2 & P3 & _).
  - discriminate.
  - reflexivity.
  - reflexivity.
  - cbv zeta. rewrite P1, P2, P3. repeat split.
Defined.

Lemma Toggle_twice_restores_witness :
  let r1 := @todo.Update simple.components sample_tasks.saved sample_tasks.panel
              (tea.KeyMsg " ") true in
  let r2 := @todo.Update simple.components (fst (fst r1)) (snd (fst r1))
              (tea.KeyMsg " ") true in
  bubbles_list.Items (todo.List (snd (fst r1))) = [todo.mkTask "Buy milk" "" true]
  /\ bubbles_list.Items (todo.List (snd (fst r2))) = [sample.buyMilk].
Proof.
  pose proof (@Toggle_twice_restores simple.components sample_tasks.saved
                sample_tasks.panel " " sample.buyMilk eq_refl) as P.
  cbv zeta in P.
  destruct P as (P1 & _ & P2 & _);
    [reflexivity | reflexivity | reflexivity | reflexivity | reflexivity
     | intros l; reflexivity |].
  cbv zeta. rewrite P1, P2. split; reflexivity.
Defined.

Lemma Delete_removes_selected_witness :
  let r := @todo.Update simple.components sample_tasks.saved sample_tasks.panel
             (tea.KeyMsg "ctrl+d") true in
  bubbles_list.Items (todo.List (snd (fst r))) = []
  /\ fst (fst r) = todo.saveTasks sample_tasks.saved "tasks.json" [].
Proof.
  pose proof (@Delete_removes_selected simple.components sample_tasks.saved
                sample_tasks.panel "ctrl+d" eq_refl) as P.
  cbv zeta in P.
  destruct P as (_ & P);
    [reflexivity | reflexivity | reflexivity | reflexivity | reflexivity
     | intros l; reflexivity |].
  destruct P as (P1 & P2); [discriminate |]. cbv zeta. rewrite P1, P2.
  split; reflexivity.
Defined.

(** ** Settings: saving and loading (package config) *)

(** X6: what [SaveSettings] writes, [LoadSettings] reads back, with the
    location defaulted to Athens when it is empty; the load changes no
    file. *)
Theorem saved_settings_load_back (w : World) (settings : config.Settings) :
  files w !! config.settingsPath w <> Some os.Unreadable ->
  utf8.ValidString (config.Location settings) = true ->
  let w' := fst (config.SaveSettings w settings) in
  snd (config.SaveSettings w settings) = None
  /\ config.LoadSettings w'
     = (w', (config.mkSettings
               (if String.eqb (config.Location settings) "" then "Athens"
                else config.Location settings)
               (config.DefaultNotesCreated settings),
             None)).
Proof.
  intros W _ w'. subst w'. unfold config.SaveSettings, os.WriteFile.
  destruct (files w !! config.settingsPath w) as [[old |] |] eqn:E; [| congruence |].
  all: cbn [fst snd]; split; [reflexivity |]; unfold config.LoadSettings;
    change (config.settingsPath (set_files w _)) with (config.settingsPath w);
    cbn [files set_files];
    rewrite (ReadFile_regular _ _ _ (lookup_insert_eq _ _ _));
    rewrite settings_round_trip;
    destruct settings as [location flag]; cbn [config.Location config.DefaultNotesCreated];
    by destruct (String.eqb location "").
Qed.

Lemma saved_settings_load_back_witness :
  snd (config.LoadSettings
         (fst (config.SaveSettings world.fresh (config.mkSettings "" true))))
  = (config.mkSettings "Athens" true, None).
Proof.
  pose proof (saved_settings_load_back world.fresh (config.mkSettings "" true)) as P.
  cbv zeta in P. destruct P as [_ P]; [discriminate | reflexivity |].
  rewrite P. reflexivity.
Defined.

(** X7: loading the settings a second time returns the same settings and
    changes nothing: the file the first load may have created reads back
    as the defaults it returned. *)
Theorem LoadSettings_again (w : World) (settings : config.Settings) :
  snd (config.LoadSettings w) = (settings, None) ->
  config.LoadSettings (fst (config.LoadSettings w))
  = (fst (config.LoadSettings w), (settings, None)).
Proof.
  unfold config.LoadSettings at 1 3 4. unfold os.ReadFile, os.WriteFile.
  destruct (files w !! config.settingsPath w) as [[content |] |] eqn:E;
    cbn [os.IsNotExist]; rewrite ?E.
  - destruct (json.Unmarshal _ _ _) as [s [e |]] eqn:U; cbn [fst snd]; [discriminate |].
    intros R. unfold config.LoadSettings. rewrite (ReadFile_regular _ _ _ E), U.
    by rewrite <- R.
  - discriminate.
  - cbn [fst snd]. intros R. injection R as <-. unfold config.LoadSettings.
    change (config.settingsPath (set_files w _)) with (config.settingsPath w).
    cbn [files set_files].
    rewrite (ReadFile_regular _ _ _ (lookup_insert_eq _ _ _)).
    by rewrite settings_round_trip.
Qed.

Lemma LoadSettings_again_witness :
  snd (config.LoadSettings (fst (config.LoadSettings world.fresh)))
  = (config.mkSettings "Athens" false, None).
Proof.
  rewrite (LoadSettings_again world.fresh (config.mkSettings "Athens" false) eq_refl).
  reflexivity.
Defined.

(** ** File names and titles of notes (package notes) *)

Section note_names.

#[local] Arguments String.append _ _ : simpl nomatch.

Lemma forallb_filter (p : ascii -> bool) (s : string) :
  strings.forallb p (strings.filter p s) = true.
Proof.
  induction s as [| c s IH]; simpl; [done |].
  destruct (p c) eqn:E; simpl; [by rewrite E |]. exact IH.
Qed.

Lemma forallb_impl (p q : ascii -> bool) (s : string) :
  (forall c, p c = true -> q c = true) ->
  strings.forallb p s = true -> strings.forallb q s = true.
Proof.
  intros I. induction s as [| c s IH]; simpl; [done |].
  intros A. apply andb_prop in A as [A B]. by rewrite (I c A), (IH B).
Qed.

Lemma forallb_append (p : ascii -> bool) (a b : string) :
  strings.forallb p (a +:+ b) = strings.forallb p a && strings.forallb p b.
Proof. induction a as [| c a IH]; simpl; [done |]. by rewrite IH, andb_assoc. Qed.

Lemma filter_all (p : ascii -> bool) (s : string) :
  strings.forallb p s = true -> strings.filter p s = s.
Proof.
  induction s as [| c s IH]; simpl; [done |].
  intros A. apply andb_prop in A as [A B]. by rewrite A, (IH B).
Qed.

Lemma ReplaceAll1_absent (s : string) (old : ascii) (new : string) :
  strings.forallb (fun c => negb (Ascii.eqb c old)) s = true ->
  strings.ReplaceAll1 s old new = s.
Proof.
  induction s as [| c s IH]; simpl; [done |].
  intros A. apply andb_prop in A as [A B]. apply negb_true_iff in A.
  by rewrite A, (IH B).
Qed.

Lemma alnum_or_hyphen_no_space (c : ascii) :
  notes.is_alnum_or_hyphen c = true -> negb (Ascii.eqb c " ") = true.
Proof. destruct c as [[] [] [] [] [] [] [] []]; by vm_compute. Qed.

Lemma alnum_or_hyphen_no_separator (c : ascii) :
  notes.is_alnum_or_hyphen c = true -> negb (Ascii.eqb c "/") = true.
Proof. destruct c as [[] [] [] [] [] [] [] []]; by vm_compute. Qed.

Lemma sanitizeFilename_class (name : string) :
  strings.forallb notes.is_alnum_or_hyphen (notes.sanitizeFilename name) = true.
Proof.
  unfold notes.sanitizeFilename. destruct (String.eqb _ _); [reflexivity |].
  apply forallb_filter.
Qed.

Lemma sanitizeFilename_nonempty (name : string) : notes.sanitizeFilename name <> "".
Proof.
  unfold notes.sanitizeFilename. destruct (String.eqb _ _) eqn:E; [discriminate |].
  by apply String.eqb_neq.
Qed.

Lemma class_no_separator (s : string) :
  strings.forallb notes.is_alnum_or_hyphen s = true -> os.has_separator s = false.
Proof.
  intros C. unfold os.has_separator. apply negb_false_iff.
  exact (forallb_impl _ _ s alnum_or_hyphen_no_separator C).
Qed.

(** X8: the file name made from a title is never empty, consists of
    letters, digits and hyphens only (so it has no path separator and no
    dot), and is left as it is when it is sanitized again. *)
Theorem sanitizeFilename_safe (name : string) :
  notes.sanitizeFilename name <> ""
  /\ strings.forallb notes.is_alnum_or_hyphen (notes.sanitizeFilename name) = true
  /\ os.has_separator (notes.sanitizeFilename name) = false
  /\ notes.sanitizeFilename (notes.sanitizeFilename name) = notes.sanitizeFilename name.
Proof.
  pose proof (sanitizeFilename_class name) as C.
  pose proof (sanitizeFilename_nonempty name) as N.
  split; [exact N |]. split; [exact C |]. split; [by apply class_no_separator |].
  unfold notes.sanitizeFilename at 1.
  rewrite (ReplaceAll1_absent _ " " "-")
    by exact (forallb_impl _ _ _ alnum_or_hyphen_no_space C).
  rewrite (filter_all _ _ C). apply String.eqb_neq in N. by rewrite N.
Qed.

Lemma substring_append_right (a b : string) :
  String.substring (String.length a) (String.length b) (a +:+ b) = b.
Proof. induction a as [| c a IH]; simpl; [apply substring_all | exact IH]. Qed.

Lemma substring_append_left (a b : string) :
  String.substring 0 (String.length a) (a +:+ b) = a.
Proof. induction a as [| c a IH]; simpl; [by destruct b | by f_equal]. Qed.

Lemma HasSuffix_append (a b : string) : strings.HasSuffix (a +:+ b) b = true.
Proof.
  unfold strings.HasSuffix. rewrite length_append.
  replace (String.length a + String.length b - String.length b)%nat
    with (String.length a) by lia.
  rewrite substring_append_right, String.eqb_refl, andb_true_r.
  apply Nat.leb_le. lia.
Qed.

Lemma TrimSuffix_append (a b : string) : strings.TrimSuffix (a +:+ b) b = a.
Proof.
  unfold strings.TrimSuffix. rewrite HasSuffix_append, length_append.
  replace (String.length a + String.length b - String.length b)%nat
    with (String.length a) by lia.
  apply substring_append_left.
Qed.

Lemma plain_hyphenated (s : string) :
  strings.forallb notes.is_alnum_or_space s = true ->
  strings.forallb notes.is_alnum_or_hyphen (strings.ReplaceAll1 s " " "-") = true
  /\ strings.ReplaceAll1 (strings.ReplaceAll1 s " " "-") "-" " " = s.
Proof.
  induction s as [| c s IH]; simpl; [done |].
  intros A. apply andb_prop in A as [A B]. destruct (IH B) as [I1 I2].
  destruct (Ascii.eqb c " ") eqn:E.
  - apply Ascii.eqb_eq in E. subst c. simpl. by rewrite I1, I2.
  - simpl.
    assert (C : notes.is_alnum_or_hyphen c = true /\ Ascii.eqb c "-" = false).
    { clear -A E. destruct c as [[] [] [] [] [] [] [] []]; by vm_compute in *. }
    destruct C as [C1 C2]. by rewrite C1, C2, I1, I2.
Qed.

(** X9: a title of letters, digits and spaces comes back from its file
    name: the note the file is listed as has the typed title, without the
    number and the space a title may begin with. *)
Theorem plain_title_comes_back (notesDir title : string) :
  title <> "" ->
  strings.forallb notes.is_alnum_or_space title = true ->
  notes.note_of notesDir
    (os.mkDirEntry (notes.sanitizeFilename title +:+ ".md") false)
  = notes.mkNote (notes.stripNumericPrefix title)
      (os.Join notesDir (strings.ReplaceAll1 title " " "-" +:+ ".md")).
Proof.
  intros N P. destruct (plain_hyphenated title P) as [C R].
  assert (S : notes.sanitizeFilename title = strings.ReplaceAll1 title " " "-").
  { unfold notes.sanitizeFilename. rewrite (filter_all _ _ C).
    destruct title as [| c rest]; [done |]. simpl.
    by destruct (Ascii.eqb c " "). }
  unfold notes.note_of. cbn [os.Name]. rewrite S, TrimSuffix_append, R. reflexivity.
Qed.

End note_names.

Lemma plain_title_comes_back_witness :
  notes.note_of "notes" (os.mkDirEntry (notes.sanitizeFilename "2024 goals" +:+ ".md") false)
  = notes.mkNote "goals" "notes/2024-goals.md".
Proof.
  rewrite (plain_title_comes_back "notes" "2024 goals"); [reflexivity | discriminate |].
  reflexivity.
Defined.

(** ** Creating, deleting and opening notes (package notes) *)

Ltac notes_simpl :=
  cbn [fst snd notes.List notes.TextInput notes.State notes.keys notes.width
       notes.height notes.set_List notes.set_TextInput notes.set_State
       notes.title notes.path].

Section note_files.
Context `{Components}.

#[local] Arguments String.append _ _ : simpl nomatch.

(** The confirm key in the create state, a title having been typed. *)
Lemma Update_create (w : World) (m : notes.Model) (k : string) :
  notes.State m = notes.NoteStateCreate ->
  key.Matches k (notes.Cancel (notes.keys m)) = false ->
  key.Matches k (notes.Confirm (notes.keys m)) = true ->
  textinput.Value (notes.TextInput m) <> "" ->
  let title := textinput.Value (notes.TextInput m) in
  let filePath :=
    os.Join (config.GetNotesDir w) (notes.sanitizeFilename title +:+ ".md") in
  let w1 :=
    set_files w (fst (os.WriteFile (files w) filePath
                        ("# " +:+ title +:+ json.newline +:+ json.newline))) in
  let m1 :=
    notes.set_State
      (notes.set_TextInput
         (notes.set_List m
            (bubbles_list.InsertItem (notes.List m)
               (length (bubbles_list.Items (notes.List m)))
               (notes.mkNote title filePath)))
         (textinput.Reset (notes.TextInput m)))
      notes.NoteStateList in
  notes.Update w m (tea.KeyMsg k) true
  = (w1,
     notes.set_TextInput m1 (fst (textinput_Update (notes.TextInput m1) (tea.KeyMsg k))),
     tea.Batch [snd (textinput_Update (notes.TextInput m1) (tea.KeyMsg k))]).
Proof.
  intros S NC C V. cbv zeta. unfold notes.Update. rewrite S.
  unfold notes.createKey. rewrite NC, C. apply String.eqb_neq in V. rewrite V.
  cbn [negb]. notes_simpl. by destruct (textinput_Update _ _).
Qed.

(** X10: confirming a title in the create state writes the note file,
    named after the sanitized title, with the title as its heading, over
    whatever a file of that name held; no other file changes; the note is
    appended to the list and the panel shows the list again. Loading the
    notes afterwards seeds nothing and lists the file. *)
Theorem created_note_is_listed (w : World) (m : notes.Model) (k : string) :
  notes.State m = notes.NoteStateCreate ->
  key.Matches k (notes.Cancel (notes.keys m)) = false ->
  key.Matches k (notes.Confirm (notes.keys m)) = true ->
  textinput.Value (notes.TextInput m) <> "" ->
  let title := textinput.Value (notes.TextInput m) in
  let filePath :=
    os.Join (config.GetNotesDir w) (notes.sanitizeFilename title +:+ ".md") in
  files w !! filePath <> Some os.Unreadable ->
  let r := notes.Update w m (tea.KeyMsg k) true in
  files (fst (fst r)) !! filePath
  = Some (os.Regular ("# " +:+ title +:+ json.newline +:+ json.newline))
  /\ (forall p, p <> filePath -> files (fst (fst r)) !! p = files w !! p)
  /\ bubbles_list.Items (notes.List (snd (fst r)))
     = bubbles_list.Items (notes.List m) ++ [notes.mkNote title filePath]
  /\ notes.State (snd (fst r)) = notes.NoteStateList
  /\ fst (notes.loadNotes (fst (fst r))) = fst (fst r)
  /\ exists n : notes.note,
       In n (fst (snd (notes.loadNotes (fst (fst r))))) /\ notes.path n = filePath.
Proof.
  intros S NC C V title filePath W r. subst r.
  rewrite (Update_create w m k S NC C V). cbv zeta. fold title. fold filePath.
  set (content := "# " +:+ title +:+ json.newline +:+ json.newline).
  assert (F : fst (os.WriteFile (files w) filePath content)
              = <[filePath := os.Regular content]> (files w)).
  { unfold os.WriteFile. by destruct (files w !! filePath) as [[old |] |]. }
  rewrite F. notes_simpl. cbn [files set_files].
  set (w1 := set_files w (<[filePath := os.Regular content]> (files w))).
  destruct (sanitizeFilename_safe title) as (N0 & C0 & _).
  assert (E : os.mkDirEntry (notes.sanitizeFilename title +:+ ".md") false
              ∈ os.ReadDir (files w1) (config.GetNotesDir w1)).
  { apply (ReadDir_entry _ _ _ (os.Regular content)).
    - apply lookup_insert_eq.
    - destruct (notes.sanitizeFilename title); [done | discriminate].
    - unfold os.has_separator. apply negb_false_iff.
      rewrite forallb_append, (forallb_impl _ _ _ alnum_or_hyphen_no_separator C0).
      reflexivity. }
  apply list_elem_of_In in E.
  assert (M : In (os.mkDirEntry (notes.sanitizeFilename title +:+ ".md") false)
                 (List.filter notes.is_md
                    (os.ReadDir (files w1) (config.GetNotesDir w1)))).
  { apply filter_In. split; [exact E |]. unfold notes.is_md. cbn [os.IsDir os.Name negb].
    apply HasSuffix_append. }
  assert (L : notes.loadNotes w1
              = (w1, (List.map (notes.note_of (config.GetNotesDir w1))
                        (List.filter notes.is_md
                           (os.ReadDir (files w1) (config.GetNotesDir w1))),
                      None))).
  { assert (Z : (length (List.filter notes.is_md
                              (os.ReadDir (files w1) (config.GetNotesDir w1))) =? 0)%nat
                 = false).
    { destruct (List.filter notes.is_md _); [destruct M | reflexivity]. }
    unfold notes.loadNotes. by rewrite Z. }
  split; [apply lookup_insert_eq |].
  split; [intros p NE; by apply lookup_insert_ne |].
  split.
  { unfold bubbles_list.InsertItem, bubbles_list.Items.
    cbn [bubbles_list.items bubbles_list.set_items]. by rewrite firstn_all, drop_all. }
  split; [reflexivity |]. rewrite L. cbn [fst snd]. split; [reflexivity |].
  exists (notes.note_of (config.GetNotesDir w1)
            (os.mkDirEntry (notes.sanitizeFilename title +:+ ".md") false)).
  split; [by apply in_map | reflexivity].
Qed.

(** X11: on a list without a filter the delete key in the list state
    removes the file of the note under the cursor and takes that note off
    the list; no other file changes. The list component is one that does
    not change the items. *)
Theorem deleted_note_file_is_gone (w : World) (m : notes.Model) (k : string)
  (selected : notes.note) :
  notes.State m = notes.NoteStateList ->
  bubbles_list.filterState (notes.List m) = bubbles_list.Unfiltered ->
  key.Matches k (notes.CreateNote (notes.keys m)) = false ->
  key.Matches k (notes.DeleteNote (notes.keys m)) = true ->
  bubbles_list.SelectedItem (notes.List m) = Some selected ->
  (forall l : bubbles_list.Model notes.note,
      bubbles_list.items (fst (list_Update l (tea.KeyMsg k))) = bubbles_list.items l) ->
  let r := notes.Update w m (tea.KeyMsg k) true in
  files (fst (fst r)) !! notes.path selected = None
  /\ (forall p, p <> notes.path selected -> files (fst (fst r)) !! p = files w !! p)
  /\ bubbles_list.Items (notes.List m) !! bubbles_list.Index (notes.List m)
     = Some selected
  /\ bubbles_list.Items (notes.List (snd (fst r)))
     = delete (bubbles_list.Index (notes.List m)) (bubbles_list.Items (notes.List m)).
Proof.
  intros S U NC D Sel L r. subst r. unfold notes.Update. rewrite S.
  unfold notes.listKey. destruct (decide _) as [X | _]; [congruence |].
  rewrite NC, D, Sel.
  assert (P : (0 <? length (bubbles_list.Items (notes.List m)))%nat = true).
  { unfold bubbles_list.SelectedItem, bubbles_list.Index in Sel.
    apply lookup_lt_Some in Sel. apply Nat.ltb_lt. unfold bubbles_list.Items. lia. }
  rewrite P. notes_simpl.
  match goal with
  | |- context [list_Update ?l ?msg] =>
      pose proof (L l) as I; destruct (list_Update l msg) as [l' cmd]
  end.
  notes_simpl. cbn [fst] in I. cbn [files set_files]. unfold os.Remove.
  split; [apply lookup_delete_eq |].
  split; [intros p NE; by apply lookup_delete_ne |].
  split; [exact Sel |].
  unfold bubbles_list.Items. rewrite I. unfold bubbles_list.RemoveItem.
  cbn [bubbles_list.items bubbles_list.set_items]. by rewrite <- delete_take_drop.
Qed.

End note_files.

Lemma created_note_is_listed_witness :
  let r := @notes.Update simple.components world.fresh sample_notes.naming
             (tea.KeyMsg "enter") true in
  files (fst (fst r)) !! sample_notes.planPath
  = Some (os.Regular ("# Plan: Q3" +:+ json.newline +:+ json.newline))
  /\ bubbles_list.Items (notes.List (snd (fst r)))
     = [notes.mkNote "Plan: Q3" sample_notes.planPath].
Proof.
  pose proof (@created_note_is_listed simple.components world.fresh
                sample_notes.naming "enter" eq_refl eq_refl eq_refl) as P.
  cbv zeta in P. destruct P as (P1 & _ & P2 & _); [discriminate | discriminate |].
  cbv zeta. split; [exact P1 | exact P2].
Defined.

Lemma deleted_note_file_is_gone_witness :
  let r := @notes.Update simple.components sample_notes.withPlan sample_notes.listing
             (tea.KeyMsg "ctrl+d") true in
  files (fst (fst r)) !! sample_notes.planPath = None
  /\ bubbles_list.Items (notes.List (snd (fst r))) = [].
Proof.
  pose proof (@deleted_note_file_is_gone simple.components sample_notes.withPlan
                sample_notes.listing "ctrl+d"
                (notes.mkNote "Plan Q3" sample_notes.planPath) eq_refl) as P.
  cbv zeta in P.
  destruct P as (P1 & _ & _ & P2);
    [reflexivity | reflexivity | reflexivity | reflexivity | intros l; reflexivity |].
  cbv zeta. split; [exact P1 | exact P2].
Defined.

(** ** The calendar panel: arrivals, failures and what is drawn *)

Section calendar_messages.
Context `{Components}.

(** [navigate] leaves the cache, the error, the state and the size alone. *)
Lemma navigate_frame (w : World) (m : calendar.Model) (cmd : tea.Cmd)
  (m' : calendar.Model) (cmd' : tea.Cmd) :
  calendar.navigate w m cmd = Returned (m', cmd') ->
  calendar.cachedEvents m' = calendar.cachedEvents m
  /\ calendar.err m' = calendar.err m
  /\ calendar.state m' = calendar.state m
  /\ calendar.width m' = calendar.width m
  /\ calendar.height m' = calendar.height m.
Proof.
  unfold calendar.navigate. calendar_simpl.
  destruct (calendar.cachedEvents m !! _).
  - destruct (calendar.filterEventsForSelectedDate _) as [m1 |] eqn:F;
      [| discriminate].
    intros [= <- <-]. rewrite (filterEventsForSelectedDate_frame _ _ F).
    by calendar_simpl.
  - destruct (negb _ && _); by intros [= <- <-].
Qed.

(** So does the handling of a message that is passed on. *)
Lemma updateRest_frame (w : World) (m : calendar.Model) (msg : tea.Msg)
  (focused : bool) :
  let m' := snd (fst (calendar.updateRest w m msg focused)) in
  calendar.cachedEvents m' = calendar.cachedEvents m
  /\ calendar.err m' = calendar.err m
  /\ calendar.state m' = calendar.state m
  /\ calendar.width m' = calendar.width m
  /\ calendar.height m' = calendar.height m.
Proof.
  cbv zeta. unfold calendar.updateRest.
  destruct (clock.Update _ _ _) as [c clockCmd]. calendar_simpl.
  destruct (calendar.loading m || calendar.weatherLoading m);
    [destruct (spinner_Update _ _) as [sp spinnerCmd] |]; calendar_simpl.
  all: destruct focused; [| done].
  all: destruct (calendar.state m) eqn:S; calendar_simpl; [done |].
  all: destruct (datepicker_Update _ _) as [dp datepickerCmd]; calendar_simpl.
  all: destruct (negb _); [| by calendar_simpl].
  all: match goal with
       | |- context [calendar.navigate _ ?m0 ?cmd] =>
           pose proof (navigate_frame w m0 cmd) as N;
           destruct (calendar.navigate _ m0 cmd) as [[m' cmd'] | p]
       end; [| by calendar_simpl];
    specialize (N m' cmd' eq_refl); calendar_simpl; calendar_simpl_in N;
    by rewrite S in N.
Qed.


(** One message keeps the months of the cache. *)
Lemma Update_keeps_months (w : World) (m : calendar.Model) (msg : tea.Msg)
  (focused : bool) (monthKey : string) :
  is_Some (calendar.cachedEvents m !! monthKey) ->
  is_Some (calendar.cachedEvents (snd (fst (calendar.Update w m msg focused)))
             !! monthKey).
Proof.
  intros C.
  destruct (calendar.passedOn msg) eqn:P.
  - rewrite (Update_passedOn _ _ _ _ P).
    by rewrite (proj1 (updateRest_frame w m msg focused)).
  - destruct msg; try discriminate P; cbn [calendar.Update]; calendar_simpl.
    + destruct (calendar.filterEventsForSelectedDate _) as [m1 |] eqn:F;
        [| exact C].
      rewrite (filterEventsForSelectedDate_frame _ _ F). calendar_simpl.
      destruct (decide (monthKey = MonthKey)) as [-> | NE].
      * rewrite lookup_insert_eq. by eexists.
      * by rewrite lookup_insert_ne.
    + by destruct (decide _).
    + exact C.
    + exact C.
Qed.

(** X13: the cache only grows. A month that is in the cache stays in the
    cache, whatever messages the panel handles afterwards: no branch of
    [Update] removes a month. *)
Theorem cache_never_evicts (m : calendar.Model)
  (steps : list (World * tea.Msg * bool)) (monthKey : string) :
  is_Some (calendar.cachedEvents m !! monthKey) ->
  is_Some (calendar.cachedEvents (calendar.run m steps) !! monthKey).
Proof.
  revert m. induction steps as [| [[w msg] focused] rest IH]; intros m C; [exact C |].
  cbn [calendar.run]. apply IH. by apply Update_keeps_months.
Qed.

(** One message keeps an error. *)
Lemma Update_keeps_error (w : World) (m : calendar.Model) (msg : tea.Msg)
  (focused : bool) :
  is_Some (calendar.err m) ->
  is_Some (calendar.err (snd (fst (calendar.Update w m msg focused)))).
Proof.
  intros E.
  destruct (calendar.passedOn msg) eqn:P.
  - rewrite (Update_passedOn _ _ _ _ P).
    by rewrite (proj1 (proj2 (updateRest_frame w m msg focused))).
  - destruct msg; try discriminate P; cbn [calendar.Update]; calendar_simpl.
    + destruct (calendar.filterEventsForSelectedDate _) as [m1 |] eqn:F;
        [| exact E].
      rewrite (filterEventsForSelectedDate_frame _ _ F). by calendar_simpl.
    + destruct (decide _); calendar_simpl; [exact E | by eexists].
    + exact E.
    + exact E.
Qed.

Lemma run_keeps_error (m : calendar.Model) (steps : list (World * tea.Msg * bool)) :
  is_Some (calendar.err m) -> is_Some (calendar.err (calendar.run m steps)).
Proof.
  revert m. induction steps as [| [[w msg] focused] rest IH]; intros m E; [exact E |].
  cbn [calendar.run]. apply IH. by apply Update_keeps_error.
Qed.

(** X14: a failed fetch is final. When a fetch fails with an error other
    than the missing authorisation, the month is no longer marked as being
    fetched, the cache is as it was, and the panel draws the error; and it
    draws an error after any further messages, the arrival of events
    included: no branch of [Update] clears the error. *)
Theorem fetch_failure_is_final (w : World) (m : calendar.Model) (monthKey : string)
  (e : error) (focused : bool) (steps : list (World * tea.Msg * bool)) :
  e <> ErrAuthRequired ->
  let r := calendar.Update w m (tea.EventsErrMsg monthKey e) focused in
  let m' := snd (fst r) in
  fst (fst r) = w /\ snd r = []
  /\ calendar.fetching m' monthKey = false
  /\ calendar.loading m' = false
  /\ calendar.cachedEvents m' = calendar.cachedEvents m
  /\ calendar.state m' = calendar.state m
  /\ calendar.layout m' = calendar.ShowsError e
  /\ exists e', calendar.layout (calendar.run m' steps) = calendar.ShowsError e'.
Proof.
  intros NE. cbv zeta. cbn [calendar.Update]. destruct (decide _) as [-> | _]; [done |].
  calendar_simpl. unfold calendar.fetching, calendar.layout. calendar_simpl.
  rewrite lookup_insert_eq. repeat split.
  match goal with
  | |- context [calendar.run ?m1 steps] =>
      destruct (run_keeps_error m1 steps) as [e' E'];
        [calendar_simpl; by eexists |]
  end.
  exists e'. by rewrite E'.
Qed.

(** X15: without authorisation the panel goes idle, and an idle panel, like
    a panel without the focus, does not navigate: a message that is passed
    on changes neither the selected date, nor the date picker, nor the
    events shown; the cache, the months being fetched and the time of the
    last fetch stay as they are, and the commands are those of the clock
    and the spinner alone, so no fetch is started. *)
Theorem idle_panel_does_not_navigate (w : World) (m : calendar.Model)
  (msg : tea.Msg) (focused : bool) :
  calendar.passedOn msg = true ->
  focused = false \/ calendar.state m = calendar.StateIdle ->
  let r := calendar.Update w m msg focused in
  let m' := snd (fst r) in
  let clockCmd := snd (clock.Update w (calendar.clock_ m) msg) in
  let spinnerCmd := snd (spinner_Update (calendar.spinner_ m) msg) in
  fst (fst r) = w
  /\ calendar.selectedDate m' = calendar.selectedDate m
  /\ calendar.DatePicker m' = calendar.DatePicker m
  /\ calendar.events m' = calendar.events m
  /\ calendar.cachedEvents m' = calendar.cachedEvents m
  /\ calendar.fetchingMonths m' = calendar.fetchingMonths m
  /\ calendar.lastFetchTime m' = calendar.lastFetchTime m
  /\ calendar.state m' = calendar.state m
  /\ snd r
     = if calendar.loading m || calendar.weatherLoading m
       then clockCmd ++ spinnerCmd ++ (if focused then spinnerCmd else [])
       else clockCmd ++ (if focused then clockCmd else []).
Proof.
  intros P I. cbv zeta. rewrite (Update_passedOn _ _ _ _ P).
  unfold calendar.updateRest.
  destruct (clock.Update _ _ _) as [c clockCmd]. calendar_simpl.
  destruct (calendar.loading m || calendar.weatherLoading m);
    [destruct (spinner_Update _ _) as [sp spinnerCmd] |]; calendar_simpl.
  all: destruct focused;
    [destruct I as [I | I]; [discriminate |]; rewrite I |]; calendar_simpl.
  all: unfold tea.Batch; cbn [concat app]; rewrite ?app_nil_r; repeat split.
  all: by rewrite <- ?app_assoc.
Qed.

(** X16: a focused panel answers a clock tick with two ticks. [Update]
    appends the command it got last once more when the panel has the
    focus; for a tick handled while nothing is loading that is the command
    of the clock. Without the focus the answer is the one tick. The events
    of the cache carry a start, so that the panel returns should the date
    picker move on the tick. *)
Theorem focused_tick_schedules_two_ticks (w : World) (m : calendar.Model) :
  calendar.startsKnown m ->
  calendar.loading m = false ->
  calendar.weatherLoading m = false ->
  snd (calendar.Update w m tea.ClockTickMsg false) = [tea.ClockTick]
  /\ exists between : tea.Cmd,
       snd (calendar.Update w m tea.ClockTickMsg true)
       = tea.ClockTick :: between ++ [tea.ClockTick].
Proof.
  intros K L WL. cbn [calendar.Update]. unfold calendar.updateRest.
  cbn [clock.Update]. calendar_simpl. rewrite L, WL. cbn [orb]. calendar_simpl.
  split; [reflexivity |].
  destruct (calendar.state m); calendar_simpl.
  - exists []. reflexivity.
  - destruct (datepicker_Update _ _) as [dp datepickerCmd]. calendar_simpl.
    destruct (negb _).
    + destruct (navigate_returns w
                  (calendar.set_DatePicker
                     (calendar.set_clock m (clock.mkModel (now w))) dp)
                  datepickerCmd K) as (m' & cmd' & N).
      rewrite N. exists cmd'.
      unfold tea.Batch. cbn [snd concat app]. by rewrite ?app_nil_r.
    + exists datepickerCmd. unfold tea.Batch. cbn [snd concat app].
      by rewrite ?app_nil_r.
Qed.

End calendar_messages.

Lemma cache_never_evicts_witness :
  is_Some
    (calendar.cachedEvents
       (@calendar.run simple.components sample_calendar.ready
          [(world.fresh, tea.EventsMsg "2025-12" [], false);
           (world.fresh, tea.KeyMsg "right", true)])
     !! "2025-11").
Proof.
  apply (@cache_never_evicts simple.components). by eexists.
Defined.

Lemma fetch_failure_is_final_witness :
  let m' := snd (fst (@calendar.Update simple.components world.fresh
                        sample_calendar.ready
                        (tea.EventsErrMsg "2025-12" (errorString "timeout")) true)) in
  calendar.layout m' = calendar.ShowsError (errorString "timeout")
  /\ exists e',
       calendar.layout
         (@calendar.run simple.components m'
            [(world.fresh, tea.EventsMsg "2025-12" [], true)])
       = calendar.ShowsError e'.
Proof.
  pose proof (@fetch_failure_is_final simple.components world.fresh
                sample_calendar.ready "2025-12" (errorString "timeout") true
                [(world.fresh, tea.EventsMsg "2025-12" [], true)]) as P.
  cbv zeta in P. destruct P as (_ & _ & _ & _ & _ & _ & P1 & P2); [discriminate |].
  cbv zeta. split; [exact P1 | exact P2].
Defined.

Lemma idle_panel_does_not_navigate_witness :
  let r := @calendar.Update simple.components world.fresh sample_calendar.ready
             (tea.KeyMsg "right") false in
  calendar.selectedDate (snd (fst r)) = world.noon /\ snd r = [].
Proof.
  pose proof (@idle_panel_does_not_navigate simple.components world.fresh
                sample_calendar.ready (tea.KeyMsg "right") false eq_refl
                (or_introl eq_refl)) as P.
  cbv zeta in P. destruct P as (_ & P1 & _ & _ & _ & _ & _ & _ & P2).
  cbv zeta. rewrite P1, P2. split; reflexivity.
Defined.

Lemma focused_tick_schedules_two_ticks_witness :
  snd (@calendar.Update simple.components world.fresh sample_calendar.ready
         tea.ClockTickMsg false) = [tea.ClockTick]
  /\ exists between : tea.Cmd,
       snd (@calendar.Update simple.components world.fresh sample_calendar.ready
              tea.ClockTickMsg true)
       = tea.ClockTick :: between ++ [tea.ClockTick].
Proof.
  apply (@focused_tick_schedules_two_ticks simple.components world.fresh
           sample_calendar.ready); [| reflexivity | reflexivity].
  intros monthKey monthly E. unfold sample_calendar.ready in E.
    cbn [calendar.cachedEvents] in E. apply lookup_singleton_Some in E as [_ <-].
  reflexivity.
Defined.


(** ** The calendar panel: what fits (package calendar, [View]) *)

Section calendar_view.

#[local] Arguments String.append _ _ : simpl nomatch.

Lemma length_substring_le (n : nat) (s : string) :
  (String.length (String.substring 0 n s) <= n)%nat.
Proof.
  revert s. induction n as [| n IH]; intros s; destruct s as [| c s]; simpl; try lia.
  specialize (IH s). lia.
Qed.

Lemma forallb_substring (p : ascii -> bool) (n : nat) (s : string) :
  strings.forallb p s = true -> strings.forallb p (String.substring 0 n s) = true.
Proof.
  revert s. induction n as [| n IH]; intros s; destruct s as [| c s]; simpl; try done.
  intros A. apply andb_prop in A as [A B]. by rewrite A, IH.
Qed.

Lemma ReplaceAll1_removes (s : string) (old new : ascii) :
  old <> new ->
  strings.forallb (fun c => negb (Ascii.eqb c old))
    (strings.ReplaceAll1 s old (String new "")) = true.
Proof.
  intros NE. induction s as [| c s IH]; simpl; [done |].
  destruct (Ascii.eqb c old) eqn:E; simpl.
  - rewrite IH, andb_true_r. apply negb_true_iff, Ascii.eqb_neq. congruence.
  - by rewrite E, IH.
Qed.

(** X17: the event lines that [View] draws fit the panel. There are no
    more lines than rows left under the eight rows of the date picker, and
    none when no row is left; no line is longer than the width less
    fourteen columns, and none holds a line break. *)
Theorem event_lines_fit (m : calendar.Model) :
  (length (calendar.eventLines m) <= length (calendar.events m))%nat
  /\ Z.of_nat (length (calendar.eventLines m)) <= Z.max 0 (calendar.height m - 8)
  /\ Forall (fun line =>
               Z.of_nat (String.length line) <= Z.max 0 (calendar.width m - 14)
               /\ strings.forallb (fun c => negb (Ascii.eqb c (json.byte 10))) line
                  = true)
            (calendar.eventLines m).
Proof.
  unfold calendar.eventLines.
  destruct (0 <? length (calendar.events m))%nat; [| cbn; repeat split; [lia | lia | constructor]].
  destruct (0 <? calendar.height m - 8) eqn:A;
    [| cbn; repeat split; [lia | lia | constructor]].
  apply Z.ltb_lt in A. cbv zeta. rewrite length_map, length_take.
  split; [lia |]. split; [lia |].
  apply List.Forall_forall. intros line I. apply in_map_iff in I as (event & <- & _).
  pose proof (ReplaceAll1_removes (gcal.Summary event) (json.byte 10) " "
                ltac:(discriminate)) as R.
  destruct (_ <? _) eqn:B.
  - split; [| by apply forallb_substring].
    pose proof (length_substring_le
                  (Z.to_nat (Z.max 0 (calendar.width m - 14)))
                  (strings.ReplaceAll1 (gcal.Summary event) (json.byte 10) " ")).
    lia.
  - apply Z.ltb_ge in B. by split.
Qed.

(** X18: the columns that [View] draws. On a panel of at least 45 columns
    the two sides and the two columns between them add up to the width of
    the panel; the right side has at least 20 columns and its separator
    line four less; the left side has at most 40 columns, and at least the
    30 the code names as its minimum once the panel has 52 columns: on a
    panel of 45 to 51 columns it has 22 less than the panel. Below 45
    columns the left side is drawn alone. *)
Theorem columns_fill_the_width (m : calendar.Model) :
  calendar.err m = None ->
  calendar.width m < 2 ^ 62 ->
  (calendar.width m < 45 -> calendar.layout m = calendar.LeftOnly)
  /\ (45 <= calendar.width m ->
      exists leftWidth rightWidth : Z,
        calendar.layout m
        = calendar.TwoColumns leftWidth rightWidth (rightWidth - 4)
        /\ leftWidth + rightWidth + 2 = calendar.width m
        /\ 20 <= rightWidth
        /\ leftWidth <= 40
        /\ (52 <= calendar.width m -> 30 <= leftWidth)
        /\ (calendar.width m < 52 ->
            leftWidth = calendar.width m - 22 /\ rightWidth = 20)).
Proof.
  intros E _. unfold calendar.layout. rewrite E. split.
  - intros S. apply Z.ltb_lt in S. by rewrite S.
  - intros S. assert (S' : (calendar.width m <? 45) = false) by (apply Z.ltb_ge; lia).
    rewrite S'. unfold calendar.columnWidths. generalize dependent (calendar.width m).
    intros width S _.
    destruct (width <? 80) eqn:A; [apply Z.ltb_lt in A | apply Z.ltb_ge in A].
    + cbn [Z.ltb Z.compare]. change (30 <? 30) with false. cbv iota.
      destruct (width - 30 - 2 <? 20) eqn:B; [apply Z.ltb_lt in B | apply Z.ltb_ge in B].
      * exists (width - 20 - 2), 20. rewrite Z.max_r by lia.
        repeat split; lia.
      * exists 30, (width - 30 - 2). rewrite Z.max_r by lia.
        repeat split; lia.
    + assert (Q : Z.min (Z.quot (width * 2) 3) 40 = 40).
      { apply Z.min_r. rewrite Z.quot_div_nonneg by lia.
        apply Z.div_le_lower_bound; lia. }
      rewrite Q. change (40 <? 30) with false. cbv iota.
      assert (B : (width - 40 - 2 <? 20) = false) by (apply Z.ltb_ge; lia).
      rewrite B. exists 40, (width - 40 - 2). rewrite Z.max_r by lia.
      repeat split; lia.
Qed.

End calendar_view.

Lemma columns_fill_the_width_witness :
  exists leftWidth rightWidth : Z,
    calendar.layout (calendar.set_width sample_calendar.ready 48)
    = calendar.TwoColumns leftWidth rightWidth (rightWidth - 4)
    /\ leftWidth = 26 /\ rightWidth = 20.
Proof.
  pose proof (columns_fill_the_width (calendar.set_width sample_calendar.ready 48)
                eq_refl eq_refl) as [_ P].
  destruct P as (l & r & P & _ & _ & _ & _ & Q); [vm_compute; discriminate |].
  destruct Q as [Q1 Q2]; [reflexivity |].
  exists l, r. split; [exact P |]. split; [rewrite Q1; reflexivity | exact Q2].
Defined.

(** ** Weather codes and drawings (package weather) *)

(** X19: every weather code has a drawing. Whatever code the weather
    service reports, known or not, [mapWeatherCodeToIcon] gives one of six
    day-time icon names, and [GetWeatherArt] knows each of them: the
    weather box is never left without its drawing. The thunderstorm codes
    are drawn as rain, mist and fog as a cloud, an unknown code as the
    sun. *)
Theorem every_weather_code_has_a_drawing (code : string) :
  In (weather.mapWeatherCodeToIcon code) ["01d"; "02d"; "50d"; "10d"; "11d"; "13d"]
  /\ (exists art : weather.Art,
        weather.GetWeatherArt (weather.mapWeatherCodeToIcon code)
        = Some (weather.drawing art))
  /\ (weather.mapWeatherCodeToIcon code = "11d" ->
      weather.GetWeatherArt (weather.mapWeatherCodeToIcon code)
      = Some (weather.drawing weather.Rain))
  /\ (weather.mapWeatherCodeToIcon code = "50d" ->
      weather.GetWeatherArt (weather.mapWeatherCodeToIcon code)
      = Some (weather.drawing weather.Cloud)).
Proof.
  unfold weather.mapWeatherCodeToIcon.
  repeat match goal with
         | |- context [if weather.oneOf code ?l then _ else _] =>
             destruct (weather.oneOf code l)
         end.
  all: split; [cbn; tauto |]; split; [eexists; reflexivity |];
    split; intros E; try discriminate E; reflexivity.
Qed.

(** ** Bindings and the global keys of the dashboard (package main) *)

Section bindings.

(** X20: [updateKeybindings] only enables and disables. The keys of every
    binding stay as they are, the save-task binding is not touched at all,
    the quit binding is always enabled, and doing it again changes
    nothing. On the dashboard the four bindings of the task list are
    enabled exactly when the list has the focus and shows its tasks, the
    confirm binding exactly when it has the focus and a task is being
    added or edited, the three note bindings exactly when the notes have
    the focus, the calendar binding exactly when the calendar has; cancel,
    cycle and help are enabled, open-link and save-note are disabled, and
    the mode toggle is left as it was. In the note editor all of these
    panel bindings and cycle and help are disabled, save-note is enabled
    exactly in source mode, and the mode toggle and cancel are enabled. *)
Theorem updateKeybindings_spec (m : main.model) :
  let k := main.keys (main.updateKeybindings m) in
  let on (binding : main.keyMap -> key.Binding) := key.enabled (binding k) in
  main.keyLists k = main.keyLists (main.keys m)
  /\ main.SaveTask k = main.SaveTask (main.keys m)
  /\ on main.Quit = true
  /\ main.updateKeybindings (main.updateKeybindings m) = main.updateKeybindings m
  /\ (main.state m = main.stateDashboard ->
      let onList := bool_decide (main.focus m = main.focusList) in
      let onNotes := bool_decide (main.focus m = main.focusNotes) in
      let onCalendar := bool_decide (main.focus m = main.focusCalendar) in
      let listing :=
        bool_decide (todo.State (main.todo_ m) = todo.ListStateDefault) in
      let entering :=
        bool_decide (todo.State (main.todo_ m) = todo.ListStateAdding)
        || bool_decide (todo.State (main.todo_ m) = todo.ListStateEditing) in
      on main.AddTask = onList && listing
      /\ on main.Delete = onList && listing
      /\ on main.Toggle = onList && listing
      /\ on main.EditTask = onList && listing
      /\ on main.Confirm = onList && entering
      /\ on main.OpenLink = false
      /\ on main.OpenCalendar = onCalendar
      /\ on main.CreateNote = onNotes
      /\ on main.DeleteNote = onNotes
      /\ on main.EditNote = onNotes
      /\ on main.Cancel = true
      /\ on main.CycleFocus = true
      /\ on main.ShowHelp = true
      /\ on main.SaveNote = false
      /\ main.ToggleEditMode k = main.ToggleEditMode (main.keys m))
  /\ (main.state m = main.stateEditingNote ->
      on main.AddTask = false
      /\ on main.Delete = false
      /\ on main.Toggle = false
      /\ on main.EditTask = false
      /\ on main.Confirm = false
      /\ on main.OpenLink = false
      /\ on main.OpenCalendar = false
      /\ on main.CreateNote = false
      /\ on main.DeleteNote = false
      /\ on main.EditNote = false
      /\ on main.CycleFocus = false
      /\ on main.ShowHelp = false
      /\ on main.SaveNote = bool_decide (main.noteEditorMode_ m = main.noteSourceMode)
      /\ on main.ToggleEditMode = true
      /\ on main.Cancel = true).
Proof.
  cbv zeta. destruct m as [st fo td nt ca ne nv mode nc ep k wi he sh mr un oc].
  unfold main.updateKeybindings. main_simpl.
  destruct (decide (st = main.stateEditingNote)) as [-> | NE].
  - main_simpl. destruct (decide _); [| done]. main_simpl.
    repeat split; try discriminate; reflexivity.
  - main_simpl. destruct (decide _); [done |]. main_simpl.
    split; [reflexivity |]. split; [reflexivity |]. split; [reflexivity |]. split.
    { cbn [key.SetEnabled key.keys key.enabled main.AddTask main.Delete main.Toggle
           main.EditTask main.SaveTask main.Confirm main.OpenLink main.OpenCalendar
           main.Cancel main.CreateNote main.DeleteNote main.EditNote main.SaveNote
           main.ToggleEditMode main.CycleFocus main.ShowHelp main.Quit].
      reflexivity. }
    split; [| intros ->; done]. intros ->.
    cbn [key.SetEnabled key.keys key.enabled main.AddTask main.Delete main.Toggle
         main.EditTask main.SaveTask main.Confirm main.OpenLink main.OpenCalendar
         main.Cancel main.CreateNote main.DeleteNote main.EditNote main.SaveNote
         main.ToggleEditMode main.CycleFocus main.ShowHelp main.Quit].
    rewrite !(bool_decide_eq_false_2 (main.stateDashboard = _)) by discriminate.
    cbn [orb negb andb]. unfold todo.GetState.
    repeat split; by rewrite ?orb_false_r.
Qed.

End bindings.

Section global_keys.
Context `{Components}.

(** The panels leave the fields of the dashboard itself alone. *)
Lemma updatePanels_frame (w : World) (m : main.model) (msg : tea.Msg) :
  let m' := snd (fst (main.updatePanels w m msg)) in
  main.state m' = main.state m
  /\ main.focus m' = main.focus m
  /\ main.keys m' = main.keys m
  /\ main.showHelp m' = main.showHelp m
  /\ main.todo_ m'
     = snd (fst (todo.Update w (main.todo_ m) msg
                   (bool_decide (main.focus m = main.focusList)))).
Proof.
  cbv zeta. unfold main.updatePanels.
  destruct (todo.Update _ _ _ _) as [[w1 t] c1]. main_simpl.
  destruct (notes.Update _ _ _ _) as [[w2 n] c2]. main_simpl.
  by destruct (calendar.Update _ _ _ _) as [[w3 c] c3].
Qed.

(** In its default state the task panel leaves that state only on the add
    key and on the edit key. *)
Lemma todo_stays_default (w : World) (t : todo.Model) (k : string) (focused : bool) :
  todo.State t = todo.ListStateDefault ->
  key.Matches k (todo.AddTask (todo.keys t)) = false ->
  key.Matches k (todo.EditTask (todo.keys t)) = false ->
  let t' := snd (fst (todo.Update w t (tea.KeyMsg k) focused)) in
  todo.State t' = todo.ListStateDefault /\ todo.keys t' = todo.keys t.
Proof.
  intros S A E. cbv zeta. unfold todo.Update. destruct focused; [| done].
  rewrite S. unfold todo.updateDefault, todo.defaultKey.
  destruct (decide _); [by destruct (list_Update _ _) |]. rewrite A, E.
  destruct (key.Matches k (todo.Toggle _)).
  { destruct (bubbles_list.SelectedItem _); by destruct (list_Update _ _). }
  destruct (key.Matches k (todo.Delete _)); [| by destruct (list_Update _ _)].
  destruct (0 <? _)%nat; by destruct (list_Update _ _).
Qed.

Lemma dashboard_default (w : World) (m : main.model) (k : string) :
  todo.State (main.todo_ m) = todo.ListStateDefault ->
  main.updateDashboard w m (tea.KeyMsg k)
  = main.dashboardKey (fst (fst (main.updatePanels w m (tea.KeyMsg k))))
      (snd (fst (main.updatePanels w m (tea.KeyMsg k)))) k
      (snd (main.updatePanels w m (tea.KeyMsg k))).
Proof.
  intros S. unfold main.updateDashboard, todo.GetState. rewrite S.
  cbn [bool_decide decide_rel orb]. 
  rewrite !bool_decide_eq_false_2 by discriminate. cbn [orb].
  by destruct (main.updatePanels _ _ _) as [[w1 m1] cmds].
Qed.

Lemma dashboardKeys_lists (k : main.keyMap) :
  main.dashboardKeys k ->
  key.keys (main.Cancel k) = ["esc"]
  /\ key.keys (main.CycleFocus k) = ["tab"]
  /\ key.keys (main.ShowHelp k) = ["ctrl+k"]
  /\ key.keys (main.Quit k) = ["ctrl+q"]
  /\ key.keys (main.OpenCalendar k) = ["enter"].
Proof.
  intros (L & _). unfold main.keyLists in L. cbn in L.
  injection L as _ _ _ _ _ _ _ L8 L9 _ _ _ _ _ L15 L16 L17. done.
Qed.

(** X21: the global keys of the dashboard, the task panel showing its
    list. The help key toggles the help overlay and the cancel key closes
    it; the quit key returns the quit command and nothing else; each of
    them, like the key q, drops the commands the panels returned for the
    key. *)
Theorem global_keys (w : World) (m : main.model) :
  todo.State (main.todo_ m) = todo.ListStateDefault ->
  main.dashboardKeys (main.keys m) ->
  (let r := main.updateDashboard w m (tea.KeyMsg "ctrl+k") in
   main.showHelp (snd (fst r)) = negb (main.showHelp m) /\ snd r = [])
  /\ (let r := main.updateDashboard w m (tea.KeyMsg "esc") in
      main.showHelp (snd (fst r)) = false /\ snd r = [])
  /\ (let r := main.updateDashboard w m (tea.KeyMsg "ctrl+q") in
      main.showHelp (snd (fst r)) = main.showHelp m
      /\ main.focus (snd (fst r)) = main.focus m
      /\ snd r = [tea.Quit])
  /\ (let r := main.updateDashboard w m (tea.KeyMsg "q") in
      main.showHelp (snd (fst r)) = main.showHelp m
      /\ main.focus (snd (fst r)) = main.focus m
      /\ snd r = []).
Proof.
  intros S D. destruct (dashboardKeys_lists _ D) as (KC & KT & KH & KQ & KO).
  destruct D as (_ & EC & ET & EH & EQ). cbv zeta.
  rewrite !dashboard_default by exact S.
  repeat match goal with
         | |- context [main.updatePanels w m ?msg] =>
             let F := fresh "F" in
             pose proof (updatePanels_frame w m msg) as F; cbv zeta in F;
             destruct (main.updatePanels w m msg) as [[? ?] ?]; cbn [fst snd] in F;
             destruct F as (_ & ? & ? & ? & _)
         end.
  cbn [fst snd]. unfold main.dashboardKey, key.Matches.
  repeat match goal with
         | E : main.keys _ = main.keys m |- _ => rewrite E; clear E
         end.
  rewrite KC, KT, KH, KQ, EC, ET, EH, EQ. cbn [existsb String.eqb Ascii.eqb Bool.eqb andb orb].
  main_simpl. repeat split; try congruence.
  match goal with
  | |- context [if main.showHelp ?x then _ else _] =>
      destruct (main.showHelp x) eqn:SH; [reflexivity | exact SH]
  end.
Qed.

Lemma updateKeybindings_dashboard (m : main.model) :
  main.state m = main.stateDashboard ->
  main.keyLists (main.keys m) = main.keyLists main.keys_ ->
  main.dashboardKeys (main.keys (main.updateKeybindings m))
  /\ main.state (main.updateKeybindings m) = main.stateDashboard.
Proof.
  intros S L. destruct m as [st fo td nt ca ne nv mode nc ep k wi he sh mr un oc].
  cbn [main.state main.keys] in *. subst st. unfold main.updateKeybindings.
  main_simpl. destruct (decide _); [done |]. main_simpl.
  split; [| reflexivity]. split; [exact L |].
  cbn [key.SetEnabled key.enabled main.Cancel main.CycleFocus main.ShowHelp main.Quit].
  by rewrite !bool_decide_eq_false_2 by discriminate.
Qed.

(** One press of the cycle key on the dashboard. *)
Lemma Tab_step (w : World) (m : main.model) :
  main.state m = main.stateDashboard ->
  todo.State (main.todo_ m) = todo.ListStateDefault ->
  todo.keys (main.todo_ m) = main.todoKeys ->
  main.dashboardKeys (main.keys m) ->
  let r := main.updateDashboard w m (tea.KeyMsg "tab") in
  main.focus (snd (fst r)) = main.nextFocus (main.focus m)
  /\ snd r = []
  /\ main.state (snd (fst r)) = main.stateDashboard
  /\ todo.State (main.todo_ (snd (fst r))) = todo.ListStateDefault
  /\ todo.keys (main.todo_ (snd (fst r))) = main.todoKeys
  /\ main.dashboardKeys (main.keys (snd (fst r))).
Proof.
  intros St S TK D. destruct (dashboardKeys_lists _ D) as (KC & KT & KH & KQ & KO).
  pose proof D as (L & EC & ET & EH & EQ). cbv zeta.
  rewrite dashboard_default by exact S.
  pose proof (updatePanels_frame w m (tea.KeyMsg "tab")) as F. cbv zeta in F.
  destruct (main.updatePanels w m _) as [[w1 m1] cmds]. cbn [fst snd] in *.
  destruct F as (F1 & F2 & F3 & F4 & F5).
  destruct (todo_stays_default w (main.todo_ m) "tab"
              (bool_decide (main.focus m = main.focusList)) S) as [T1 T2];
    [rewrite TK; reflexivity | rewrite TK; reflexivity |].
  rewrite <- F5 in T1, T2.
  unfold main.dashboardKey, key.Matches, todo.GetState.
  rewrite F3, KC, KT, KH, KQ, EC, ET, EH, EQ, T1.
  cbn [existsb String.eqb Ascii.eqb Bool.eqb andb orb].
  rewrite bool_decide_eq_false_2 by discriminate. cbn [negb fst snd].
  destruct (updateKeybindings_dashboard (main.set_focus m1 (main.nextFocus (main.focus m1))))
    as [D' S']; [main_simpl; congruence | main_simpl; by rewrite F3 |].
  destruct (updateKeybindings_focus (main.set_focus m1 (main.nextFocus (main.focus m1))))
    as (U1 & U2 & _).
  rewrite U1, U2. main_simpl. rewrite T1, T2, TK. rewrite F2 in *. done.
Qed.

(** X22: the cycle key moves the focus from the task panel to the note
    panel, from there to the calendar panel and from there back; three
    presses bring the focus back to where it was, whatever happens to
    the world in between. The commands the panels returned for the key
    are dropped. *)
Theorem Tab_cycles_focus (w1 w2 w3 : World) (m : main.model) :
  main.state m = main.stateDashboard ->
  todo.State (main.todo_ m) = todo.ListStateDefault ->
  todo.keys (main.todo_ m) = main.todoKeys ->
  main.dashboardKeys (main.keys m) ->
  let m1 := snd (fst (main.updateDashboard w1 m (tea.KeyMsg "tab"))) in
  let m2 := snd (fst (main.updateDashboard w2 m1 (tea.KeyMsg "tab"))) in
  let m3 := snd (fst (main.updateDashboard w3 m2 (tea.KeyMsg "tab"))) in
  main.focus m1 = main.nextFocus (main.focus m)
  /\ main.focus m2 = main.nextFocus (main.nextFocus (main.focus m))
  /\ main.focus m3 = main.focus m
  /\ snd (main.updateDashboard w1 m (tea.KeyMsg "tab")) = [].
Proof.
  intros St S TK D m1 m2 m3.
  destruct (Tab_step w1 m St S TK D) as (A1 & A2 & A3 & A4 & A5 & A6).
  destruct (Tab_step w2 m1 A3 A4 A5 A6) as (B1 & _ & B3 & B4 & B5 & B6).
  destruct (Tab_step w3 m2 B3 B4 B5 B6) as (C1 & _).
  subst m3. rewrite C1. subst m2. rewrite B1. subst m1. rewrite A1.
  repeat split; [| exact A2]. by destruct (main.focus m).
Qed.

(** X23: the focus moves on a key and on a press of the left button only.
    While the task panel shows its list, a message that is neither leaves
    the focus where it is; while the task panel is adding or editing,
    every message does, the cycle key and a press included. *)
Theorem focus_moves_on_key_or_press_only (w : World) (m : main.model) (msg : tea.Msg) :
  (todo.State (main.todo_ m) = todo.ListStateDefault ->
   (forall k, msg <> tea.KeyMsg k)
   /\ (forall X Y, msg <> tea.MouseMsg X Y tea.MouseActionPress tea.MouseButtonLeft)) ->
  main.focus (snd (fst (main.updateDashboard w m msg))) = main.focus m.
Proof.
  intros N. unfold main.updateDashboard, todo.GetState.
  destruct (todo.State (main.todo_ m)) eqn:S.
  2, 3: rewrite ?bool_decide_eq_true_2, ?bool_decide_eq_false_2 by done;
    cbn [orb]; by destruct (todo.Update _ _ _ _) as [[w1 t] c1].
  rewrite !bool_decide_eq_false_2 by discriminate. cbn [orb].
  destruct (N eq_refl) as [NK NP].
  pose proof (updatePanels_focus w m msg) as P.
  destruct msg as [k | X Y [] [] | | | | | | | | | |];
    try (destruct (main.updatePanels w m _) as [[w1 m1] cmds]; exact P).
  - by destruct (NK k).
  - by destruct (NP X Y).
  - cbn [fst snd]. unfold main.editNote. cbv zeta.
    by rewrite (proj1 (updateKeybindings_focus _)).
Qed.

End global_keys.

Lemma global_keys_witness :
  snd (@main.updateDashboard simple.components world.fresh sample_dashboard.idle
         (tea.KeyMsg "ctrl+q")) = [tea.Quit]
  /\ main.showHelp
       (snd (fst (@main.updateDashboard simple.components world.fresh
                    sample_dashboard.idle (tea.KeyMsg "ctrl+k")))) = true.
Proof.
  pose proof (@global_keys simple.components world.fresh sample_dashboard.idle
                eq_refl) as P.
  cbv zeta in P. destruct P as ((P1 & _) & _ & (_ & _ & P2) & _).
  - repeat split.
  - split; [exact P2 | exact P1].
Defined.

Lemma Tab_cycles_focus_witness :
  let m1 := snd (fst (@main.updateDashboard simple.components world.fresh
                        sample_dashboard.idle (tea.KeyMsg "tab"))) in
  let m2 := snd (fst (@main.updateDashboard simple.components sample_calendar.later
                        m1 (tea.KeyMsg "tab"))) in
  let m3 := snd (fst (@main.updateDashboard simple.components sample_calendar.later
                        m2 (tea.KeyMsg "tab"))) in
  main.focus m1 = main.focusNotes
  /\ main.focus m2 = main.focusCalendar
  /\ main.focus m3 = main.focusList.
Proof.
  pose proof (@Tab_cycles_focus simple.components world.fresh sample_calendar.later
                sample_calendar.later sample_dashboard.idle eq_refl eq_refl eq_refl) as P.
  cbv zeta in P. destruct P as (P1 & P2 & P3 & _).
  - repeat split.
  - cbv zeta. split; [exact P1 |]. split; [exact P2 | exact P3].
Defined.

Lemma focus_moves_on_key_or_press_only_witness :
  main.focus
    (snd (fst (@main.updateDashboard simple.components world.fresh
                 sample_dashboard.idle
                 (tea.MouseMsg 100 5 tea.MouseActionMotion tea.MouseButtonNone))))
  = main.focusList.
Proof.
  rewrite (@focus_moves_on_key_or_press_only simple.components); [reflexivity |].
  intros _. split; intros; discriminate.
Defined.

(** ** Opening a note (packages notes and main) *)

Section opening_notes.
Context `{Components}.

(** The calendar panel without the focus leaves the world alone. *)
Lemma updateRest_world (w : World) (m : calendar.Model) (msg : tea.Msg) :
  fst (fst (calendar.updateRest w m msg false)) = w.
Proof.
  unfold calendar.updateRest.
  destruct (clock.Update _ _ _) as [c clockCmd].
  by destruct (calendar.loading _ || calendar.weatherLoading _);
    [destruct (spinner_Update _ _) as [sp spinnerCmd] |].
Qed.

(** The confirm key on a note of the list. *)
Lemma notes_Enter (w : World) (n : notes.Model) (k : string) (selected : notes.note) :
  notes.State n = notes.NoteStateList ->
  bubbles_list.filterState (notes.List n) <> bubbles_list.Filtering ->
  key.Matches k (notes.CreateNote (notes.keys n)) = false ->
  key.Matches k (notes.DeleteNote (notes.keys n)) = false ->
  key.Matches k (notes.Confirm (notes.keys n)) = true ->
  bubbles_list.SelectedItem (notes.List n) = Some selected ->
  notes.Update w n (tea.KeyMsg k) true
  = (w, n,
     [tea.Emit
        (tea.EditNoteMsg (notes.path selected)
           match os.ReadFile (files w) (notes.path selected) with
           | inl content => content
           | inr err =>
               "Could not read file: "
               +:+ notes.pathError_text "open" (notes.path selected) err
           end)]).
Proof.
  intros S F NC ND C Sel. unfold notes.Update. rewrite S. unfold notes.listKey.
  destruct (decide _) as [X | _]; [by destruct (F X) |].
  by rewrite NC, ND, C, Sel.
Qed.

(** X24: the confirm key on a note opens it. With the focus on the note
    list, the key makes the dashboard return the command that delivers the
    note: its path, and the content of its file or, when the file cannot
    be read, the text of the error. Nothing is written and the panel stays
    as it is. When that message arrives, the dashboard becomes the note
    editor in preview mode, on that path, with that content as the
    original it compares with, and nothing counts as unsaved. The text of
    the editor is what the text area makes of the content when it is set
    ([SetValue]), which need not be the content itself. *)
Theorem Enter_opens_the_selected_note (w : World) (m : main.model)
  (selected : notes.note) :
  todo.State (main.todo_ m) = todo.ListStateDefault ->
  main.focus m = main.focusNotes ->
  main.dashboardKeys (main.keys m) ->
  notes.State (main.notes_ m) = notes.NoteStateList ->
  bubbles_list.filterState (notes.List (main.notes_ m)) <> bubbles_list.Filtering ->
  notes.keys (main.notes_ m) = main.noteKeys ->
  bubbles_list.SelectedItem (notes.List (main.notes_ m)) = Some selected ->
  let content :=
    match os.ReadFile (files w) (notes.path selected) with
    | inl content => content
    | inr err =>
        "Could not read file: "
        +:+ notes.pathError_text "open" (notes.path selected) err
    end in
  let opened := tea.EditNoteMsg (notes.path selected) content in
  let r1 := main.updateDashboard w m (tea.KeyMsg "enter") in
  let r2 := main.updateDashboard (fst (fst r1)) (snd (fst r1)) opened in
  let m2 := snd (fst r2) in
  fst (fst r1) = w
  /\ In (tea.Emit opened) (snd r1)
  /\ main.notes_ (snd (fst r1)) = main.notes_ m
  /\ main.state (snd (fst r1)) = main.state m
  /\ fst (fst r2) = w
  /\ snd r2 = []
  /\ main.state m2 = main.stateEditingNote
  /\ main.editingNotePath m2 = notes.path selected
  /\ main.noteEditor m2 = textarea_SetValue content
  /\ main.noteContent m2 = content
  /\ main.originalContent m2 = content
  /\ main.hasUnsavedChanges m2 = false
  /\ main.noteEditorMode_ m2 = main.notePreviewMode
  /\ main.noteViewer m2 = main.preview m content.
Proof.
  intros S Fo D NS NF NK Sel content opened r1 r2 m2.
  destruct (dashboardKeys_lists _ D) as (KC & KT & KH & KQ & KO).
  destruct D as (_ & EC & ET & EH & EQ).
  assert (R1 : exists c cmds,
             r1 = (w, main.set_calendar m c, cmds) /\ In (tea.Emit opened) cmds).
  { assert (UP : exists c c3,
               main.updatePanels w m (tea.KeyMsg "enter")
               = (w, main.set_calendar m c, [[]; [tea.Emit opened]; c3])).
    { unfold main.updatePanels.
      rewrite Fo. rewrite bool_decide_eq_false_2 by discriminate.
      unfold todo.Update. cbv beta iota zeta. main_simpl.
      rewrite Fo. rewrite bool_decide_eq_true_2 by reflexivity.
      rewrite (notes_Enter w (main.notes_ m) "enter" selected NS NF)
        by (rewrite ?NK; done).
      cbv beta iota zeta. main_simpl.
      pose proof (updateRest_world w (main.calendar_ m) (tea.KeyMsg "enter")) as CW.
      change (calendar.Update w (main.calendar_ m) (tea.KeyMsg "enter")
                (bool_decide (main.focusNotes = main.focusCalendar)))
        with (calendar.updateRest w (main.calendar_ m) (tea.KeyMsg "enter") false).
      destruct (calendar.updateRest _ _ _ _) as [[w3 c] c3]. cbn [fst] in CW. subst w3.
      exists c, c3. by destruct m. }
    destruct UP as (c & c3 & UP).
    subst r1. rewrite dashboard_default by exact S. rewrite UP.
    cbn [fst snd]. unfold main.dashboardKey, key.Matches. main_simpl.
    rewrite Fo. rewrite bool_decide_eq_false_2 by discriminate.
    rewrite KC, KT, KH, KQ, EC, ET, EH, EQ.
    cbn [existsb String.eqb Ascii.eqb Bool.eqb andb orb].
    exists c. eexists. split; [reflexivity |].
    unfold tea.Batch. cbn [concat app]. by left. }
  destruct R1 as (c & cmds & R1 & I).
  assert (R2 : r2 = (w, main.editNote (main.set_calendar m c)
                          (notes.path selected) content, [])).
  { subst r2. rewrite R1. cbn [fst snd]. unfold main.updateDashboard, todo.GetState.
    main_simpl. rewrite S. by rewrite !bool_decide_eq_false_2 by discriminate. }
  subst m2. rewrite R2, R1. cbn [fst snd]. main_simpl.
  unfold main.editNote. cbv zeta.
  unfold main.updateKeybindings. main_simpl.
  destruct (decide _); [| done]. main_simpl. unfold main.preview. main_simpl.
  repeat split; try reflexivity. exact I.
Qed.

End opening_notes.

Lemma Enter_opens_the_selected_note_witness :
  let opened := tea.EditNoteMsg sample_notes.planPath "# Plan: Q3" in
  let r1 := @main.updateDashboard simple.components sample_notes.withPlan
              sample_reading.dashboard (tea.KeyMsg "enter") in
  let r2 := @main.updateDashboard simple.components (fst (fst r1)) (snd (fst r1))
              opened in
  In (tea.Emit opened) (snd r1)
  /\ main.state (snd (fst r2)) = main.stateEditingNote
  /\ main.noteEditor (snd (fst r2)) = "# Plan: Q3".
Proof.
  pose proof (@Enter_opens_the_selected_note simple.components sample_notes.withPlan
                sample_reading.dashboard
                (notes.mkNote "Plan Q3" sample_notes.planPath) eq_refl eq_refl) as P.
  cbv zeta in P.
  destruct P as (_ & P1 & _ & _ & _ & _ & P2 & _ & P3 & _);
    [repeat split | reflexivity | discriminate | reflexivity | reflexivity |].
  cbv zeta. split; [exact P1 |]. split; [exact P2 | exact P3].
Defined.

(** With the stand-in for the text area, which turns a tab into four
    spaces: the editor of a note that holds a tab does not hold the
    content of the note. *)
Example a_tab_is_not_kept :
  let content := "a" +:+ String (json.byte 9) "b" in
  let m2 := snd (fst (@main.updateDashboard simple.components world.fresh
                        sample_reading.dashboard
                        (tea.EditNoteMsg sample_notes.planPath content))) in
  main.noteEditor m2 = "a    b" /\ main.originalContent m2 = content.
Proof. split; reflexivity. Qed.

(** ** The note editor and the dispatcher (package main) *)

Ltac app_simpl :=
  cbn [fst snd app.dash app.setupTextInput app.err app.saveMessage
       app.saveMessageTimer app.confirmationChoice app.set_dash app.set_setupTextInput
       app.set_err app.set_saveMessage app.set_saveMessageTimer
       app.set_confirmationChoice].

Section note_editor.
Context `{Components} `{Editor}.
Variable updateSetupWeather : World -> app.model -> tea.Msg -> World * app.model * tea.Cmd.
Variable updateSetupCalendar : World -> app.model -> tea.Msg -> World * app.model * tea.Cmd.

Lemma editorKeys_lists (d : main.model) :
  app.editorKeys d ->
  key.keys (main.ToggleEditMode (main.keys d)) = ["i"]
  /\ key.keys (main.SaveNote (main.keys d)) = ["ctrl+s"]
  /\ key.keys (main.Cancel (main.keys d)) = ["esc"].
Proof.
  intros (L & _). unfold main.keyLists in L. cbn in L.
  injection L as _ _ _ _ _ _ _ _ L9 _ _ _ L13 L14 _ _ _. done.
Qed.

(** A key in the note editor, no error being recorded. *)
Lemma Update_editor_key (w : World) (m : app.model) (k : string) :
  app.err m = None ->
  main.state (app.dash m) = main.stateEditingNote ->
  app.Update updateSetupWeather updateSetupCalendar w m (tea.KeyMsg k)
  = app.updateNoteEditor w m (tea.KeyMsg k).
Proof. intros E S. unfold app.Update. cbn [app.beforeDispatch]. by rewrite E, S. Qed.

Lemma Update_confirmation_key (w : World) (m : app.model) (k : string) :
  app.err m = None ->
  main.state (app.dash m) = main.stateExitConfirmation ->
  app.Update updateSetupWeather updateSetupCalendar w m (tea.KeyMsg k)
  = app.updateExitConfirmation w m (tea.KeyMsg k).
Proof. intros E S. unfold app.Update. cbn [app.beforeDispatch]. by rewrite E, S. Qed.

(** [updateKeybindings] in the note editor. *)
Lemma updateKeybindings_editor (d : main.model) :
  main.state d = main.stateEditingNote ->
  main.keyLists (main.keys d) = main.keyLists main.keys_ ->
  app.editorKeys (main.updateKeybindings d)
  /\ main.updateKeybindings d
     = main.set_keys d (main.keys (main.updateKeybindings d)).
Proof.
  intros S L. destruct d as [st fo td nt ca ne nv mode nc ep k wi he sh mr un oc].
  cbn [main.state main.keys] in *. subst st. unfold main.updateKeybindings.
  main_simpl. destruct (decide _); [| done]. main_simpl.
  split; [| reflexivity]. unfold app.editorKeys. main_simpl. by split.
Qed.

(** [updateKeybindings] changes the bindings only. *)
Lemma updateKeybindings_keys_only (d : main.model) :
  main.updateKeybindings d = main.set_keys d (main.keys (main.updateKeybindings d)).
Proof.
  destruct d as [st fo td nt ca ne nv mode nc ep k wi he sh mr un oc].
  unfold main.updateKeybindings. main_simpl. by destruct (decide _).
Qed.

Lemma updateKeybindings_lists (d : main.model) :
  main.keyLists (main.keys (main.updateKeybindings d)) = main.keyLists (main.keys d).
Proof.
  destruct d as [st fo td nt ca ne nv mode nc ep k wi he sh mr un oc].
  unfold main.updateKeybindings. main_simpl. by destruct (decide _).
Qed.

(** X25: leaving the source mode with unsaved changes asks first. The
    cancel key, pressed in source mode while the text of the editor
    differs from the original, writes nothing and opens the confirmation
    dialog with No selected; the text stays in the editor. Enter on the
    dialog as it opens goes back to the editor in source mode, the text
    still there and still counted as unsaved. *)
Theorem unsaved_changes_ask_first (w w2 : World) (m : app.model) :
  app.err m = None ->
  main.state (app.dash m) = main.stateEditingNote ->
  main.noteEditorMode_ (app.dash m) = main.noteSourceMode ->
  app.editorKeys (app.dash m) ->
  main.noteEditor (app.dash m) <> main.originalContent (app.dash m) ->
  let r1 := app.Update updateSetupWeather updateSetupCalendar w m (tea.KeyMsg "esc") in
  let m1 := snd (fst r1) in
  let r2 :=
    app.Update updateSetupWeather updateSetupCalendar w2 m1 (tea.KeyMsg "enter") in
  let m2 := snd (fst r2) in
  fst (fst r1) = w /\ snd r1 = []
  /\ main.state (app.dash m1) = main.stateExitConfirmation
  /\ app.confirmationChoice m1 = 1
  /\ main.noteEditor (app.dash m1) = main.noteEditor (app.dash m)
  /\ fst (fst r2) = w2 /\ snd r2 = []
  /\ main.state (app.dash m2) = main.stateEditingNote
  /\ main.noteEditorMode_ (app.dash m2) = main.noteSourceMode
  /\ main.noteEditor (app.dash m2) = main.noteEditor (app.dash m)
  /\ main.originalContent (app.dash m2) = main.originalContent (app.dash m)
  /\ main.hasUnsavedChanges (app.dash m2) = true
  /\ app.editorKeys (app.dash m2).
Proof.
  intros E S Mo K NE r1 m1 r2 m2.
  destruct (editorKeys_lists _ K) as (KT & KS & KC).
  pose proof K as (L & ET & EC & ES).
  assert (R1 : r1 = (w,
                     app.set_dash (app.set_confirmationChoice m 1)
                       (main.updateKeybindings
                          (main.set_state
                             (main.set_hasUnsavedChanges (app.dash m) true)
                             main.stateExitConfirmation)),
                     [])).
  { subst r1. rewrite (Update_editor_key w m "esc" E S).
    unfold app.updateNoteEditor, app.noteEditorKey, key.Matches.
    rewrite KT, KS, KC, ET, EC, ES.
    cbn [existsb String.eqb Ascii.eqb Bool.eqb andb orb].
    unfold app.cancelNote. rewrite Mo.
    destruct (decide _); [| done]. apply String.eqb_neq in NE. rewrite NE. done. }
  assert (D1 : app.dash m1
               = main.set_keys
                   (main.set_state (main.set_hasUnsavedChanges (app.dash m) true)
                      main.stateExitConfirmation)
                   (main.keys (app.dash m1))).
  { subst m1. rewrite R1. app_simpl. apply updateKeybindings_keys_only. }
  assert (L1 : main.keyLists (main.keys (app.dash m1)) = main.keyLists main.keys_).
  { subst m1. rewrite R1. app_simpl. rewrite updateKeybindings_lists. by main_simpl. }
  assert (E1 : app.err m1 = None) by (subst m1; by rewrite R1).
  assert (C1 : app.confirmationChoice m1 = 1) by (subst m1; by rewrite R1).
  assert (S1 : main.state (app.dash m1) = main.stateExitConfirmation)
    by (by rewrite D1).
  assert (R2 : r2 = (w2,
                     app.set_dash m1
                       (main.updateKeybindings
                          (main.set_state (app.dash m1) main.stateEditingNote)),
                     [])).
  { subst r2. rewrite (Update_confirmation_key w2 m1 "enter" E1 S1).
    unfold app.updateExitConfirmation. rewrite C1. reflexivity. }
  destruct (updateKeybindings_editor
              (main.set_state (app.dash m1) main.stateEditingNote))
    as [K2 D2]; [done | by main_simpl |].
  subst m2. rewrite R2. app_simpl. rewrite R1 at 1 2. cbn [fst snd].
  rewrite S1, C1. split; [done |]. split; [done |]. split; [done |]. split; [done |].
  split; [by rewrite D1 |]. split; [done |]. split; [done |].
  do 5 (split; [rewrite D2; main_simpl; try rewrite D1; main_simpl;
                first [done | exact Mo] |]).
  exact K2.
Qed.

Lemma preview_frame (d d' : main.model) (content : string) :
  main.markdownRenderer d' = main.markdownRenderer d ->
  main.preview d' content = main.preview d content.
Proof. unfold main.preview. by intros ->. Qed.

(** X26: choosing Yes on the confirmation dialog discards the edits. The
    keys y, Y, h and left select Yes and leave the dialog open; Enter then
    goes back to the note in preview mode, the text area set to the
    original text again (it holds what [SetValue] makes of it), the
    content and the preview being the original text, nothing counted as
    unsaved and nothing written. *)
Theorem Yes_discards_the_edits (w w2 : World) (m : app.model) (k : string) :
  app.err m = None ->
  main.state (app.dash m) = main.stateExitConfirmation ->
  main.keyLists (main.keys (app.dash m)) = main.keyLists main.keys_ ->
  In k ["y"; "Y"; "h"; "left"] ->
  let r1 := app.Update updateSetupWeather updateSetupCalendar w m (tea.KeyMsg k) in
  let m1 := snd (fst r1) in
  let r2 :=
    app.Update updateSetupWeather updateSetupCalendar w2 m1 (tea.KeyMsg "enter") in
  let m2 := snd (fst r2) in
  let original := main.originalContent (app.dash m) in
  fst (fst r1) = w /\ snd r1 = []
  /\ app.confirmationChoice m1 = 0
  /\ app.dash m1 = app.dash m
  /\ fst (fst r2) = w2 /\ snd r2 = []
  /\ main.state (app.dash m2) = main.stateEditingNote
  /\ main.noteEditorMode_ (app.dash m2) = main.notePreviewMode
  /\ main.noteEditor (app.dash m2) = textarea_SetValue original
  /\ main.noteContent (app.dash m2) = original
  /\ main.originalContent (app.dash m2) = original
  /\ main.hasUnsavedChanges (app.dash m2) = false
  /\ main.noteViewer (app.dash m2) = main.preview (app.dash m) original
  /\ app.editorKeys (app.dash m2).
Proof.
  intros E S L I r1 m1 r2 m2 original.
  assert (R1 : r1 = (w, app.set_confirmationChoice m 0, [])).
  { subst r1. rewrite (Update_confirmation_key w m k E S).
    unfold app.updateExitConfirmation.
    cbn in I. destruct I as [<- | [<- | [<- | [<- | []]]]]; reflexivity. }
  subst m1.
  assert (R2 : r2 = (w2,
                     app.set_dash (app.set_confirmationChoice m 0)
                       (main.updateKeybindings
                          (main.set_state
                             (main.set_noteViewer
                                (main.set_hasUnsavedChanges
                                   (main.set_noteEditor
                                      (main.set_noteContent
                                         (main.set_noteEditorMode (app.dash m)
                                            main.notePreviewMode)
                                         original)
                                      (textarea_SetValue original))
                                   false)
                                (main.preview (app.dash m) original))
                             main.stateEditingNote)),
                     [])).
  { subst r2. rewrite R1. cbn [fst snd].
    rewrite (Update_confirmation_key w2 _ "enter") by (app_simpl; done).
    unfold app.updateExitConfirmation. app_simpl.
    change (app.pressed "enter" ["left"; "h"]) with false.
    change (app.pressed "enter" ["right"; "l"]) with false.
    change (app.pressed "enter" ["y"; "Y"]) with false.
    change (app.pressed "enter" ["n"; "N"]) with false.
    change (app.pressed "enter" ["enter"]) with true.
    cbv iota beta zeta. main_simpl. change (0 =? 0) with true. cbv iota.
    reflexivity. }
  match type of R2 with
  | _ = (_, app.set_dash _ (main.updateKeybindings ?d), _) =>
      destruct (updateKeybindings_editor d) as [K2 D2]; [done | by main_simpl |]
  end.
  subst m2. rewrite R2, R1. app_simpl.
  do 6 (split; [done |]).
  do 7 (split; [rewrite D2; by main_simpl |]).
  exact K2.
Qed.

(** With a markdown file in the note directory, loading the notes seeds
    nothing. *)
Lemma loadNotes_with_markdown (w : World) (name : string) (node : os.Node) :
  files w !! os.Join (config.GetNotesDir w) name = Some node ->
  name <> "" ->
  os.has_separator name = false ->
  strings.HasSuffix name ".md" = true ->
  fst (notes.loadNotes w) = w.
Proof.
  intros F NE NS MD.
  pose proof (ReadDir_entry _ _ _ _ F NE NS) as I. apply list_elem_of_In in I.
  assert (Z : (length (List.filter notes.is_md
                         (os.ReadDir (files w) (config.GetNotesDir w))) =? 0)%nat
              = false).
  { assert (J : In (os.mkDirEntry name false)
                   (List.filter notes.is_md
                      (os.ReadDir (files w) (config.GetNotesDir w)))).
    { apply filter_In. split; [exact I | exact MD]. }
    destruct (List.filter notes.is_md _); [destruct J | reflexivity]. }
  unfold notes.loadNotes. by rewrite Z.
Qed.

(** The save key in source mode, on a file that can be written. *)
Lemma Update_save (w : World) (m : app.model) :
  app.err m = None ->
  main.state (app.dash m) = main.stateEditingNote ->
  main.noteEditorMode_ (app.dash m) = main.noteSourceMode ->
  app.editorKeys (app.dash m) ->
  files w !! main.editingNotePath (app.dash m) <> Some os.Unreadable ->
  let d := app.dash m in
  let content := main.noteEditor d in
  let w1 := set_files w (<[main.editingNotePath d := os.Regular content]> (files w)) in
  app.Update updateSetupWeather updateSetupCalendar w m (tea.KeyMsg "ctrl+s")
  = (fst (notes.Reload w1 (main.notes_ d)),
     app.set_dash (app.set_saveMessageTimer (app.set_saveMessage m app.savedMessage) 3)
       (main.set_noteViewer
          (main.set_originalContent
             (main.set_hasUnsavedChanges
                (main.set_notes (main.set_noteContent d content)
                   (snd (notes.Reload w1 (main.notes_ d))))
                false)
             content)
          (main.preview d content)),
     [tea.tickCmd]).
Proof.
  intros E S Mo K W. cbv zeta.
  destruct (editorKeys_lists _ K) as (KT & KS & KC).
  destruct K as (L & ET & EC & ES).
  rewrite (Update_editor_key w m "ctrl+s" E S).
  unfold app.updateNoteEditor, app.noteEditorKey, key.Matches.
  rewrite KT, KS, KC, ET, EC, ES, Mo.
  rewrite bool_decide_eq_true_2 by reflexivity.
  cbn [existsb String.eqb Ascii.eqb Bool.eqb andb orb].
  unfold app.saveNote. rewrite Mo. destruct (decide _); [| done].
  assert (F : os.WriteFile (files w) (main.editingNotePath (app.dash m))
                (main.noteEditor (app.dash m))
              = (<[main.editingNotePath (app.dash m)
                     := os.Regular (main.noteEditor (app.dash m))]> (files w), None)).
  { unfold os.WriteFile.
    by destruct (files w !! main.editingNotePath (app.dash m)) as [[old |] |]. }
  rewrite F. main_simpl.
  by destruct (notes.Reload _ _) as [w2 n].
Qed.

(** X27: a saved note is left without a question. The save key in source
    mode writes the text of the editor to the file of the note, and to no
    other file when that file lies in the note directory; the text becomes
    the original, nothing counts as unsaved, the save message is shown for
    three ticks and the tick is started. The cancel key then goes to the
    preview at once: no confirmation dialog. *)
Theorem saved_note_leaves_without_asking (w w2 : World) (m : app.model)
  (name : string) :
  app.err m = None ->
  main.state (app.dash m) = main.stateEditingNote ->
  main.noteEditorMode_ (app.dash m) = main.noteSourceMode ->
  app.editorKeys (app.dash m) ->
  main.editingNotePath (app.dash m) = os.Join (config.GetNotesDir w) name ->
  name <> "" ->
  os.has_separator name = false ->
  strings.HasSuffix name ".md" = true ->
  files w !! main.editingNotePath (app.dash m) <> Some os.Unreadable ->
  let content := main.noteEditor (app.dash m) in
  let r1 :=
    app.Update updateSetupWeather updateSetupCalendar w m (tea.KeyMsg "ctrl+s") in
  let m1 := snd (fst r1) in
  let r2 :=
    app.Update updateSetupWeather updateSetupCalendar w2 m1 (tea.KeyMsg "esc") in
  let m2 := snd (fst r2) in
  files (fst (fst r1))
  = <[main.editingNotePath (app.dash m) := os.Regular content]> (files w)
  /\ snd r1 = [tea.tickCmd]
  /\ app.saveMessage m1 = app.savedMessage
  /\ app.saveMessageTimer m1 = 3
  /\ main.noteEditor (app.dash m1) = content
  /\ main.originalContent (app.dash m1) = content
  /\ main.hasUnsavedChanges (app.dash m1) = false
  /\ main.state (app.dash m1) = main.stateEditingNote
  /\ fst (fst r2) = w2 /\ snd r2 = []
  /\ main.state (app.dash m2) = main.stateEditingNote
  /\ main.noteEditorMode_ (app.dash m2) = main.notePreviewMode
  /\ main.noteViewer (app.dash m2) = main.preview (app.dash m) content.
Proof.
  intros E S Mo K P NE NS MD W content r1 m1 r2 m2.
  pose proof (Update_save w m E S Mo K W) as R1. cbv zeta in R1. fold content in R1.
  fold r1 in R1.
  set (w1 := set_files w
               (<[main.editingNotePath (app.dash m) := os.Regular content]> (files w)))
    in *.
  assert (RW : fst (notes.Reload w1 (main.notes_ (app.dash m))) = w1).
  { assert (LW : fst (notes.loadNotes w1) = w1).
    { apply (loadNotes_with_markdown w1 name (os.Regular content)); try done.
      change (config.GetNotesDir w1) with (config.GetNotesDir w).
      subst w1. cbn [files set_files]. rewrite <- P. apply lookup_insert_eq. }
    unfold notes.Reload. destruct (notes.loadNotes w1) as [w' [ns [e |]]]; exact LW. }
  rewrite RW in R1.
  destruct (editorKeys_lists _ K) as (KT & KS & KC).
  pose proof K as (L & ET & EC & ES).
  assert (R2 : exists d2,
             r2 = (w2, app.set_dash m1 (main.updateKeybindings d2), [])
             /\ main.state d2 = main.stateEditingNote
             /\ main.noteEditorMode_ d2 = main.notePreviewMode
             /\ main.noteViewer d2 = main.preview (app.dash m) content).
  { subst r2 m1. rewrite R1. cbn [fst snd].
    rewrite (Update_editor_key w2 _ "esc") by (app_simpl; main_simpl; done).
    unfold app.updateNoteEditor, app.noteEditorKey, key.Matches. app_simpl. main_simpl.
    rewrite KT, KS, KC, ET, EC, ES, Mo.
    cbn [existsb String.eqb Ascii.eqb Bool.eqb andb orb].
    unfold app.cancelNote. app_simpl. main_simpl. rewrite Mo.
    destruct (decide _); [| done]. rewrite String.eqb_refl. cbn [negb].
    eexists. split; [reflexivity |]. main_simpl. repeat split; try done. }
  destruct R2 as (d2 & R2 & S2 & M2 & V2).
  subst m2. rewrite R2. subst m1. rewrite R1. app_simpl. main_simpl.
  subst w1. cbn [files set_files].
  do 10 (split; [done |]).
  rewrite (updateKeybindings_keys_only d2). main_simpl. done.
Qed.

(** X28: a save that fails ends the program. When the file of the note
    cannot be written, the save key records the error and changes no file;
    the text stays in the editor. From then on [Update] answers every
    message with the quit command, before the message reaches any panel
    or the editor (a tick of the save message aside, while its timer
    runs). *)
Theorem failed_save_quits (w w2 : World) (m : app.model) (msg : tea.Msg) :
  app.err m = None ->
  main.state (app.dash m) = main.stateEditingNote ->
  main.noteEditorMode_ (app.dash m) = main.noteSourceMode ->
  app.editorKeys (app.dash m) ->
  files w !! main.editingNotePath (app.dash m) = Some os.Unreadable ->
  (msg = tea.tickMsg -> app.saveMessageTimer m <= 0) ->
  let r1 :=
    app.Update updateSetupWeather updateSetupCalendar w m (tea.KeyMsg "ctrl+s") in
  let m1 := snd (fst r1) in
  let r2 := app.Update updateSetupWeather updateSetupCalendar w2 m1 msg in
  files (fst (fst r1)) = files w
  /\ snd r1 = []
  /\ app.err m1
     = Some (errorString ("could not save note: " +:+ notes.error_text ErrPermission))
  /\ app.dash m1 = app.dash m
  /\ fst (fst r2) = w2
  /\ snd r2 = [tea.Quit]
  /\ main.noteEditor (app.dash (snd (fst r2))) = main.noteEditor (app.dash m)
  /\ app.err (snd (fst r2)) = app.err m1.
Proof.
  intros E S Mo K U T r1 m1 r2.
  destruct (editorKeys_lists _ K) as (KT & KS & KC).
  destruct K as (L & ET & EC & ES).
  assert (R1 : r1 = (set_files w (files w),
                     app.set_err m
                       (Some (errorString ("could not save note: "
                                           +:+ notes.error_text ErrPermission))),
                     [])).
  { subst r1. rewrite (Update_editor_key w m "ctrl+s" E S).
    unfold app.updateNoteEditor, app.noteEditorKey, key.Matches.
    rewrite KT, KS, KC, ET, EC, ES, Mo.
    rewrite bool_decide_eq_true_2 by reflexivity.
    cbn [existsb String.eqb Ascii.eqb Bool.eqb andb orb].
    unfold app.saveNote. rewrite Mo. destruct (decide _); [| done].
    unfold os.WriteFile. by rewrite U. }
  subst m1 r2. rewrite R1. cbn [fst snd files set_files]. app_simpl.
  do 4 (split; [done |]).
  unfold app.Update.
  destruct msg as [k | | Wd Ht | | | | | | | | |]; cbn [app.beforeDispatch]; app_simpl;
    try done.
  assert (Z : (0 <? app.saveMessageTimer m) = false).
  { apply Z.ltb_ge. by apply T. }
  by rewrite Z.
Qed.

(** One tick of the save message. *)
Lemma Update_tick (w : World) (m : app.model) :
  0 < app.saveMessageTimer m ->
  app.Update updateSetupWeather updateSetupCalendar w m tea.tickMsg
  = (w,
     (if app.saveMessageTimer m =? 1
      then app.set_saveMessage
             (app.set_saveMessageTimer m (app.saveMessageTimer m - 1)) ""
      else app.set_saveMessageTimer m (app.saveMessageTimer m - 1)),
     [tea.tickCmd]).
Proof.
  intros P. unfold app.Update. cbn [app.beforeDispatch].
  apply Z.ltb_lt in P. rewrite P. app_simpl.
  destruct (app.saveMessageTimer m - 1 =? 0) eqn:A, (app.saveMessageTimer m =? 1) eqn:B;
    try reflexivity; lia.
Qed.

(** X29: the save message expires. While its timer runs, a tick takes one
    off the timer, asks for the next tick and goes no further: it reaches
    neither the error check nor a panel. The message is cleared by the
    tick that brings the timer to zero, so after as many ticks as the timer
    counts the message is gone; nothing else has changed. *)
Theorem save_message_expires (w : World) (m : app.model) (times : list time.Time) :
  0 < app.saveMessageTimer m ->
  Z.of_nat (length times) = app.saveMessageTimer m ->
  let r := app.Update updateSetupWeather updateSetupCalendar w m tea.tickMsg in
  let after :=
    app.run updateSetupWeather updateSetupCalendar w m
      (List.map (fun t => (t, tea.tickMsg)) times) in
  fst (fst r) = w
  /\ snd r = [tea.tickCmd]
  /\ app.saveMessageTimer (snd (fst r)) = app.saveMessageTimer m - 1
  /\ app.saveMessage (snd (fst r))
     = (if app.saveMessageTimer m =? 1 then "" else app.saveMessage m)
  /\ app.dash (snd (fst r)) = app.dash m
  /\ app.saveMessageTimer (snd after) = 0
  /\ app.saveMessage (snd after) = ""
  /\ app.dash (snd after) = app.dash m
  /\ app.err (snd after) = app.err m
  /\ files (fst after) = files w.
Proof.
  intros P Len r after. subst r. rewrite (Update_tick w m P). cbn [fst snd].
  split; [done |]. split; [done |].
  split; [by destruct (_ =? 1) |]. split; [by destruct (_ =? 1) |].
  split; [by destruct (_ =? 1) |].
  subst after. clear -P Len. revert w m P Len.
  induction times as [| t rest IH]; intros w m P Len; [cbn in Len; lia |].
  cbn [List.map app.run]. rewrite Update_tick by exact P.
  cbn [length] in Len.
  destruct (app.saveMessageTimer m =? 1) eqn:A.
  - apply Z.eqb_eq in A. destruct rest as [| t' rest']; [| cbn [length] in Len; lia].
    cbn [List.map app.run fst snd]. app_simpl. cbn [files]. repeat split. lia.
  - apply Z.eqb_neq in A.
    match goal with
    | |- context [app.run _ _ ?w1 ?m1 _] => specialize (IH w1 m1)
    end.
    app_simpl. cbn [files] in IH. apply IH; app_simpl; lia.
Qed.

(** X30: the keys that change the mode of the note editor. In preview
    mode the toggle key goes to source mode, and the cancel key goes back
    to the dashboard. In source mode the toggle key is not a command: it
    is handed to the text area like any other character, and the text
    counts as unsaved exactly when it differs from the original. *)
Theorem editor_mode_keys (w : World) (m : app.model) :
  app.err m = None ->
  main.state (app.dash m) = main.stateEditingNote ->
  app.editorKeys (app.dash m) ->
  let r := app.Update updateSetupWeather updateSetupCalendar w m (tea.KeyMsg "i") in
  let q := app.Update updateSetupWeather updateSetupCalendar w m (tea.KeyMsg "esc") in
  (main.noteEditorMode_ (app.dash m) = main.notePreviewMode ->
   fst (fst r) = w /\ snd r = []
   /\ main.noteEditorMode_ (app.dash (snd (fst r))) = main.noteSourceMode
   /\ main.noteEditor (app.dash (snd (fst r))) = main.noteEditor (app.dash m)
   /\ app.editorKeys (app.dash (snd (fst r)))
   /\ fst (fst q) = w /\ snd q = []
   /\ main.state (app.dash (snd (fst q))) = main.stateDashboard
   /\ main.dashboardKeys (main.keys (app.dash (snd (fst q)))))
  /\ (main.noteEditorMode_ (app.dash m) = main.noteSourceMode ->
      let typed := textarea_Update (main.noteEditor (app.dash m)) (tea.KeyMsg "i") in
      fst (fst r) = w /\ snd r = snd typed
      /\ main.noteEditorMode_ (app.dash (snd (fst r))) = main.noteSourceMode
      /\ main.noteEditor (app.dash (snd (fst r))) = fst typed
      /\ main.hasUnsavedChanges (app.dash (snd (fst r)))
         = negb (String.eqb (fst typed) (main.originalContent (app.dash m)))).
Proof.
  intros E S K r q. subst r q.
  destruct (editorKeys_lists _ K) as (KT & KS & KC).
  pose proof K as (L & ET & EC & ES).
  rewrite !(Update_editor_key w m _ E S).
  unfold app.updateNoteEditor, app.noteEditorKey, key.Matches.
  rewrite KT, KS, KC, ET, EC, ES.
  cbn [existsb String.eqb Ascii.eqb Bool.eqb andb orb]. rewrite andb_false_r.
  split; intros Mo; rewrite Mo.
  - destruct (decide _); [| done]. cbn [fst snd]. app_simpl.
    destruct (updateKeybindings_editor
                (main.set_noteEditorMode (app.dash m) main.noteSourceMode))
      as [K1 D1]; [done | by main_simpl |].
    split; [done |]. split; [done |].
    split; [rewrite D1; by main_simpl |]. split; [rewrite D1; by main_simpl |].
    split; [exact K1 |].
    unfold app.cancelNote. rewrite Mo. destruct (decide _); [done |]. cbn [fst snd].
    app_simpl.
    destruct (updateKeybindings_dashboard
                (main.set_state (app.dash m) main.stateDashboard))
      as [K2 S2]; [done | by main_simpl |].
    done.
  - destruct (decide _); [done |]. cbv zeta.
    destruct (decide _); [| done].
    destruct (textarea_Update _ _) as [editor cmd]. cbn [fst snd]. app_simpl.
    main_simpl. done.
Qed.

End note_editor.

Lemma unsaved_changes_ask_first_witness :
  let r1 := @app.Update simple.components simple_editor.editor
              simple_editor.noSetup simple_editor.noSetup
              sample_notes.withPlan sample_editor.edited (tea.KeyMsg "esc") in
  let r2 := @app.Update simple.components simple_editor.editor
              simple_editor.noSetup simple_editor.noSetup
              sample_notes.withPlan (snd (fst r1)) (tea.KeyMsg "enter") in
  main.state (app.dash (snd (fst r1))) = main.stateExitConfirmation
  /\ main.state (app.dash (snd (fst r2))) = main.stateEditingNote
  /\ main.noteEditor (app.dash (snd (fst r2))) = "# Plan: Q4".
Proof.
  pose proof (@unsaved_changes_ask_first simple.components simple_editor.editor
                simple_editor.noSetup simple_editor.noSetup
                sample_notes.withPlan sample_notes.withPlan sample_editor.edited
                eq_refl eq_refl eq_refl) as P.
  cbv zeta in P.
  destruct P as (_ & _ & P1 & _ & _ & _ & _ & P2 & _ & P3 & _);
    [repeat split | discriminate |].
  cbv zeta. split; [exact P1 |]. split; [exact P2 | exact P3].
Defined.

Lemma Yes_discards_the_edits_witness :
  let r1 := @app.Update simple.components simple_editor.editor
              simple_editor.noSetup simple_editor.noSetup
              sample_notes.withPlan sample_editor.asking (tea.KeyMsg "y") in
  let r2 := @app.Update simple.components simple_editor.editor
              simple_editor.noSetup simple_editor.noSetup
              sample_notes.withPlan (snd (fst r1)) (tea.KeyMsg "enter") in
  main.state (app.dash (snd (fst r1))) = main.stateExitConfirmation
  /\ main.noteEditorMode_ (app.dash (snd (fst r2))) = main.notePreviewMode
  /\ main.noteEditor (app.dash (snd (fst r2))) = "# Plan: Q3".
Proof.
  pose proof (@Yes_discards_the_edits simple.components simple_editor.editor
                simple_editor.noSetup simple_editor.noSetup
                sample_notes.withPlan sample_notes.withPlan sample_editor.asking "y"
                eq_refl eq_refl eq_refl) as P.
  cbv zeta in P.
  destruct P as (_ & _ & _ & P1 & _ & _ & _ & P2 & P3 & _); [by left |].
  cbv zeta. split; [by rewrite P1 |]. split; [exact P2 | exact P3].
Defined.

Lemma saved_note_leaves_without_asking_witness :
  let r1 := @app.Update simple.components simple_editor.editor
              simple_editor.noSetup simple_editor.noSetup
              sample_notes.withPlan sample_editor.edited (tea.KeyMsg "ctrl+s") in
  let r2 := @app.Update simple.components simple_editor.editor
              simple_editor.noSetup simple_editor.noSetup
              sample_notes.withPlan (snd (fst r1)) (tea.KeyMsg "esc") in
  files (fst (fst r1)) !! sample_notes.planPath = Some (os.Regular "# Plan: Q4")
  /\ main.state (app.dash (snd (fst r2))) = main.stateEditingNote
  /\ main.noteEditorMode_ (app.dash (snd (fst r2))) = main.notePreviewMode.
Proof.
  pose proof (@saved_note_leaves_without_asking simple.components simple_editor.editor
                simple_editor.noSetup simple_editor.noSetup
                sample_notes.withPlan sample_notes.withPlan sample_editor.edited
                "Plan-Q3.md" eq_refl eq_refl eq_refl) as P.
  cbv zeta in P.
  destruct P as (P1 & _ & _ & _ & _ & _ & _ & _ & _ & _ & P2 & P3 & _);
    [repeat split | reflexivity | discriminate | reflexivity | reflexivity
     | discriminate |].
  cbv zeta. split; [rewrite P1; apply lookup_insert_eq |]. split; [exact P2 | exact P3].
Defined.

Lemma failed_save_quits_witness :
  let r1 := @app.Update simple.components simple_editor.editor
              simple_editor.noSetup simple_editor.noSetup
              sample_editor.locked sample_editor.edited (tea.KeyMsg "ctrl+s") in
  let r2 := @app.Update simple.components simple_editor.editor
              simple_editor.noSetup simple_editor.noSetup
              sample_editor.locked (snd (fst r1)) (tea.KeyMsg "x") in
  snd r1 = [] /\ snd r2 = [tea.Quit].
Proof.
  pose proof (@failed_save_quits simple.components simple_editor.editor
                simple_editor.noSetup simple_editor.noSetup
                sample_editor.locked sample_editor.locked sample_editor.edited
                (tea.KeyMsg "x") eq_refl eq_refl eq_refl) as P.
  cbv zeta in P.
  destruct P as (_ & P1 & _ & _ & _ & P2 & _);
    [repeat split | reflexivity | discriminate |].
  cbv zeta. split; [exact P1 | exact P2].
Defined.

Lemma save_message_expires_witness :
  let after := @app.run simple.components simple_editor.editor
                 simple_editor.noSetup simple_editor.noSetup
                 world.fresh sample_editor.justSaved
                 (List.map (fun t => (t, tea.tickMsg))
                    [world.noon; world.noon; world.noon]) in
  app.saveMessageTimer (snd after) = 0 /\ app.saveMessage (snd after) = "".
Proof.
  pose proof (@save_message_expires simple.components simple_editor.editor
                simple_editor.noSetup simple_editor.noSetup
                world.fresh sample_editor.justSaved
                [world.noon; world.noon; world.noon]) as P.
  cbv zeta in P.
  destruct P as (_ & _ & _ & _ & _ & P1 & P2 & _); [reflexivity | reflexivity |].
  cbv zeta. split; [exact P1 | exact P2].
Defined.

Lemma editor_mode_keys_witness :
  let r := @app.Update simple.components simple_editor.editor
             simple_editor.noSetup simple_editor.noSetup
             world.fresh sample_editor.source (tea.KeyMsg "i") in
  main.noteEditorMode_ (app.dash (snd (fst r))) = main.noteSourceMode
  /\ main.noteEditor (app.dash (snd (fst r))) = "# Plan: Q3i".
Proof.
  pose proof (@editor_mode_keys simple.components simple_editor.editor
                simple_editor.noSetup simple_editor.noSetup
                world.fresh sample_editor.source eq_refl eq_refl) as P.
  cbv zeta in P. destruct P as [_ P]; [repeat split |].
  destruct P as (_ & _ & P1 & P2 & _); [reflexivity |].
  cbv zeta. split; [exact P1 | exact P2].
Defined.
